(** * HW_Big_Biostat: the analysis scripts over a shallow model of the tables

    The repository is a set of one-shot Python scripts over one CSV table.
    The tables (pandas DataFrames), the dictionaries and the script effects
    (directories made, files read and written, messages printed, exit codes)
    are modelled explicitly.

    Two models of floating-point numbers are used.  [Double] is IEEE 754
    binary64 with round-to-nearest-even, the arithmetic of the code: the IQR
    rule of [OutlierDouble], the p-value thresholds of the two test scripts
    and the percentages of class_stats.py are computed in it.  [Float] takes
    finite floats as exact rationals and NaN as [None]; the structure of the
    outputs of outlier.py (which rows, columns, keys and counts there are) is
    proved over it. *)

From Stdlib Require Import List String Ascii Bool Arith ZArith QArith Qround Lia.
From Stdlib Require Import Floats.SpecFloat.
From Stdlib Require DecimalString DecimalZ.
Import ListNotations.

Local Open Scope list_scope.

(** ** Floats: a rational, or NaN *)

Module Float.

Definition float := option Q.

Definition nan : float := None.

Definition Qltb (x y : Q) : bool := negb (Qle_bool y x).

Definition isna (x : float) : bool :=
  match x with None => true | Some _ => false end.

Definition sub (x y : float) : float :=
  match x, y with Some a, Some b => Some (a - b) | _, _ => None end.

Definition add (x y : float) : float :=
  match x, y with Some a, Some b => Some (a + b) | _, _ => None end.

Definition mul (x y : float) : float :=
  match x, y with Some a, Some b => Some (a * b) | _, _ => None end.

(** Comparisons with NaN are false, as in IEEE 754. *)
Definition lt (x y : float) : bool :=
  match x, y with Some a, Some b => Qltb a b | _, _ => false end.

Definition gt (x y : float) : bool := lt y x.

Definition eq (x y : float) : bool :=
  match x, y with Some a, Some b => Qeq_bool a b | _, _ => false end.

End Float.

(** ** Doubles: IEEE 754 binary64, as numpy and Python compute *)

Module Double.

Definition prec : Z := 53.
Definition emax : Z := 1024.

Definition float := spec_float.

Definition nan : float := S754_nan.
Definition zero : float := S754_zero false.

(** The four operations, each rounded to the nearest double, ties to even. *)
Definition add : float -> float -> float := SFadd prec emax.
Definition sub : float -> float -> float := SFsub prec emax.
Definition mul : float -> float -> float := SFmul prec emax.
Definition div : float -> float -> float := SFdiv prec emax.

(** Comparisons; with NaN they are false. *)
Definition lt : float -> float -> bool := SFltb.
Definition gt (x y : float) : bool := SFltb y x.
Definition eq : float -> float -> bool := SFeqb.

Definition isna (x : float) : bool :=
  match x with S754_nan => true | _ => false end.

(** The double nearest to an integer. *)
Definition of_Z (z : Z) : float := binary_normalize prec emax z 0 false.

Definition of_nat (n : nat) : float := of_Z (Z.of_nat n).

(** The double nearest to a rational: what a decimal literal becomes, and
    the double a table cell [VNum q] stands for (a cell that holds a double
    stands for itself).  The quotient is rounded once. *)
Definition of_Q (q : Q) : float :=
  match Qnum q with
  | Z0 => zero
  | Zpos p => div (S754_finite false p 0) (S754_finite false (Qden q) 0)
  | Zneg p => div (S754_finite true p 0) (S754_finite false (Qden q) 0)
  end.

(** [round(x, ndigits)] is the library's; a rounded value is kept as the
    call that produces it. *)
Inductive rounded := Round (x : float) (ndigits : nat).

End Double.

(** ** Python dictionaries: insertion-ordered, keyed by strings *)

Module Dict.

Definition dict (V : Type) := list (string * V).

Fixpoint get {V} (d : dict V) (k : string) : option V :=
  match d with
  | [] => None
  | (k', v) :: rest => if String.eqb k' k then Some v else get rest k
  end.

(** [d[k] = v]: an existing key keeps its place, a new one goes last. *)
Fixpoint set {V} (d : dict V) (k : string) (v : V) : dict V :=
  match d with
  | [] => [(k, v)]
  | (k', v') :: rest =>
      if String.eqb k' k then (k', v) :: rest else (k', v') :: set rest k v
  end.

Definition items {V} (d : dict V) : list (string * V) := d.

Definition keys {V} (d : dict V) : list string := map fst d.

End Dict.

(** ** Tables: the part of pandas the scripts use *)

Module Frame.
Import Float.

(** A cell of a table as [read_csv] yields it. *)
Inductive cell :=
| VNum (q : Q)
| VStr (s : string)
| VBool (b : bool)
| VNaN.

(** The column types [read_csv] infers. *)
Inductive dtype := object | int64 | uint64 | float64 | bool_.

Record column := mkColumn {
  col_name : string;
  col_dtype : dtype;
  col_values : list cell
}.

(** A table: its index [0 .. nrows-1] and its columns in order. *)
Record DataFrame := mkFrame {
  nrows : nat;
  frame_columns : list column
}.

Definition columns (df : DataFrame) : list string :=
  map col_name (frame_columns df).

(** [c in df.columns] *)
Definition has_column (df : DataFrame) (c : string) : bool :=
  existsb (String.eqb c) (columns df).

Fixpoint find_column (cs : list column) (c : string) : option column :=
  match cs with
  | [] => None
  | x :: rest => if String.eqb (col_name x) c then Some x else find_column rest c
  end.

(** [df[c]]; [None] stands for the KeyError of a missing column. *)
Definition get_column (df : DataFrame) (c : string) : option column :=
  find_column (frame_columns df) c.

(** Every column has one cell per row, and names are not repeated
    ([read_csv] renames repeated headers). *)
Definition well_formed (df : DataFrame) : Prop :=
  NoDup (columns df) /\
  Forall (fun x => List.length (col_values x) = nrows df) (frame_columns df).

Definition cell_isna (v : cell) : bool :=
  match v with VNaN => true | _ => false end.

(** [s.dropna()] *)
Definition dropna (vs : list cell) : list cell :=
  filter (fun v => negb (cell_isna v)) vs.

Section Numeric.

(** The parser of numeric strings behind [pd.to_numeric] is pandas code;
    it is a parameter here. *)
Variable parse_float : string -> float.

(** [pd.to_numeric(_, errors="coerce")] on one cell. *)
Definition to_numeric_cell (v : cell) : float :=
  match v with
  | VNum q => Some q
  | VStr s => parse_float s
  | VBool b => Some (if b then 1 else 0)%Q
  | VNaN => None
  end.

Definition to_numeric (vs : list cell) : list float :=
  map to_numeric_cell vs.

End Numeric.

Fixpoint insert_sorted (x : Q) (xs : list Q) : list Q :=
  match xs with
  | [] => [x]
  | y :: rest => if Qle_bool x y then x :: xs else y :: insert_sorted x rest
  end.

Definition sort_values (xs : list Q) : list Q :=
  fold_right insert_sorted [] xs.

Fixpoint present (s : list float) : list Q :=
  match s with
  | [] => []
  | Some q :: rest => q :: present rest
  | None :: rest => present rest
  end.

(** [s.quantile(q)] with the default linear interpolation: NaN is skipped,
    the position [q * (n - 1)] is interpolated between its two neighbours,
    and the quantile of no value is NaN. *)
Definition quantile (s : list float) (q : Q) : float :=
  let xs := sort_values (present s) in
  match xs with
  | [] => None
  | x0 :: _ =>
      let pos := (q * (inject_Z (Z.of_nat (List.length xs)) - 1))%Q in
      let lo := Qfloor pos in
      let frac := (pos - inject_Z lo)%Q in
      let a := nth (Z.to_nat lo) xs x0 in
      let b := nth (Z.to_nat lo + 1) xs a in
      Some (a + (b - a) * frac)%Q
  end.

(** [df[name] = values]: an existing column is replaced where it stands, a
    new one goes last. *)
Fixpoint set_in (cs : list column) (x : column) : list column :=
  match cs with
  | [] => [x]
  | y :: rest =>
      if String.eqb (col_name y) (col_name x) then x :: rest
      else y :: set_in rest x
  end.

Definition set_column (df : DataFrame) (x : column) : DataFrame :=
  mkFrame (nrows df) (set_in (frame_columns df) x).

(** [df.shape] *)
Definition shape (df : DataFrame) : nat * nat :=
  (nrows df, List.length (frame_columns df)).

(** The number a cell contributes to a sum; NaN is skipped, text is a
    TypeError ([None]). *)
Definition cell_number (v : cell) : option Q :=
  match v with
  | VNum q => Some q
  | VBool b => Some (if b then 1 else 0)%Q
  | VNaN => Some 0%Q
  | VStr _ => None
  end.

(** Row [i] of [df[cols].sum(axis=1)]. *)
Fixpoint row_sum (cols : list column) (i : nat) : option Q :=
  match cols with
  | [] => Some 0%Q
  | x :: rest =>
      match cell_number (nth i (col_values x) VNaN), row_sum rest i with
      | Some a, Some b => Some (a + b)%Q
      | _, _ => None
      end
  end.

Fixpoint sequence {A} (l : list (option A)) : option (list A) :=
  match l with
  | [] => Some []
  | None :: _ => None
  | Some a :: rest =>
      match sequence rest with Some r => Some (a :: r) | None => None end
  end.

(** [s.sum()] of one column. *)
Fixpoint column_sum (vs : list cell) : option Q :=
  match vs with
  | [] => Some 0%Q
  | v :: rest =>
      match cell_number v, column_sum rest with
      | Some a, Some b => Some (a + b)%Q
      | _, _ => None
      end
  end.

(** [.astype(int)] of a truth value *)
Definition int_of_bool (b : bool) : cell := VNum (if b then 1 else 0)%Q.

End Frame.

(** ** Script effects: what a run does to the outside, in order *)

Module Script.
Import Frame.

Inductive exn :=
| KeyError (key : string)
| ValueError
| TypeError
| OSError (path : string).

(** How a run ends: a normal return, [sys.exit(code)], or an exception
    nobody caught. *)
Inductive outcome (A : Type) :=
| Return (a : A)
| SysExit (code : Z)
| Raise (e : exn).
Arguments Return {A} a.
Arguments SysExit {A} code.
Arguments Raise {A} e.

(** The messages of the scripts; [F] is what a script writes to files and
    prints as a report. *)
Inductive message (F : Type) :=
| MsgInputMissing (in_path : string)
| MsgLoaded (in_path : string) (shape : nat * nat)
| MsgColumns (cols : list string)
| MsgNoColumns
| MsgSkipped (var : string)
| MsgReport (f : F)
| MsgSaved (path : string).
Arguments MsgInputMissing {F} in_path.
Arguments MsgLoaded {F} in_path shape.
Arguments MsgColumns {F} cols.
Arguments MsgNoColumns {F}.
Arguments MsgSkipped {F} var.
Arguments MsgReport {F} f.
Arguments MsgSaved {F} path.

Inductive event (F : Type) :=
| MakeDirs (path : string)
| ReadCsv (path : string)
| WriteFile (path : string) (f : F)
| Stdout (m : message F)
| Stderr (m : message F).
Arguments MakeDirs {F} path.
Arguments ReadCsv {F} path.
Arguments WriteFile {F} path f.
Arguments Stdout {F} m.
Arguments Stderr {F} m.

(** A script over events [E]: the events it emitted and how it ended. *)
Definition script (E A : Type) : Type := list E * outcome A.

Definition ret {E A} (a : A) : script E A := ([], Return a).

Definition bind {E A B} (m : script E A) (k : A -> script E B) : script E B :=
  match m with
  | (t, Return a) => let (t', o) := k a in (t ++ t', o)
  | (t, SysExit c) => (t, SysExit c)
  | (t, Raise e) => (t, Raise e)
  end.

Definition emit {E} (ev : E) : script E unit := ([ev], Return tt).
Definition sys_exit {E A} (code : Z) : script E A := ([], SysExit code).
Definition raise {E A} (e : exn) : script E A := ([], Raise e).

(** [try: m except Exception as e: h e]; [sys.exit] is not an [Exception]. *)
Definition try_except {E A} (m : script E A) (h : exn -> script E A) : script E A :=
  match m with
  | (t, Raise e) => let (t', o) := h e in (t ++ t', o)
  | _ => m
  end.

Definition trace {E A} (m : script E A) : list E := fst m.
Definition result {E A} (m : script E A) : outcome A := snd m.

(** The files a run wrote, in order. *)
Fixpoint written {F} (t : list (event F)) : list (string * F) :=
  match t with
  | [] => []
  | WriteFile p f :: rest => (p, f) :: written rest
  | _ :: rest => written rest
  end.

(** The reports a run printed, in order. *)
Fixpoint reports {F} (t : list (event F)) : list F :=
  match t with
  | [] => []
  | Stdout (MsgReport f) :: rest => f :: reports rest
  | _ :: rest => reports rest
  end.

(** A run that stops at the input check: having made its directories it
    prints the error to stderr and exits with status 1, and has read and
    written nothing. *)
Definition stops_at_input_check {F A} (dirs : list string) (in_path : string)
  (m : script (event F) A) : Prop :=
  m = (map MakeDirs dirs ++ [Stderr (MsgInputMissing in_path)], SysExit 1).

(** A run that passes the input check: having made its directories it
    reads the input, and it does not end in [sys.exit]. *)
Definition passes_input_check {F A} (dirs : list string) (in_path : string)
  (m : script (event F) A) : Prop :=
  (exists rest, trace m = map MakeDirs dirs ++ ReadCsv in_path :: rest) /\
  forall code, result m <> SysExit code.

(** [os.makedirs] raises an OSError where the directory cannot be made (the
    empty path, a file in the way, no permission).  The analysis scripts
    call it, as [emit (MakeDirs _)], without a handler: in a world where
    [can_make] tells which directories can be made, such a script runs as
    written up to its first call on a directory that cannot be made, and
    ends there with that error. *)
Fixpoint first_failure {F} (can_make : string -> bool) (t : list (event F))
  : list (event F) * option string :=
  match t with
  | [] => ([], None)
  | MakeDirs d :: rest =>
      if can_make d then
        let (t', f) := first_failure can_make rest in (MakeDirs d :: t', f)
      else ([], Some d)
  | ev :: rest =>
      let (t', f) := first_failure can_make rest in (ev :: t', f)
  end.

Definition run_in {F A} (can_make : string -> bool) (m : script (event F) A)
  : script (event F) A :=
  match first_failure can_make (trace m) with
  | (t, Some d) => (t, Raise (OSError d))
  | (t, None) => (t, result m)
  end.

(** What a script sees of the file system: whether a path exists when the
    script asks, and the table [pd.read_csv] parses from a path. *)
Record env := mkEnv {
  path_exists : string -> bool;
  read_csv : string -> DataFrame
}.

(** [s.endswith(suffix)] *)
Definition ends_with (suffix s : string) : bool :=
  let n := String.length s in
  let m := String.length suffix in
  (m <=? n)%nat && String.eqb (substring (n - m) m s) suffix.

(** [os.path.join(a, b)] for a relative [b]. *)
Definition path_join (a b : string) : string :=
  if String.eqb a "" then b
  else if ends_with "/" a then (a ++ b)%string
  else (a ++ "/" ++ b)%string.

Module Notations.
Notation "x <- m ;; k" := (bind m (fun x => k))
  (at level 61, m at next level, right associativity).
Notation "m ;;; k" := (bind m (fun _ => k))
  (at level 61, right associativity).
End Notations.

End Script.

(** ** src/outlier.py

    In this module finite floats are exact rationals: it gives the structure
    of what the script computes and writes.  Its arithmetic is not that of
    the code, and it coerces the booleans of a column of dtype bool as it
    does those of an object column, where the code raises a TypeError; the
    IQR rule with the arithmetic of the code and with that error is
    [OutlierDouble], below. *)

Module Outlier.
Import Float Dict Frame.

Definition DEFAULT_CONTINUOUS : list string :=
  ["BMI"; "MentHlth"; "PhysHlth"]%string.

Section Detect.

Variable parse_float : string -> float.

(** The body of the loop of [detect_outliers_iqr] for one column [s]
    (already coerced): its mask and its bounds. *)
Definition iqr_mask (n : nat) (k : float) (s : list float)
  : list bool * (float * float) :=
  let q1 := quantile s (1 # 4) in
  let q3 := quantile s (3 # 4) in
  let iqr := sub q3 q1 in
  if isna iqr || eq iqr (Some 0%Q) then
    (repeat false n, (nan, nan))
  else
    let lower := sub q1 (mul k iqr) in
    let upper := add q3 (mul k iqr) in
    let mask := map (fun v => (lt v lower || gt v upper) && negb (isna v)) s in
    (mask, (lower, upper)).

(** The mask and bounds the loop body computes for the column [x]. *)
Definition column_result (df : DataFrame) (k : float) (x : column) :=
  iqr_mask (nrows df) k (to_numeric parse_float (col_values x)).


Definition masks := dict (list bool).
Definition bounds_map := dict (float * float).

Fixpoint detect_loop (df : DataFrame) (k : float) (cols : list string)
  (mask_map : masks) (bounds : bounds_map) : option (masks * bounds_map) :=
  match cols with
  | [] => Some (mask_map, bounds)
  | c :: rest =>
      match get_column df c with
      | None => None
      | Some x =>
          let s := to_numeric parse_float (col_values x) in
          let '(m, b) := iqr_mask (nrows df) k s in
          detect_loop df k rest (Dict.set mask_map c m) (Dict.set bounds c b)
      end
  end.

(** [detect_outliers_iqr(df, cols, k)]; [None] is the KeyError of [df[c]]. *)
Definition detect_outliers_iqr (df : DataFrame) (cols : list string) (k : float)
  : option (masks * bounds_map) :=
  detect_loop df k cols [] [].

End Detect.

(** [[c for c in DEFAULT_CONTINUOUS if c in df.columns]] *)
Definition continuous_cols (df : DataFrame) : list string :=
  filter (has_column df) DEFAULT_CONTINUOUS.

(** The rows of [outliers_summary.csv] and of [outliers_indices.csv]. *)
Record summary_row := mkSummary {
  sr_method : string;
  sr_column : string;
  n_outliers : Z;
  pct_outliers : float
}.

Record index_row := mkIndex {
  ir_method : string;
  ir_column : string;
  row_index : nat
}.

(** [m.sum()] and [m.mean()] of a mask *)
Definition mask_sum (m : list bool) : Z :=
  Z.of_nat (List.length (filter (fun b => b) m)).

Definition mask_mean (m : list bool) : float :=
  match m with
  | [] => nan
  | _ => Some (inject_Z (mask_sum m) / inject_Z (Z.of_nat (List.length m)))%Q
  end.

Definition mask_groups_t := dict masks.

(** [sort_values(["column", "method"])]: by column, then by method; stable. *)
Definition summary_le (a b : summary_row) : bool :=
  match String.compare (sr_column a) (sr_column b) with
  | Lt => true
  | Gt => false
  | Eq => String.leb (sr_method a) (sr_method b)
  end.

Definition summary_order (a b : summary_row) : Prop := summary_le a b = true.

Fixpoint insert_row (r : summary_row) (rows : list summary_row) : list summary_row :=
  match rows with
  | [] => [r]
  | x :: rest =>
      if summary_le r x then r :: rows else x :: insert_row r rest
  end.

Definition sort_rows (rows : list summary_row) : list summary_row :=
  fold_right insert_row [] rows.

Definition summary_rows (mask_groups : mask_groups_t) : list summary_row :=
  flat_map (fun '(method, masks) =>
    map (fun '(c, m) =>
      mkSummary method c (mask_sum m) (mul (mask_mean m) (Some 100%Q)))
      (items masks))
    (items mask_groups).

(** [summarize_masks]; sorting a table that has no rows, hence no columns,
    is a KeyError ([None]). *)
Definition summarize_masks (mask_groups : mask_groups_t) : option (list summary_row) :=
  match summary_rows mask_groups with
  | [] => None
  | rows => Some (sort_rows rows)
  end.

(** [m[m].index.tolist()]: the positions where the mask is true *)
Fixpoint true_indices (i : nat) (m : list bool) : list nat :=
  match m with
  | [] => []
  | b :: rest => if b then i :: true_indices (S i) rest else true_indices (S i) rest
  end.

Definition masks_to_long_indices (mask_groups : mask_groups_t) : list index_row :=
  flat_map (fun '(method, masks) =>
    flat_map (fun '(c, m) => map (mkIndex method c) (true_indices 0 m))
      (items masks))
    (items mask_groups).

(** The rows of the long table for one (method, column) pair. *)
Definition rows_of (method c : string) (indices : list index_row) : list index_row :=
  filter (fun r => String.eqb (ir_method r) method && String.eqb (ir_column r) c)
    indices.

Definition iqr_suffix : string := "__iqr_outlier".
Definition any_flag_name : string := "__any_outlier_flag".

(** [m.astype(int)] under the name [f"{c}__iqr_outlier"] *)
Definition flag_column (c : string) (m : list bool) : column :=
  mkColumn (c ++ iqr_suffix) int64 (map int_of_bool m).

(** Lines 135-139 of [main]: the copy of the table with one flag column set
    per mask. *)
Definition set_flags (df : DataFrame) (mask_groups : mask_groups_t) : DataFrame :=
  fold_left (fun flagged '(method, masks) =>
    fold_left (fun flagged '(c, m) => set_column flagged (flag_column c m))
      (items masks) flagged)
    (items mask_groups) df.

(** Lines 142-143 of [main]: the row-wise flag over every column whose name
    ends in the suffix. *)
Definition flag_cols (flagged : DataFrame) : list column :=
  filter (fun x => Script.ends_with iqr_suffix (col_name x)) (frame_columns flagged).

Definition any_flag_values (flagged : DataFrame) : option (list cell) :=
  match flag_cols flagged with
  | [] => Some (repeat (VNum 0) (nrows flagged))
  | cols =>
      match sequence (map (row_sum cols) (seq 0 (nrows flagged))) with
      | Some sums => Some (map (fun q => int_of_bool (Qltb 0 q)) sums)
      | None => None
      end
  end.

Record meta := mkMeta {
  meta_input : string;
  meta_shape : nat * nat;
  meta_continuous_cols : list string;
  meta_iqr_k : float;
  meta_iqr_bounds : bounds_map
}.

(** What [outlier.py] writes. *)
Inductive output :=
| FlaggedCsv (df : DataFrame)
| SummaryCsv (rows : list summary_row)
| IndicesCsv (rows : list index_row)
| MetaJson (m : meta).

Record args := mkArgs {
  input : string;
  outdir : string;
  iqr_k : float
}.

Definition default_args : args :=
  mkArgs "dataset_891/combined.csv" "output" (Some (3 # 2)).

Section Main.
Import Script Script.Notations.

Variable parse_float : string -> float.

Definition lift_key {A} (key : string) (o : option A) : script (event output) A :=
  match o with Some a => ret a | None => raise (KeyError key) end.

Definition main (e : env) (a : args) : script (event output) unit :=
  let in_path := input a in
  let outdir := outdir a in
  emit (MakeDirs outdir) ;;;
  if negb (path_exists e in_path) then
    emit (Stderr (MsgInputMissing in_path)) ;;;
    sys_exit 1
  else
    emit (ReadCsv in_path) ;;;
    let df := read_csv e in_path in
    emit (Stdout (MsgLoaded in_path (shape df))) ;;;
    let continuous_cols := continuous_cols df in
    emit (Stdout (MsgColumns continuous_cols)) ;;;
    match continuous_cols with
    | [] => emit (Stdout MsgNoColumns)
    | _ =>
        r <- lift_key "" (detect_outliers_iqr parse_float df continuous_cols (iqr_k a)) ;;
        let '(iqr_masks, iqr_bounds) := r in
        let mask_groups := [("iqr_outlier"%string, iqr_masks)] in
        summary <- lift_key "column" (summarize_masks mask_groups) ;;
        let indices_long := masks_to_long_indices mask_groups in
        emit (Stdout (MsgReport (SummaryCsv summary))) ;;;
        let flagged := set_flags df mask_groups in
        any <- match any_flag_values flagged with
               | Some vs => ret vs
               | None => raise TypeError
               end ;;
        let flagged_df := set_column flagged (mkColumn any_flag_name int64 any) in
        emit (WriteFile (path_join outdir "outliers_flagged.csv") (FlaggedCsv flagged_df)) ;;;
        emit (WriteFile (path_join outdir "outliers_summary.csv") (SummaryCsv summary)) ;;;
        emit (WriteFile (path_join outdir "outliers_indices.csv") (IndicesCsv indices_long)) ;;;
        emit (WriteFile (path_join outdir "outliers_meta.json")
                (MetaJson (mkMeta in_path (shape df) continuous_cols (iqr_k a) iqr_bounds))) ;;;
        emit (Stdout (MsgSaved outdir))
    end.

End Main.

End Outlier.

(** ** src/outlier.py: the IQR rule in double precision

    [detect_outliers_iqr] with the arithmetic of the code: the quartiles are
    doubles, and the IQR, the two bounds and the comparisons are computed in
    double precision.  A column of dtype bool stays one under
    [pd.to_numeric], and its quantile is a TypeError. *)

Module OutlierDouble.
Import Double Dict Frame Script.

Section Detect.

(** The parser of numeric strings behind [pd.to_numeric] and
    [Series.quantile] (linear interpolation, NaN skipped, NaN for no value)
    are pandas code; they are parameters here. *)
Variable parse_float : string -> float.
Variable quantile : list float -> float -> float.

(** [pd.to_numeric(_, errors="coerce")] on one cell of a column that is not
    of dtype bool, as a double. *)
Definition to_numeric_cell (v : cell) : float :=
  match v with
  | VNum q => of_Q q
  | VStr s => parse_float s
  | VBool b => of_Z (if b then 1 else 0)
  | VNaN => nan
  end.

Definition to_numeric (vs : list cell) : list float :=
  map to_numeric_cell vs.

(** The body of the loop for one column [s] (already coerced): its mask
    and its bounds. *)
Definition iqr_mask (n : nat) (k : float) (s : list float)
  : list bool * (float * float) :=
  let q1 := quantile s (of_Q (1 # 4)) in
  let q3 := quantile s (of_Q (3 # 4)) in
  let iqr := sub q3 q1 in
  if isna iqr || eq iqr zero then
    (repeat false n, (nan, nan))
  else
    let lower := sub q1 (mul k iqr) in
    let upper := add q3 (mul k iqr) in
    let mask := map (fun v => (lt v lower || gt v upper) && negb (isna v)) s in
    (mask, (lower, upper)).

(** The mask and bounds the loop body computes for the column [x]. *)
Definition column_result (df : DataFrame) (k : float) (x : column) :=
  iqr_mask (nrows df) k (to_numeric (col_values x)).

Definition masks := dict (list bool).
Definition bounds_map := dict (float * float).

Fixpoint detect_loop (df : DataFrame) (k : float) (cols : list string)
  (mask_map : masks) (bounds : bounds_map) : exn + (masks * bounds_map) :=
  match cols with
  | [] => inr (mask_map, bounds)
  | c :: rest =>
      match get_column df c with
      | None => inl (KeyError c)
      | Some x =>
          match col_dtype x with
          | bool_ => inl TypeError
          | _ =>
              let '(m, b) := column_result df k x in
              detect_loop df k rest (Dict.set mask_map c m) (Dict.set bounds c b)
          end
      end
  end.

(** [detect_outliers_iqr(df, cols, k)]: the two dictionaries, or the
    exception it raises. *)
Definition detect_outliers_iqr (df : DataFrame) (cols : list string) (k : float)
  : exn + (masks * bounds_map) :=
  detect_loop df k cols [] [].

End Detect.

End OutlierDouble.

(** ** scripts/export_data.py *)

Module ExportData.
Import Float Dict Frame Script Script.Notations.

(** [ds.data.targets] is a table or a single series. *)
Inductive targets_t :=
| TSeries (name : option string) (dt : dtype) (values : list cell)
| TFrame (df : DataFrame).

Record data_obj := mkData {
  features : option DataFrame;
  targets : option targets_t
}.

(** The fetched dataset; a missing attribute is [None], as [getattr] with a
    default gives. *)
Record dataset := mkDataset {
  ds_data : option data_obj
}.

Definition ds_features (ds : dataset) : option DataFrame :=
  match ds_data ds with Some d => features d | None => None end.

Definition ds_targets (ds : dataset) : option targets_t :=
  match ds_data ds with Some d => targets d | None => None end.

Inductive log_msg :=
| LogNoData
| LogNoFeaturesTargets
| LogSavedFeatures (shape : nat * nat)
| LogFeaturesFailed (e : exn)
| LogSavedTargets (shape : nat * nat)
| LogTargetsFailed (e : exn)
| LogRenamed (rename_map : dict string)
| LogSavedCombined (shape : nat * nat)
| LogCombinedFailed (e : exn)
| LogNoCombined.

Inductive ev :=
| Log (m : log_msg)
| ToCsv (path : string) (df : DataFrame).

Definition log (m : log_msg) : script ev unit := emit (Log m).

(** The messages that report a missing source. *)
Definition diagnostic (m : log_msg) : bool :=
  match m with
  | LogNoData | LogNoFeaturesTargets | LogNoCombined => true
  | _ => false
  end.

(** The files a run wrote. *)
Fixpoint csv_written (t : list ev) : list (string * DataFrame) :=
  match t with
  | [] => []
  | ToCsv p df :: rest => (p, df) :: csv_written rest
  | Log _ :: rest => csv_written rest
  end.

Fixpoint logged (t : list ev) : list log_msg :=
  match t with
  | [] => []
  | Log m :: rest => m :: logged rest
  | ToCsv _ _ :: rest => logged rest
  end.

(** [targets.to_frame(name=targets.name or "target")] *)
Definition to_frame (name : option string) (dt : dtype) (values : list cell) : DataFrame :=
  let n := match name with
           | None => "target"%string
           | Some s => if String.eqb s "" then "target"%string else s
           end in
  mkFrame (List.length values) [mkColumn n dt values].

Definition as_frame (t : targets_t) : DataFrame :=
  match t with
  | TSeries name dt values => to_frame name dt values
  | TFrame df => df
  end.

(** [target_df.rename(columns=rename_map)] *)
Definition rename (df : DataFrame) (rename_map : dict string) : DataFrame :=
  mkFrame (nrows df)
    (map (fun x =>
       match Dict.get rename_map (col_name x) with
       | Some new_c => mkColumn new_c (col_dtype x) (col_values x)
       | None => x
       end) (frame_columns df)).

(** A series assigned into a table is aligned to the table's index
    [0 .. n-1]: cut if longer, filled with NaN if shorter (which turns an
    integer column into a float one and a boolean one into objects). *)
Definition align (n : nat) (x : column) : column :=
  let vs := col_values x in
  if (List.length vs <? n)%nat then
    mkColumn (col_name x)
      (match col_dtype x with
       | int64 | uint64 => float64
       | bool_ => object
       | d => d
       end)
      (vs ++ repeat VNaN (n - List.length vs))
  else mkColumn (col_name x) (col_dtype x) (firstn n vs).

(** [combined[c] = s] for a series [s].  A table without rows that is
    assigned a series with values takes the index of the series: its own
    columns are filled with NaN over the new rows.  Otherwise the series is
    aligned to the table. *)
Definition assign (combined : DataFrame) (x : column) : DataFrame :=
  let n := List.length (col_values x) in
  if ((nrows combined =? 0) && (0 <? n))%nat then
    set_column (mkFrame n (map (align n) (frame_columns combined))) x
  else set_column combined (align (nrows combined) x).

(** The rename map of the first loop over [target_df.columns]. *)
Definition build_rename_map (combined target_df : DataFrame) : dict string :=
  fold_left (fun rename_map c =>
      if has_column combined c then Dict.set rename_map c (c ++ "_target")%string
      else rename_map)
    (columns target_df) [].

(** The second loop: [combined[c] = target_df[c]]. A name that
    [target_df] carries twice selects a table, not a series, and the
    assignment is a ValueError. *)
Fixpoint assign_targets (target_df : DataFrame) (cs : list string)
  (combined : DataFrame) : script ev DataFrame :=
  match cs with
  | [] => ret combined
  | c :: rest =>
      if (1 <? count_occ string_dec (columns target_df) c)%nat then raise ValueError
      else
        match get_column target_df c with
        | None => raise (KeyError c)
        | Some x =>
            assign_targets target_df rest (assign combined x)
        end
  end.

Section Run.

(** Whether [to_csv] can write a path; if not it raises an OSError. *)
Variable can_write : string -> bool.

Definition to_csv (df : DataFrame) (path : string) : script ev unit :=
  if can_write path then emit (ToCsv path df) else raise (OSError path).

(** Lines 96-111: the body of the [try] that builds [combined.csv]. *)
Definition combine (features target_df : DataFrame) (outdir : string)
  : script ev unit :=
  let combined := features in
  let rename_map := build_rename_map combined target_df in
  target_df <- match rename_map with
               | [] => ret target_df
               | _ => log (LogRenamed rename_map) ;;;
                      ret (rename target_df rename_map)
               end ;;
  combined <- assign_targets target_df (columns target_df) combined ;;
  to_csv combined (path_join outdir "combined.csv") ;;;
  log (LogSavedCombined (shape combined)).

Definition export_features_targets (ds : dataset) (outdir : string)
  : script ev unit :=
  match ds_data ds with
  | None => log LogNoData
  | Some data_obj =>
      let features := features data_obj in
      let targets := targets data_obj in
      match features, targets with
      | None, None => log LogNoFeaturesTargets
      | _, _ =>
          match features with
          | Some f =>
              try_except
                (to_csv f (path_join outdir "features.csv") ;;;
                 log (LogSavedFeatures (shape f)))
                (fun e => log (LogFeaturesFailed e))
          | None => ret tt
          end ;;;
          let target_df := option_map as_frame targets in
          match target_df with
          | Some t =>
              try_except
                (to_csv t (path_join outdir "targets.csv") ;;;
                 log (LogSavedTargets (shape t)))
                (fun e => log (LogTargetsFailed e))
          | None => ret tt
          end ;;;
          match features, target_df with
          | Some f, Some t =>
              try_except (combine f t outdir)
                (fun e => log (LogCombinedFailed e))
          | _, _ => log LogNoCombined
          end
      end
  end.

End Run.

End ExportData.

(** ** src/class_stats.py *)

Module ClassStats.
Import Double Dict Frame Script Script.Notations.

(** Equality of two cells as values of one column. *)
Definition cell_eqb (a b : cell) : bool :=
  match a, b with
  | VNum x, VNum y => Qeq_bool x y
  | VStr x, VStr y => String.eqb x y
  | VBool x, VBool y => Bool.eqb x y
  | _, _ => false
  end.

(** The distinct values of a list, in order of first appearance. *)
Fixpoint unique (vs : list cell) : list cell :=
  match vs with
  | [] => []
  | v :: rest => v :: filter (fun w => negb (cell_eqb v w)) (unique rest)
  end.

(** [s.nunique()]: missing values are not counted. *)
Definition nunique (vs : list cell) : nat :=
  List.length (unique (dropna vs)).

Definition count_of (v : cell) (vs : list cell) : nat :=
  List.length (filter (cell_eqb v) vs).

Fixpoint insert_count (x : cell * nat) (xs : list (cell * nat)) : list (cell * nat) :=
  match xs with
  | [] => [x]
  | y :: rest =>
      if (snd y <=? snd x)%nat then x :: xs else y :: insert_count x rest
  end.

(** [s.value_counts()]: each value present with its count, most frequent
    first; missing values are left out.  Values with equal counts stand here
    in the order of their first appearance; pandas does not fix their order,
    and no statement below depends on it. *)
Definition value_counts (vs : list cell) : list (cell * nat) :=
  let present := dropna vs in
  fold_right insert_count []
    (map (fun v => (v, count_of v present)) (unique present)).

Record class_row := mkClassRow {
  Variable_ : string;
  Category : cell;
  Count : nat;
  Percentage : rounded
}.

Inductive output :=
| ClassCsv (rows : list class_row)
| Latex (var_name : string) (counts : list (cell * nat)).

Record args := mkArgs {
  input : string;
  outdir : string
}.

Definition default_args : args := mkArgs "dataset_891/combined.csv" "output".

Definition target_col : string := "Diabetes_binary".

(** The test of lines 63-67 on the column named [col]. *)
Definition is_categorical (df : DataFrame) (col : string) : bool :=
  match get_column df col with
  | Some x =>
      match col_dtype x with
      | object => true
      | int64 | float64 => (nunique (col_values x) <=? 10)%nat
      | uint64 | bool_ => false
      end
  | None => false
  end.

Definition classify (df : DataFrame) : list string :=
  filter (is_categorical df) (columns df).

(** [list.remove(x)]: the first occurrence goes. *)
Fixpoint remove_first (x : string) (l : list string) : list string :=
  match l with
  | [] => []
  | y :: rest => if String.eqb y x then rest else y :: remove_first x rest
  end.

(** Lines 71-73: the classified columns without the target column. *)
Definition categorical_cols (df : DataFrame) : list string :=
  let cols := classify df in
  if existsb (String.eqb target_col) cols then remove_first target_col cols
  else cols.

Definition column_values (df : DataFrame) (col : string) : list cell :=
  match get_column df col with
  | Some x => col_values x
  | None => []
  end.

Definition total (counts : list (cell * nat)) : nat :=
  fold_right (fun x acc => (snd x + acc)%nat) 0%nat counts.

(** The counts of the distinct values of [us] within [l], added up. *)
Definition counted (us l : list cell) : nat :=
  total (map (fun v => (v, count_of v l)) us).

(** The variable a printed table is about. *)
Definition report_variable (f : output) : option string :=
  match f with
  | Latex var_name _ => Some var_name
  | ClassCsv _ => None
  end.

(** The sum of the Count column over some rows. *)
Definition count_sum (rows : list class_row) : nat :=
  fold_right (fun r acc => (Count r + acc)%nat) 0%nat rows.

(** The rows of [class_stats.csv] for one variable. *)
Definition frequency_rows (df : DataFrame) (col : string) : list class_row :=
  let counts := value_counts (column_values df col) in
  let total := total counts in
  map (fun '(val, cnt) =>
    let pct := mul (div (of_nat cnt) (of_nat total)) (of_Z 100) in
    mkClassRow col val cnt (Round pct 2)) counts.

Definition csv_data (df : DataFrame) (cols : list string) : list class_row :=
  flat_map (frequency_rows df) cols.

Fixpoint print_latex (df : DataFrame) (cols : list string)
  : script (event output) unit :=
  match cols with
  | [] => ret tt
  | col :: rest =>
      emit (Stdout (MsgReport (Latex col (value_counts (column_values df col))))) ;;;
      print_latex df rest
  end.

Definition main (e : env) (a : args) : script (event output) unit :=
  let in_path := input a in
  let outdir := outdir a in
  emit (MakeDirs outdir) ;;;
  if negb (path_exists e in_path) then
    emit (Stderr (MsgInputMissing in_path)) ;;;
    sys_exit 1
  else
    emit (ReadCsv in_path) ;;;
    let df := read_csv e in_path in
    emit (Stdout (MsgLoaded in_path (shape df))) ;;;
    let categorical_cols := categorical_cols df in
    match categorical_cols with
    | [] => emit (Stdout MsgNoColumns)
    | _ =>
        emit (Stdout (MsgColumns categorical_cols)) ;;;
        let csv_path := path_join outdir "class_stats.csv" in
        emit (WriteFile csv_path (ClassCsv (csv_data df categorical_cols))) ;;;
        emit (Stdout (MsgSaved csv_path)) ;;;
        print_latex df categorical_cols
    end.

End ClassStats.

(** ** src/normality_test.py and src/mann_whitney_test.py *)

Module Tests.
Import Double Dict Frame Script Script.Notations.

Definition continuous_vars (df : DataFrame) : list string :=
  filter (has_column df) ["BMI"; "MentHlth"; "PhysHlth"]%string.

(** A row of a result table: the variable, the statistic, the p-value and
    the yes/no column ([Normality] or [Significant]). *)
Record result_row := mkResult {
  Variable_ : string;
  Statistic : float;
  p_value : float;
  verdict : bool
}.

Inductive output :=
| ResultsCsv (rows : list result_row)
| LatexTable (rows : list result_row).

Record args := mkArgs {
  input : string;
  outdir : string
}.

Definition default_args : args := mkArgs "dataset_891/combined.csv" "output".

(** The literal [0.05]: the double nearest to 5/100. *)
Definition alpha : float := of_Q (5 # 100).

(** [results.append(row)] when the loop body produced a row. *)
Definition append_row (results : list result_row) (r : option result_row)
  : list result_row :=
  match r with
  | Some row => results ++ [row]
  | None => results
  end.

(** [results = []; for var in vars: ...]: both scripts run their loop body
    on each variable in turn and collect the rows it appends. *)
Fixpoint results_loop (body : string -> script (event output) (option result_row))
  (vars : list string) (results : list result_row)
  : script (event output) (list result_row) :=
  match vars with
  | [] => ret results
  | var :: rest =>
      r <- body var ;;
      results_loop body rest (append_row results r)
  end.

(** The rows one run of a loop body appends to the results. *)
Definition produced (m : script (event output) (option result_row))
  : list result_row :=
  match result m with
  | Return (Some row) => [row]
  | _ => []
  end.

Section Normality.

(** [scipy.stats.shapiro], a library function: statistic and p-value, as
    doubles.  It is taken to return; on data it cannot handle (text) it
    raises, and such runs are outside this model. *)
Variable shapiro : list cell -> float * float.

(** The body of the loop of lines 68-80 of normality_test.py: the row for
    one variable, or none when it is skipped. *)
Definition normality_body (df : DataFrame) (var : string)
  : script (event output) (option result_row) :=
  match get_column df var with
  | None => raise (KeyError var)
  | Some x =>
      let data := dropna (col_values x) in
      if (List.length data <? 3)%nat then
        emit (Stdout (MsgSkipped var)) ;;;
        ret None
      else
        let '(stat, p) := shapiro data in
        let normality := gt p alpha in
        ret (Some (mkResult var stat p normality))
  end.

Definition normality_loop (df : DataFrame) (vars : list string)
  : script (event output) (list result_row) :=
  results_loop (normality_body df) vars [].

Definition normality_main (e : env) (a : args) : script (event output) unit :=
  let in_path := input a in
  let outdir := outdir a in
  emit (MakeDirs outdir) ;;;
  if negb (path_exists e in_path) then
    emit (Stderr (MsgInputMissing in_path)) ;;;
    sys_exit 1
  else
    emit (ReadCsv in_path) ;;;
    let df := read_csv e in_path in
    emit (Stdout (MsgLoaded in_path (shape df))) ;;;
    let continuous_vars := continuous_vars df in
    match continuous_vars with
    | [] => emit (Stdout MsgNoColumns)
    | _ =>
        emit (Stdout (MsgColumns continuous_vars)) ;;;
        results <- normality_loop df continuous_vars ;;
        let csv_path := path_join outdir "normality_test.csv" in
        emit (WriteFile csv_path (ResultsCsv results)) ;;;
        emit (Stdout (MsgSaved csv_path)) ;;;
        emit (Stdout (MsgReport (LatexTable results)))
    end.

End Normality.

(** [df[col] == 0] and [df[col] == 1] on one cell *)
Definition cell_equals (v : cell) (n : Q) : bool :=
  match v with
  | VNum q => Qeq_bool q n
  | VBool b => Qeq_bool (if b then 1 else 0) n
  | _ => false
  end.

(** [df[col] == n] on the column [g] *)
Definition group_mask (g : column) (n : Q) : list bool :=
  map (fun v => cell_equals v n) (col_values g).

(** [s[mask]]: the cells of the rows where the mask holds *)
Fixpoint select (mask : list bool) (vs : list cell) : list cell :=
  match mask, vs with
  | b :: mask', v :: vs' => if b then v :: select mask' vs' else select mask' vs'
  | _, _ => []
  end.

(** [df[mask]] *)
Definition select_rows (df : DataFrame) (mask : list bool) : DataFrame :=
  mkFrame (List.length (filter (fun b => b) mask))
    (map (fun x => mkColumn (col_name x) (col_dtype x) (select mask (col_values x)))
       (frame_columns df)).

Section MannWhitney.

(** [scipy.stats.mannwhitneyu(_, _, alternative='two-sided')], a library
    function: statistic and p-value, as doubles; taken to return, as
    [shapiro] is. *)
Variable mannwhitneyu : list cell -> list cell -> float * float.

(** The body of the loop of lines 72-85 of mann_whitney_test.py. *)
Definition mann_whitney_body (group0 group1 : DataFrame) (var : string)
  : script (event output) (option result_row) :=
  match get_column group0 var, get_column group1 var with
  | Some x0, Some x1 =>
      let data0 := dropna (col_values x0) in
      let data1 := dropna (col_values x1) in
      if (List.length data0 <? 1)%nat || (List.length data1 <? 1)%nat then
        emit (Stdout (MsgSkipped var)) ;;;
        ret None
      else
        let '(stat, p) := mannwhitneyu data0 data1 in
        let significant := lt p alpha in
        ret (Some (mkResult var stat p significant))
  | _, _ => raise (KeyError var)
  end.

Definition mann_whitney_loop (group0 group1 : DataFrame) (vars : list string)
  : script (event output) (list result_row) :=
  results_loop (mann_whitney_body group0 group1) vars [].

Definition group_col : string := "Diabetes_binary".

Definition mann_whitney_main (e : env) (a : args) : script (event output) unit :=
  let in_path := input a in
  let outdir := outdir a in
  emit (MakeDirs outdir) ;;;
  if negb (path_exists e in_path) then
    emit (Stderr (MsgInputMissing in_path)) ;;;
    sys_exit 1
  else
    emit (ReadCsv in_path) ;;;
    let df := read_csv e in_path in
    emit (Stdout (MsgLoaded in_path (shape df))) ;;;
    let continuous_vars := continuous_vars df in
    match continuous_vars with
    | [] => emit (Stdout MsgNoColumns)
    | _ =>
        emit (Stdout (MsgColumns continuous_vars)) ;;;
        match get_column df group_col with
        | None => raise (KeyError group_col)
        | Some g =>
            let group0 := select_rows df (group_mask g 0) in
            let group1 := select_rows df (group_mask g 1) in
            results <- mann_whitney_loop group0 group1 continuous_vars ;;
            let csv_path := path_join outdir "mann_whitney_test.csv" in
            emit (WriteFile csv_path (ResultsCsv results)) ;;;
            emit (Stdout (MsgSaved csv_path)) ;;;
            emit (Stdout (MsgReport (LatexTable results)))
        end
    end.

End MannWhitney.

End Tests.

(** ** src/numeric_stats.py *)

Module NumericStats.
Import Float Dict Frame Script Script.Notations.

Record args := mkArgs {
  input : string;
  outdir : string
}.

Definition target_col : string := "Diabetes_binary".

(** [df.select_dtypes(include=['number']).columns.tolist()] *)
Definition numeric_cols (df : DataFrame) : list string :=
  map col_name
    (filter (fun x =>
       match col_dtype x with int64 | uint64 | float64 => true | _ => false end)
       (frame_columns df)).

(** A numeric dtype, as [include=['number']] selects. *)
Definition is_number (d : dtype) : bool :=
  match d with int64 | uint64 | float64 => true | _ => false end.

(** Lines 97-101 of [main]: the numeric columns without the target column. *)
Definition variables (df : DataFrame) : list string :=
  if existsb (String.eqb target_col) (numeric_cols df)
  then ClassStats.remove_first target_col (numeric_cols df)
  else numeric_cols df.

Section Stats.

(** The eight statistics of one column (mean, median, mode, standard
    deviation, variance, range, skewness, kurtosis) are pandas and scipy
    functions; together they are a parameter here. *)
Variable S : Type.
Variable statistics : list cell -> S.

Inductive output :=
| StatsCsv (rows : list (string * S))
| LatexTable (rows : list (string * S)).

Fixpoint stats_rows (df : DataFrame) (cols : list string) : list (string * S) :=
  match cols with
  | [] => []
  | col :: rest =>
      match get_column df col with
      | Some x =>
          let s := dropna (col_values x) in
          match s with
          | [] => stats_rows df rest
          | _ => (col, statistics s) :: stats_rows df rest
          end
      | None => stats_rows df rest
      end
  end.

(** [compute_stats]; indexing a table without rows by "Variable" is a
    KeyError. *)
Definition compute_stats (df : DataFrame) (cols : list string)
  : script (event output) (list (string * S)) :=
  match stats_rows df cols with
  | [] => raise (KeyError "Variable")
  | rows => ret rows
  end.

Definition main (e : env) (a : args) : script (event output) unit :=
  let in_path := input a in
  let outdir := outdir a in
  emit (MakeDirs outdir) ;;;
  if negb (path_exists e in_path) then
    emit (Stderr (MsgInputMissing in_path)) ;;;
    sys_exit 1
  else
    emit (ReadCsv in_path) ;;;
    let df := read_csv e in_path in
    emit (Stdout (MsgLoaded in_path (shape df))) ;;;
    let numeric_cols := numeric_cols df in
    let numeric_cols :=
      if existsb (String.eqb target_col) numeric_cols
      then ClassStats.remove_first target_col numeric_cols
      else numeric_cols in
    match numeric_cols with
    | [] => emit (Stdout MsgNoColumns)
    | _ =>
        emit (Stdout (MsgColumns numeric_cols)) ;;;
        stats_df <- compute_stats df numeric_cols ;;
        let csv_path := path_join outdir "numeric_stats.csv" in
        emit (WriteFile csv_path (StatsCsv stats_df)) ;;;
        emit (Stdout (MsgSaved csv_path)) ;;;
        emit (Stdout (MsgReport (LatexTable stats_df)))
    end.

End Stats.

End NumericStats.

(** ** src/data_exploration.py *)

Module DataExploration.
Import Frame Script Script.Notations.

(** The script only prints: the report on shape, column types, descriptive
    statistics, missing values, duplicates and the target distribution is
    one printed text derived from the table. *)
Inductive output :=
| Exploration (df : DataFrame).

Definition main (e : env) (in_path : string) : script (event output) unit :=
  if negb (path_exists e in_path) then
    emit (Stderr (MsgInputMissing in_path)) ;;;
    sys_exit 1
  else
    emit (ReadCsv in_path) ;;;
    let df := read_csv e in_path in
    emit (Stdout (MsgLoaded in_path (shape df))) ;;;
    emit (Stdout (MsgReport (Exploration df))).

(** The missing-value part of the report, lines 83-94.
    [missing = df.isnull().sum()]: per column, the number of missing cells. *)
Definition missing (df : DataFrame) : list (string * nat) :=
  map (fun x => (col_name x, List.length (filter cell_isna (col_values x))))
    (frame_columns df).

(** [total_missing = missing.sum()] *)
Definition total_missing (df : DataFrame) : nat :=
  fold_right Nat.add 0%nat (map snd (missing df)).

(** The items listed: [if total_missing > 0: for col, count in
    missing[missing > 0].items(): ...].  Each is printed with its column,
    its count and a percentage text, [f"{pct:.2f}"], that is not modelled. *)
Definition missing_items (df : DataFrame) : list (string * nat) :=
  if (0 <? total_missing df)%nat then
    filter (fun cn => (0 <? snd cn)%nat) (missing df)
  else [].

End DataExploration.

(** ** src/visualization.py *)

Module Visualization.
Import Frame Script Script.Notations.

Record args := mkArgs {
  input : string;
  figs_dir : string
}.

(** A saved figure: the variables drawn and the kind of chart. *)
Inductive output :=
| Figure (vars : list string) (plot_type : string).

Definition univariate_vars : list (string * string) :=
  [("BMI", "hist"); ("MentHlth", "box"); ("PhysHlth", "hist");
   ("HighBP", "bar"); ("Smoker", "bar")]%string.

Definition multivariate_plots : list (list string * string) :=
  [(["BMI"; "MentHlth"; "PhysHlth"], "heatmap");
   (["HighBP"; "Diabetes_binary"], "stacked_bar");
   (["Smoker"; "Diabetes_binary"], "stacked_bar");
   (["BMI"; "Diabetes_binary"], "box_hue")]%string.

(** ['_'.join(vars_list)] *)
Fixpoint join_underscore (l : list string) : string :=
  match l with
  | [] => ""
  | [x] => x
  | x :: rest => (x ++ "_" ++ join_underscore rest)%string
  end.

Definition plot (vars : list string) (plot_type save_path : string)
  : script (event output) unit :=
  emit (WriteFile save_path (Figure vars plot_type)) ;;;
  emit (Stdout (MsgSaved save_path)).

Fixpoint univariate (df : DataFrame) (figs_dir : string)
  (todo : list (string * string)) : script (event output) unit :=
  match todo with
  | [] => ret tt
  | (var, plot_type) :: rest =>
      (if has_column df var then
         plot [var] plot_type
           (path_join (path_join figs_dir "univariate")
              (var ++ "_" ++ plot_type ++ ".png")%string)
       else ret tt) ;;;
      univariate df figs_dir rest
  end.

Fixpoint multivariate (df : DataFrame) (figs_dir : string)
  (todo : list (list string * string)) : script (event output) unit :=
  match todo with
  | [] => ret tt
  | (vars_list, plot_type) :: rest =>
      (if forallb (has_column df) vars_list then
         plot vars_list plot_type
           (path_join (path_join figs_dir "multivariate")
              (join_underscore vars_list ++ "_" ++ plot_type ++ ".png")%string)
       else ret tt) ;;;
      multivariate df figs_dir rest
  end.

Definition main (e : env) (a : args) : script (event output) unit :=
  let in_path := input a in
  let figs_dir := figs_dir a in
  emit (MakeDirs (path_join figs_dir "univariate")) ;;;
  emit (MakeDirs (path_join figs_dir "multivariate")) ;;;
  if negb (path_exists e in_path) then
    emit (Stderr (MsgInputMissing in_path)) ;;;
    sys_exit 1
  else
    emit (ReadCsv in_path) ;;;
    let df := read_csv e in_path in
    emit (Stdout (MsgLoaded in_path (shape df))) ;;;
    univariate df figs_dir univariate_vars ;;;
    multivariate df figs_dir multivariate_plots ;;;
    emit (Stdout (MsgSaved figs_dir)).

End Visualization.

(** ** scripts/export_data.py: the script around the export *)

Module ExportMain.
Import Dict Frame Script Script.Notations ExportData.

(** A value of the metadata dictionary. *)
Inductive meta_value :=
| MStr (s : string)
| MInt (z : Z)
| MNull.

(** What [fetch_ucirepo] returns: the metadata, if the object has the
    attribute, and the data. *)
Record fetched := mkFetched {
  metadata : option (dict meta_value);
  dataset_of : dataset
}.

(** The outside of the script: whether a path exists, whether a directory
    can be made and a file opened for writing, and what fetching a dataset
    id gives ([None] when it raises). *)
Record world := mkWorld {
  dir_exists : string -> bool;
  can_make : string -> bool;
  can_write : string -> bool;
  fetch_ucirepo : Z -> option fetched
}.

Inductive main_msg :=
| LogStart (dataset_id : Z)
| LogDirExistsError (path : string)
| LogDirOverwrite (path : string)
| LogDirCreated (path : string)
| LogFetchFailed
| LogName (name : meta_value)
| LogSavedMetadata (n_keys : nat)
| LogDone.

Inductive main_ev :=
| LogMain (m : main_msg)
| MakeDirs (path : string)
| Fetch (dataset_id : Z)
| WriteJson (path : string) (meta : dict meta_value)
| Exported (ev : ExportData.ev).

Definition log (m : main_msg) : script main_ev unit := emit (LogMain m).

(** A run of [export_features_targets] inside the script. *)
Definition exported {A} (m : script ExportData.ev A) : script main_ev A :=
  (map Exported (trace m), result m).

Section Run.

Variable w : world.

Definition ensure_outdir (path : string) (overwrite : bool) : script main_ev unit :=
  if dir_exists w path then
    if negb overwrite then
      log (LogDirExistsError path) ;;;
      sys_exit 1
    else
      log (LogDirOverwrite path)
  else
    (if can_make w path then emit (MakeDirs path) else raise (OSError path)) ;;;
    log (LogDirCreated path).

(** [getattr(ds, "metadata", {})] *)
Definition metadata_of (ds : fetched) : dict meta_value :=
  match metadata ds with Some m => m | None => [] end.

Definition save_metadata (ds : fetched) (outdir : string) : script main_ev unit :=
  let meta := metadata_of ds in
  let path := path_join outdir "metadata.json" in
  (if can_write w path then emit (WriteJson path meta) else raise (OSError path)) ;;;
  log (LogSavedMetadata (List.length meta)).

Record args := mkArgs {
  id : Z;
  outdir : option string;
  overwrite : bool
}.

Definition default_args : args := mkArgs 891 None false.

(** [f"{dataset_id}"] *)
Definition str (z : Z) : string :=
  DecimalString.NilZero.string_of_int (Z.to_int z).

(** [args.outdir or f"dataset_{dataset_id}"] *)
Definition outdir_of (a : args) : string :=
  match outdir a with
  | None => ("dataset_" ++ str (id a))%string
  | Some s => if String.eqb s "" then ("dataset_" ++ str (id a))%string else s
  end.

(** The directory check lets the run go on: the directory exists and
    --overwrite was given, or it does not exist and can be made. *)
Definition outdir_ready (a : args) : bool :=
  if dir_exists w (outdir_of a) then overwrite a else can_make w (outdir_of a).

Definition main (a : args) : script main_ev unit :=
  let dataset_id := id a in
  let outdir := outdir_of a in
  log (LogStart dataset_id) ;;;
  ensure_outdir outdir (overwrite a) ;;;
  ds <- try_except
          (emit (Fetch dataset_id) ;;;
           match fetch_ucirepo w dataset_id with
           | Some ds => ret ds
           | None => raise ValueError
           end)
          (fun _ => log LogFetchFailed ;;; sys_exit 1) ;;
  let meta := metadata_of ds in
  let name := match Dict.get meta "name" with
              | Some v => v
              | None => MStr "unknown"
              end in
  log (LogName name) ;;;
  save_metadata ds outdir ;;;
  exported (export_features_targets (can_write w) (dataset_of ds) outdir) ;;;
  log LogDone.

End Run.

(** The files a run wrote: the paths of the JSON and CSV files, in order. *)
Fixpoint files (t : list main_ev) : list string :=
  match t with
  | [] => []
  | WriteJson p _ :: rest => p :: files rest
  | Exported (ToCsv p _) :: rest => p :: files rest
  | _ :: rest => files rest
  end.

End ExportMain.

(** ** Sample data *)

Module Samples.
Import Float Frame Script.

Definition ints (l : list Z) : list cell := map (fun z => VNum (inject_Z z)) l.

(** No text parses as a number. *)
Definition no_parse (s : string) : float := nan.

Definition bmi : column :=
  mkColumn "BMI" int64 (ints [20; 21; 22; 23; 24; 25; 26; 90]%Z).

Definition ment : column :=
  mkColumn "MentHlth" float64
    [VNum 0; VNum 0; VNaN; VNum 0; VNum 0; VNum 0; VNum 0; VNum 0].

Definition diabetes : column :=
  mkColumn "Diabetes_binary" int64 (ints [0; 0; 0; 0; 1; 1; 1; 1]%Z).

Definition survey : DataFrame := mkFrame 8 [diabetes; bmi; ment].

Definition survey_env : env := mkEnv (fun _ => true) (fun _ => survey).

(** A file system without the input file. *)
Definition missing_env : env := mkEnv (fun _ => false) (fun _ => survey).

(** Every directory can be made but the one with the empty path, on which
    [os.makedirs] raises FileNotFoundError. *)
Definition no_empty_dir (d : string) : bool := negb (String.eqb d "").

(** A table that already carries a column with the name of a flag column. *)
Definition stale_flag : column :=
  mkColumn "BMI__iqr_outlier" int64 (ints [5; 5; 5; 5; 5; 5; 5; 5]%Z).

Definition flagged_before : DataFrame := mkFrame 8 [bmi; stale_flag].

Definition flagged_before_env : env := mkEnv (fun _ => true) (fun _ => flagged_before).

(** A dataset whose features already have a column with the name a
    colliding target column is renamed to. *)
Definition collide_features : DataFrame :=
  mkFrame 2 [mkColumn "y" int64 (ints [1; 2]%Z);
             mkColumn "y_target" int64 (ints [3; 4]%Z)].

Definition collide_targets : DataFrame :=
  mkFrame 2 [mkColumn "y" int64 (ints [7; 8]%Z)].

Definition collide_ds : ExportData.dataset :=
  ExportData.mkDataset
    (Some (ExportData.mkData (Some collide_features)
             (Some (ExportData.TFrame collide_targets)))).

(** A table whose BMI column has fewer than three values. *)
Definition short_table : DataFrame :=
  mkFrame 2 [mkColumn "Diabetes_binary" int64 (ints [0; 1]%Z);
             mkColumn "BMI" int64 (ints [20; 30]%Z)].

Definition short_env : env := mkEnv (fun _ => true) (fun _ => short_table).

(** Stand-ins for the two library tests. *)
Definition shapiro (data : list cell) : Double.float * Double.float :=
  (Double.of_Q (9 # 10), Double.of_Q (1 # 100)).

Definition mannwhitneyu (data0 data1 : list cell) : Double.float * Double.float :=
  (Double.of_Q (16 # 1), Double.of_Q (1 # 100)).

(** A test whose p-value is the double 0.05 itself. *)
Definition shapiro_at_threshold (data : list cell) : Double.float * Double.float :=
  (Double.of_Q (9 # 10), Double.of_Q (5 # 100)).

(** What outlier.py writes for the sample table with the default options. *)
Definition survey_written : list (string * Outlier.output) :=
  written (trace (Outlier.main no_parse survey_env Outlier.default_args)).

Definition survey_flagged : DataFrame :=
  Eval vm_compute in
    match survey_written with
    | (_, Outlier.FlaggedCsv f) :: _ => f
    | _ => survey
    end.

Definition survey_summary : list Outlier.summary_row :=
  Eval vm_compute in
    match survey_written with
    | _ :: (_, Outlier.SummaryCsv rows) :: _ => rows
    | _ => []
    end.

Definition survey_indices : list Outlier.index_row :=
  Eval vm_compute in
    match survey_written with
    | _ :: _ :: (_, Outlier.IndicesCsv rows) :: _ => rows
    | _ => []
    end.

(** Answers of 160 people: 23 smokers, and a yes/no column that
    [read_csv] reads as booleans. *)
Definition smoker : column :=
  mkColumn "Smoker" int64 (ints (repeat 1%Z 23 ++ repeat 0%Z 137)).

Definition highbp : column :=
  mkColumn "HighBP" bool_ (repeat (VBool true) 60 ++ repeat (VBool false) 100).

Definition answers : DataFrame := mkFrame 160 [smoker; highbp].

Definition answers_env : env := mkEnv (fun _ => true) (fun _ => answers).



(** A stand-in for [Series.quantile], computed as numpy's linear method
    does: the values without NaN are sorted, the position [q * (n - 1)] is
    split into its floor and the rest [t], and the two neighbours [a], [b]
    are interpolated as [a + (b - a) * t], or [b - (b - a) * (1 - t)] when
    [t >= 0.5]. *)
Fixpoint insert_double (x : Double.float) (xs : list Double.float)
  : list Double.float :=
  match xs with
  | [] => [x]
  | y :: rest => if SFleb x y then x :: xs else y :: insert_double x rest
  end.

Definition floor_double (x : Double.float) : Z :=
  match x with
  | S754_finite false m e =>
      match e with
      | Zneg p => Z.shiftr (Zpos m) (Zpos p)
      | _ => Z.shiftl (Zpos m) e
      end
  | _ => 0%Z
  end.

Definition quantile (s : list Double.float) (q : Double.float) : Double.float :=
  let xs := fold_right insert_double []
              (filter (fun v => negb (Double.isna v)) s) in
  match xs with
  | [] => Double.nan
  | x0 :: _ =>
      let pos := Double.mul q (Double.of_nat (List.length xs - 1)) in
      let lo := floor_double pos in
      let t := Double.sub pos (Double.of_Z lo) in
      let a := nth (Z.to_nat lo) xs x0 in
      let b := nth (Z.to_nat lo + 1) xs a in
      let d := Double.sub b a in
      if Double.lt t (Double.of_Q (1 # 2))
      then Double.add a (Double.mul d t)
      else Double.sub b (Double.mul d (Double.sub (Double.of_Z 1) t))
  end.

(** No text parses as a number. *)
Definition no_number (s : string) : Double.float := Double.nan.

(** A world in which the output directory is new, every file can be
    written and the repository answers with the colliding dataset. *)
Definition open_world : ExportMain.world :=
  ExportMain.mkWorld (fun _ => false) (fun _ => true) (fun _ => true)
    (fun _ => Some (ExportMain.mkFetched
                      (Some [("name"%string, ExportMain.MStr "CDC")])
                      collide_ds)).

End Samples.

(** * Properties *)

(** ** Floats and dictionaries *)

Lemma Qltb_lt (x y : Q) : Float.Qltb x y = true <-> (x < y)%Q.
Proof.
  unfold Float.Qltb. rewrite negb_true_iff. split; intro H.
  - apply Qnot_le_lt. intro L. apply Qle_bool_iff in L. congruence.
  - destruct (Qle_bool y x) eqn:E; [|reflexivity].
    apply Qle_bool_iff in E. exfalso. exact (Qlt_not_le _ _ H E).
Qed.

Lemma dict_get_set_same {V} (d : Dict.dict V) k v :
  Dict.get (Dict.set d k v) k = Some v.
Proof.
  induction d as [|[k' v'] rest IH]; simpl.
  - now rewrite String.eqb_refl.
  - destruct (String.eqb k' k) eqn:E; simpl; rewrite E; auto.
Qed.

Lemma dict_get_set_other {V} (d : Dict.dict V) k k' v :
  k <> k' -> Dict.get (Dict.set d k v) k' = Dict.get d k'.
Proof.
  intro N. induction d as [|[k0 v0] rest IH]; simpl.
  - destruct (String.eqb k k') eqn:E; [apply String.eqb_eq in E; contradiction|reflexivity].
  - destruct (String.eqb k0 k) eqn:E; simpl.
    + apply String.eqb_eq in E. subst k0.
      destruct (String.eqb k k') eqn:E'; [apply String.eqb_eq in E'; contradiction|reflexivity].
    + destruct (String.eqb k0 k'); auto.
Qed.

(** ** Tables *)

Lemma find_column_name cs c x :
  Frame.find_column cs c = Some x -> Frame.col_name x = c /\ In x cs.
Proof.
  induction cs as [|y rest IH]; simpl; [discriminate|].
  destruct (String.eqb (Frame.col_name y) c) eqn:E.
  - intro H. injection H as <-. apply String.eqb_eq in E. auto.
  - intro H. destruct (IH H). auto.
Qed.

Lemma has_column_get df c :
  Frame.has_column df c = true -> exists x, Frame.get_column df c = Some x.
Proof.
  unfold Frame.has_column, Frame.get_column, Frame.columns.
  induction (Frame.frame_columns df) as [|y rest IH]; simpl; [discriminate|].
  rewrite String.eqb_sym.
  destruct (String.eqb (Frame.col_name y) c); simpl; eauto.
Qed.

Lemma has_column_In df c :
  Frame.has_column df c = true <-> In c (Frame.columns df).
Proof.
  unfold Frame.has_column. rewrite existsb_exists. split.
  - intros (y & Hy & E). apply String.eqb_eq in E. now subst.
  - intro H. exists c. split; [exact H|apply String.eqb_refl].
Qed.

(** ** Outlier detection *)

Section OutlierFacts.
Import Float Dict Frame Outlier.

Variable parse_float : string -> float.

Lemma detect_loop_result df k cols :
  forall mm bb,
  (forall c, In c cols -> has_column df c = true) ->
  exists mm' bb',
    detect_loop parse_float df k cols mm bb = Some (mm', bb') /\
    forall c,
      (In c cols -> forall x, get_column df c = Some x ->
         Dict.get mm' c = Some (fst (column_result parse_float df k x)) /\
         Dict.get bb' c = Some (snd (column_result parse_float df k x))) /\
      (~ In c cols -> Dict.get mm' c = Dict.get mm c /\ Dict.get bb' c = Dict.get bb c).
Proof.
  induction cols as [|c0 rest IH]; intros mm bb Hall; simpl.
  - exists mm, bb. split; [reflexivity|]. intro c. split; [contradiction|auto].
  - destruct (has_column_get df c0) as [x0 Hx0]; [apply Hall; now left|].
    rewrite Hx0.
    destruct (iqr_mask (nrows df) k (to_numeric parse_float (col_values x0)))
      as [m b] eqn:Em.
    destruct (IH (Dict.set mm c0 m) (Dict.set bb c0 b)) as (mm' & bb' & Hrun & Hget).
    { intros c Hc. apply Hall. now right. }
    exists mm', bb'. split; [exact Hrun|].
    intro c. destruct (Hget c) as [Hin Hout]. split.
    + intros [->|Hc] x Hx.
      * destruct (in_dec string_dec c rest) as [Hr|Hr]; [now apply Hin|].
        destruct (Hout Hr) as [-> ->].
        rewrite !dict_get_set_same. unfold column_result.
        rewrite Hx in Hx0. injection Hx0 as ->. now rewrite Em.
      * now apply Hin.
    + intro Hn. destruct Hout as [-> ->]; [tauto|].
      rewrite !dict_get_set_other; tauto.
Qed.



End OutlierFacts.

(** ** The IQR rule in double precision *)

Section IqrRuleDouble.
Import Double Dict Frame Script OutlierDouble.

Variable parse_float : string -> float.
Variable quantile : list float -> float -> float.




Lemma keys_set_fresh {V} (d : dict V) k v :
  ~ In k (keys d) -> keys (Dict.set d k v) = keys d ++ [k].
Proof.
  unfold keys. induction d as [|[k' v'] rest IH]; simpl; intro H; [reflexivity|].
  destruct (String.eqb k' k) eqn:E.
  - apply String.eqb_eq in E. tauto.
  - simpl. rewrite IH; tauto.
Qed.

(** The loop, column by column: it goes on after a column that the table
    has and that is not of dtype bool. *)
Lemma detect_loop_step df k c rest mm bb x :
  get_column df c = Some x -> col_dtype x <> bool_ ->
  detect_loop parse_float quantile df k (c :: rest) mm bb
  = detect_loop parse_float quantile df k rest
      (Dict.set mm c (fst (column_result parse_float quantile df k x)))
      (Dict.set bb c (snd (column_result parse_float quantile df k x))).
Proof.
  intros Hx Hd. cbn [detect_loop]. rewrite Hx.
  destruct (column_result parse_float quantile df k x) as [m b].
  destruct (col_dtype x); try reflexivity. contradiction.
Qed.

Lemma detect_loop_returns df k cols : forall mm bb,
  (forall c, In c cols ->
     exists x, get_column df c = Some x /\ col_dtype x <> bool_) ->
  exists mm' bb',
    detect_loop parse_float quantile df k cols mm bb = inr (mm', bb') /\
    forall c,
      (In c cols -> forall x, get_column df c = Some x ->
         Dict.get mm' c = Some (fst (column_result parse_float quantile df k x)) /\
         Dict.get bb' c = Some (snd (column_result parse_float quantile df k x))) /\
      (~ In c cols -> Dict.get mm' c = Dict.get mm c /\ Dict.get bb' c = Dict.get bb c).
Proof.
  induction cols as [|c0 rest IH]; intros mm bb Hall.
  - exists mm, bb. split; [reflexivity|]. intro c. split; [contradiction|auto].
  - destruct (Hall c0 (or_introl eq_refl)) as (x0 & Hx0 & Hd0).
    rewrite (detect_loop_step _ _ _ _ _ _ _ Hx0 Hd0).
    destruct (IH (Dict.set mm c0 (fst (column_result parse_float quantile df k x0)))
                 (Dict.set bb c0 (snd (column_result parse_float quantile df k x0))))
      as (mm' & bb' & Hrun & Hget).
    { intros c Hc. apply Hall. now right. }
    exists mm', bb'. split; [exact Hrun|].
    intro c. destruct (Hget c) as [Hin Hout]. split.
    + intros [->|Hc] x Hx.
      * destruct (in_dec string_dec c rest) as [Hr|Hr]; [now apply Hin|].
        destruct (Hout Hr) as [-> ->].
        rewrite !dict_get_set_same.
        rewrite Hx in Hx0. injection Hx0 as ->. now split.
      * now apply Hin.
    + intro Hn. destruct Hout as [-> ->]; [simpl in Hn; tauto|].
      rewrite !dict_get_set_other; [tauto| |]; intros ->; apply Hn; now left.
Qed.

Lemma detect_loop_keys_order df k cols : forall mm bb mm' bb',
  NoDup cols ->
  (forall c, In c cols -> ~ In c (keys mm) /\ ~ In c (keys bb)) ->
  detect_loop parse_float quantile df k cols mm bb = inr (mm', bb') ->
  keys mm' = keys mm ++ cols /\ keys bb' = keys bb ++ cols.
Proof.
  induction cols as [|c rest IH]; intros mm bb mm' bb' Hn Hf H.
  - injection H as <- <-. now rewrite !app_nil_r.
  - cbn [detect_loop] in H.
    destruct (get_column df c) as [x|]; [|discriminate].
    destruct (column_result parse_float quantile df k x) as [m b].
    inversion Hn as [|? ? Hc Hr]; subst.
    destruct (Hf c (or_introl eq_refl)) as [Fm Fb].
    assert (G : detect_loop parse_float quantile df k rest
                  (Dict.set mm c m) (Dict.set bb c b) = inr (mm', bb'))
      by (destruct (col_dtype x); try exact H; discriminate).
    apply IH in G; [|exact Hr|].
    + rewrite !keys_set_fresh in G by assumption.
      now rewrite <- !app_assoc in G.
    + intros c' Hc'. rewrite !keys_set_fresh by assumption.
      rewrite !in_app_iff. destruct (Hf c' (or_intror Hc')) as [A B].
      split; intros [I|[<-|[]]]; tauto.
Qed.

Lemma detect_loop_fails df k cols : forall mm bb e,
  detect_loop parse_float quantile df k cols mm bb = inl e ->
  (e = TypeError /\
   exists c x, In c cols /\ get_column df c = Some x /\ col_dtype x = bool_) \/
  (exists c, e = KeyError c /\ In c cols /\ ~ In c (columns df)).
Proof.
  induction cols as [|c0 rest IH]; intros mm bb e H; [discriminate|].
  cbn [detect_loop] in H.
  destruct (get_column df c0) as [x|] eqn:Hx.
  - destruct (column_result parse_float quantile df k x) as [m b].
    destruct (col_dtype x) eqn:Hd;
      try (apply IH in H;
           destruct H as [(-> & c & y & Hc & Hy & Hb)|(c & -> & Hc & Hn)];
           [left; split; [reflexivity|]; exists c, y; simpl; auto
           |right; exists c; simpl; auto]).
    injection H as <-. left. split; [reflexivity|].
    exists c0, x. simpl. auto.
  - injection H as <-. right. exists c0. split; [reflexivity|].
    split; [now left|]. intro Hin. apply has_column_In in Hin.
    destruct (has_column_get df c0 Hin) as [x Hx']. congruence.
Qed.


(** X1. [detect_outliers_iqr] returns its two dictionaries exactly when
    every requested column is a column of the table and none of them is of
    dtype bool; when it fails, it fails with the KeyError of a requested
    column that the table lacks, or with the TypeError of a requested column
    of dtype bool. *)
Theorem detect_fails_on_missing_or_bool_column
  (df : DataFrame) (cols : list string) (k : float) :
  ((exists r, detect_outliers_iqr parse_float quantile df cols k = inr r) <->
   forall c, In c cols ->
     exists x, get_column df c = Some x /\ col_dtype x <> bool_) /\
  (forall e, detect_outliers_iqr parse_float quantile df cols k = inl e ->
     (e = TypeError /\
      exists c x, In c cols /\ get_column df c = Some x /\ col_dtype x = bool_) \/
     (exists c, e = KeyError c /\ In c cols /\ ~ In c (columns df))).
Proof.
  split; [|apply detect_loop_fails]. split.
  - intros [r Hr] c Hc.
    destruct (get_column df c) as [x|] eqn:Hx.
    + exists x. split; [reflexivity|]. intro Hb.
      revert Hr. unfold detect_outliers_iqr. generalize (@nil (string * list bool)).
      generalize (@nil (string * (float * float))).
      induction cols as [|c0 rest IH]; intros bb mm Hr; [contradiction|].
      cbn [detect_loop] in Hr.
      destruct (get_column df c0) as [x0|] eqn:Hx0; [|discriminate].
      destruct (column_result parse_float quantile df k x0) as [m b].
      destruct Hc as [->|Hc].
      * rewrite Hx in Hx0. injection Hx0 as <-. rewrite Hb in Hr. discriminate.
      * destruct (col_dtype x0); try (exact (IH Hc _ _ Hr)); discriminate.
    + exfalso. revert Hr. unfold detect_outliers_iqr.
      generalize (@nil (string * list bool)).
      generalize (@nil (string * (float * float))).
      induction cols as [|c0 rest IH]; intros bb mm Hr; [contradiction|].
      cbn [detect_loop] in Hr.
      destruct Hc as [->|Hc]; [rewrite Hx in Hr; discriminate|].
      destruct (get_column df c0) as [x0|]; [|discriminate].
      destruct (column_result parse_float quantile df k x0) as [m b].
      destruct (col_dtype x0); try (exact (IH Hc _ _ Hr)); discriminate.
  - intro H.
    destruct (detect_loop_returns df k cols [] [] H) as (mm & bb & Hrun & _).
    exists (mm, bb). exact Hrun.
Qed.

(** X2. For distinct requested columns that the table has, none of dtype
    bool, [detect_outliers_iqr] succeeds and both dictionaries it returns
    have exactly the requested columns as keys, in the order requested. *)
Theorem detect_keys_are_requested_columns
  (df : DataFrame) (cols : list string) (k : float) :
  NoDup cols ->
  (forall c, In c cols ->
     exists x, get_column df c = Some x /\ col_dtype x <> bool_) ->
  exists mask_map bounds,
    detect_outliers_iqr parse_float quantile df cols k = inr (mask_map, bounds) /\
    keys mask_map = cols /\ keys bounds = cols.
Proof.
  intros Hn Hall.
  destruct (detect_loop_returns df k cols [] [] Hall) as (mm & bb & Hrun & _).
  exists mm, bb. split; [exact Hrun|].
  apply (detect_loop_keys_order df k cols [] [] mm bb Hn); [|exact Hrun].
  intros c _. split; intros [].
Qed.

End IqrRuleDouble.


Lemma detect_keys_are_requested_columns_witness :
  exists mask_map bounds,
    OutlierDouble.detect_outliers_iqr Samples.no_number Samples.quantile
      Samples.survey ["BMI"; "MentHlth"]%string (Double.of_Q (3 # 2))
      = inr (mask_map, bounds) /\
    Dict.keys mask_map = ["BMI"; "MentHlth"]%string /\
    Dict.keys bounds = ["BMI"; "MentHlth"]%string.
Proof.
  apply (detect_keys_are_requested_columns Samples.no_number Samples.quantile
           Samples.survey ["BMI"; "MentHlth"]%string (Double.of_Q (3 # 2))).
  - repeat constructor; simpl; intuition discriminate.
  - intros c [<-|[<-|[]]]; eexists; (split; [reflexivity|discriminate]).
Defined.

(** On a table with a column of dtype bool among the requested ones the
    function raises the TypeError. *)
Lemma detect_on_bool_column :
  OutlierDouble.detect_outliers_iqr Samples.no_number Samples.quantile
    Samples.answers ["Smoker"; "HighBP"]%string (Double.of_Q (3 # 2))
  = inl Script.TypeError.
Proof. reflexivity. Qed.

(** ** The IQR rule over exact arithmetic: missing values and zero IQR *)

Section IqrRule.
Import Float Dict Frame Outlier.

Variable parse_float : string -> float.






End IqrRule.


(** ** Strings and columns *)

Local Close Scope Q_scope.

Lemma string_length_append (a b : string) :
  String.length (a ++ b) = String.length a + String.length b.
Proof. induction a as [|ch a IH]; simpl; [reflexivity|now rewrite IH]. Qed.

Lemma substring_whole (s : string) : substring 0 (String.length s) s = s.
Proof. induction s as [|ch s IH]; simpl; [reflexivity|now rewrite IH]. Qed.

Lemma substring_append_suffix (a b : string) :
  substring (String.length a) (String.length b) (a ++ b) = b.
Proof. induction a as [|ch a IH]; simpl; [apply substring_whole|exact IH]. Qed.

Lemma ends_with_append (c suffix : string) :
  Script.ends_with suffix (c ++ suffix) = true.
Proof.
  unfold Script.ends_with. rewrite string_length_append.
  replace (String.length c + String.length suffix - String.length suffix)
    with (String.length c) by lia.
  rewrite substring_append_suffix, String.eqb_refl, andb_true_r.
  apply Nat.leb_le. lia.
Qed.

Lemma append_inj_l (s a b : string) : (a ++ s = b ++ s)%string -> a = b.
Proof.
  intro H.
  assert (L : String.length a = String.length b).
  { apply (f_equal String.length) in H. rewrite !string_length_append in H. lia. }
  revert b H L. induction a as [|ch a IH]; intros [|ch' b] H L; simpl in *;
    try discriminate; [reflexivity|].
  injection H as -> H. f_equal. apply IH; [exact H|lia].
Qed.

Lemma find_set_in cs x n :
  Frame.find_column (Frame.set_in cs x) n =
  if String.eqb (Frame.col_name x) n then Some x else Frame.find_column cs n.
Proof.
  induction cs as [|y rest IH]; simpl.
  - reflexivity.
  - destruct (String.eqb (Frame.col_name y) (Frame.col_name x)) eqn:E; simpl.
    + apply String.eqb_eq in E. rewrite E.
      destruct (String.eqb (Frame.col_name x) n); reflexivity.
    + rewrite IH.
      destruct (String.eqb (Frame.col_name y) n) eqn:E'; [|reflexivity].
      apply String.eqb_eq in E'. subst n. now rewrite String.eqb_sym, E.
Qed.

Lemma get_set_column df x n :
  Frame.get_column (Frame.set_column df x) n =
  if String.eqb (Frame.col_name x) n then Some x else Frame.get_column df n.
Proof. apply find_set_in. Qed.

(** A new name is appended; the columns already there stay as they are. *)
Lemma set_in_fresh cs x :
  ~ In (Frame.col_name x) (map Frame.col_name cs) -> Frame.set_in cs x = cs ++ [x].
Proof.
  induction cs as [|y rest IH]; simpl; intro H; [reflexivity|].
  destruct (String.eqb (Frame.col_name y) (Frame.col_name x)) eqn:E.
  - apply String.eqb_eq in E. tauto.
  - rewrite IH; tauto.
Qed.

Lemma dict_keys_set {V} (d : Dict.dict V) k v c :
  In c (Dict.keys (Dict.set d k v)) <-> c = k \/ In c (Dict.keys d).
Proof.
  unfold Dict.keys. induction d as [|[k' v'] rest IH]; simpl.
  - intuition congruence.
  - destruct (String.eqb k' k) eqn:E; simpl.
    + apply String.eqb_eq in E. subst. intuition congruence.
    + rewrite IH. intuition congruence.
Qed.

Lemma dict_keys_set_nodup {V} (d : Dict.dict V) k v :
  NoDup (Dict.keys d) -> NoDup (Dict.keys (Dict.set d k v)).
Proof.
  induction d as [|[k' v'] rest IH]; simpl; intro H.
  - repeat constructor. simpl. tauto.
  - destruct (String.eqb k' k) eqn:E; simpl; [exact H|].
    inversion H as [|? ? Hn Hr]; subst. constructor; [|now apply IH].
    intro Hin. apply (dict_keys_set rest k v k') in Hin.
    destruct Hin as [->|Hin]; [now rewrite String.eqb_refl in E|contradiction].
Qed.

Lemma dict_get_In {V} (d : Dict.dict V) k v :
  NoDup (Dict.keys d) -> In (k, v) d -> Dict.get d k = Some v.
Proof.
  induction d as [|[k' v'] rest IH]; simpl; intros Hn H; [contradiction|].
  destruct H as [H|H].
  - injection H as -> ->. now rewrite String.eqb_refl.
  - inversion Hn as [|? ? Hk Hr]; subst.
    destruct (String.eqb k' k) eqn:E.
    + apply String.eqb_eq in E. subst k'. exfalso. apply Hk.
      change k with (fst (k, v)). now apply in_map.
    + now apply IH.
Qed.

(** ** The outputs of outlier.py *)

Section OutlierOutputs.
Import Float Dict Frame Script Outlier.

Variable parse_float : string -> float.

Ltac run_script :=
  cbn -[continuous_cols detect_outliers_iqr summarize_masks summary_rows sort_rows
        any_flag_values set_flags set_column masks_to_long_indices path_join shape].

(** A run that writes anything writes the four outputs, from one detection. *)
Lemma outlier_main_written (e : env) (a : args) :
  let df := read_csv e (input a) in
  written (trace (main parse_float e a)) = [] \/
  exists mm bb any,
    path_exists e (input a) = true /\
    continuous_cols df <> [] /\
    detect_outliers_iqr parse_float df (continuous_cols df) (iqr_k a) = Some (mm, bb) /\
    any_flag_values (set_flags df [("iqr_outlier"%string, mm)]) = Some any /\
    written (trace (main parse_float e a)) =
      [(path_join (outdir a) "outliers_flagged.csv",
        FlaggedCsv (set_column (set_flags df [("iqr_outlier"%string, mm)])
                      (mkColumn any_flag_name int64 any)));
       (path_join (outdir a) "outliers_summary.csv",
        SummaryCsv (sort_rows (summary_rows [("iqr_outlier"%string, mm)])));
       (path_join (outdir a) "outliers_indices.csv",
        IndicesCsv (masks_to_long_indices [("iqr_outlier"%string, mm)]));
       (path_join (outdir a) "outliers_meta.json",
        MetaJson (mkMeta (input a) (shape df) (continuous_cols df) (iqr_k a) bb))].
Proof.
  intro df. unfold main. fold df.
  remember (continuous_cols df) as cc eqn:Ec.
  remember (detect_outliers_iqr parse_float df cc (iqr_k a)) as d eqn:Ed.
  destruct (path_exists e (input a)) eqn:Ex; run_script; [|now left].
  destruct cc as [|c0 cs]; run_script; [now left|].
  destruct d as [[mm bb]|]; run_script; [|now left].
  unfold summarize_masks.
  destruct (summary_rows [("iqr_outlier"%string, mm)]) as [|r0 rows] eqn:Es;
    run_script; [now left|].
  destruct (any_flag_values (set_flags df [("iqr_outlier"%string, mm)]))
    as [any|] eqn:Ea; run_script; [|now left].
  right. exists mm, bb, any. rewrite Es.
  repeat split; try reflexivity; try assumption. discriminate.
Qed.

End OutlierOutputs.

Section OutlierConsistency.
Import Float Dict Frame Script Outlier.

Variable parse_float : string -> float.

Lemma insert_row_In r x rows : In r (insert_row x rows) <-> r = x \/ In r rows.
Proof.
  induction rows as [|y rest IH]; simpl.
  - intuition congruence.
  - destruct (summary_le x y); simpl; [intuition congruence|].
    rewrite IH. intuition congruence.
Qed.

Lemma sort_rows_In r rows : In r (sort_rows rows) <-> In r rows.
Proof.
  induction rows as [|x rest IH]; simpl; [tauto|].
  rewrite insert_row_In, IH. intuition congruence.
Qed.

Lemma true_indices_length m : forall i,
  List.length (true_indices i m) = List.length (filter (fun b => b) m).
Proof.
  induction m as [|b rest IH]; intro i; simpl; [reflexivity|].
  destruct b; simpl; now rewrite IH.
Qed.

Lemma rows_of_map method c c' idxs :
  rows_of method c (map (mkIndex method c') idxs) =
  if String.eqb c' c then map (mkIndex method c') idxs else [].
Proof.
  unfold rows_of. induction idxs as [|i rest IH]; simpl.
  - now destruct (String.eqb c' c).
  - rewrite String.eqb_refl, IH. simpl. now destruct (String.eqb c' c).
Qed.

Lemma rows_of_absent method (mm : masks) c :
  ~ In c (keys mm) ->
  rows_of method c
    (flat_map (fun '(c, m) => map (mkIndex method c) (true_indices 0 m)) mm) = [].
Proof.
  unfold rows_of. induction mm as [|[c1 m1] rest IH]; simpl; intro Hk; [reflexivity|].
  rewrite filter_app.
  fold (rows_of method c (map (mkIndex method c1) (true_indices 0 m1))).
  rewrite rows_of_map.
  destruct (String.eqb c1 c) eqn:E.
  - apply String.eqb_eq in E. subst. exfalso. apply Hk. now left.
  - simpl. apply IH. intro H. apply Hk. now right.
Qed.

Lemma rows_of_masks method (mm : masks) c m :
  NoDup (keys mm) -> In (c, m) mm ->
  List.length (rows_of method c
     (flat_map (fun '(c, m) => map (mkIndex method c) (true_indices 0 m)) mm))
  = List.length (filter (fun b => b) m).
Proof.
  unfold rows_of.
  induction mm as [|[c0 m0] rest IH]; simpl; intros Hn Hin; [contradiction|].
  inversion Hn as [|? ? Hk Hr]; subst.
  rewrite filter_app, length_app.
  fold (rows_of method c (map (mkIndex method c0) (true_indices 0 m0))).
  rewrite rows_of_map.
  destruct Hin as [E|Hin].
  - injection E as -> ->. rewrite String.eqb_refl, length_map, true_indices_length.
    assert (Z := rows_of_absent method rest c Hk). unfold rows_of in Z.
    rewrite Z. simpl. lia.
  - destruct (String.eqb c0 c) eqn:E.
    + apply String.eqb_eq in E. subst. exfalso. apply Hk.
      change c with (fst (c, m)). now apply in_map.
    + simpl. now apply IH.
Qed.

Lemma detect_loop_keys df k cols :
  forall mm bb mm' bb',
  detect_loop parse_float df k cols mm bb = Some (mm', bb') ->
  NoDup (keys mm) -> NoDup (keys mm').
Proof.
  induction cols as [|c rest IH]; simpl; intros mm bb mm' bb' H Hn.
  - now injection H as <- <-.
  - destruct (get_column df c) as [x|]; [|discriminate].
    destruct (iqr_mask _ _ _) as [m b].
    apply IH in H; [exact H|]. now apply dict_keys_set_nodup.
Qed.

Lemma detect_loop_keys_in df k cols :
  forall mm bb mm' bb' c,
  detect_loop parse_float df k cols mm bb = Some (mm', bb') ->
  (In c (keys mm') <-> In c cols \/ In c (keys mm)).
Proof.
  induction cols as [|c0 rest IH]; simpl; intros mm bb mm' bb' c H.
  - injection H as <- <-. tauto.
  - destruct (get_column df c0) as [x|]; [|discriminate].
    destruct (iqr_mask _ _ _) as [m b].
    rewrite (IH _ _ _ _ c H), dict_keys_set. intuition congruence.
Qed.

Lemma fold_flags_other (mm : masks) n : forall df,
  (forall c, In c (keys mm) -> (c ++ iqr_suffix)%string <> n) ->
  get_column (fold_left (fun fl '(c, m) => set_column fl (flag_column c m)) mm df) n
  = get_column df n.
Proof.
  induction mm as [|[c0 m0] rest IH]; simpl; intros df H; [reflexivity|].
  rewrite IH by (intros c Hc; apply H; now right).
  rewrite get_set_column. simpl.
  destruct (String.eqb (c0 ++ iqr_suffix) n) eqn:E; [|reflexivity].
  apply String.eqb_eq in E. exfalso. apply (H c0); [now left|exact E].
Qed.

Lemma fold_flags_get (mm : masks) c m : forall df,
  NoDup (keys mm) -> In (c, m) mm ->
  get_column (fold_left (fun fl '(c, m) => set_column fl (flag_column c m)) mm df)
    (c ++ iqr_suffix)
  = Some (flag_column c m).
Proof.
  induction mm as [|[c0 m0] rest IH]; simpl; intros df Hn Hin; [contradiction|].
  inversion Hn as [|? ? Hk Hr]; subst.
  destruct Hin as [E|Hin].
  - injection E as -> ->. rewrite fold_flags_other.
    + rewrite get_set_column. simpl. now rewrite String.eqb_refl.
    + intros c' Hc' E. apply append_inj_l in E. subst. contradiction.
  - now apply IH.
Qed.

Lemma flags_sum m :
  exists q, column_sum (map int_of_bool m) = Some q /\ (q == inject_Z (mask_sum m))%Q.
Proof.
  unfold mask_sum. induction m as [|b rest (q & Hq & Eq)].
  - exists 0%Q. split; reflexivity.
  - destruct b; cbn [map column_sum int_of_bool cell_number filter List.length];
      rewrite Hq; eexists; (split; [reflexivity|]); rewrite Eq.
    + rewrite Nat2Z.inj_succ. unfold Z.succ. rewrite inject_Z_plus. ring.
    + ring.
Qed.

End OutlierConsistency.

Section OutlierTheorems.
Import Float Dict Frame Script Outlier.

Variable parse_float : string -> float.

Lemma any_flag_name_fresh c : (c ++ iqr_suffix)%string <> any_flag_name.
Proof.
  intro E. pose proof (ends_with_append c iqr_suffix) as H.
  rewrite E in H. vm_compute in H. discriminate.
Qed.

Lemma summary_rows_single method (mm : masks) r :
  In r (summary_rows [(method, mm)]) <->
  exists c m, In (c, m) mm /\
    r = mkSummary method c (mask_sum m) (mul (mask_mean m) (Some 100%Q)).
Proof.
  unfold summary_rows, items. simpl. rewrite app_nil_r, in_map_iff. split.
  - intros ([c m] & <- & Hin). eauto.
  - intros (c & m & Hin & ->). exists (c, m). auto.
Qed.

Lemma long_indices_single method (mm : masks) :
  masks_to_long_indices [(method, mm)] =
  flat_map (fun '(c, m) => map (mkIndex method c) (true_indices 0 m)) mm.
Proof. unfold masks_to_long_indices, items. simpl. apply app_nil_r. Qed.

Lemma keys_In {V} (d : dict V) c : In c (keys d) <-> exists v, In (c, v) d.
Proof.
  unfold keys. rewrite in_map_iff. split.
  - intros ([c' v] & <- & H). eauto.
  - intros (v & H). exists (c, v). auto.
Qed.

(** C10. The three outputs of one run agree: each row of the summary has
    as [n_outliers] the number of true entries of its column's mask, which
    is the number of rows of the long table with the same method and column
    and the sum of the column's 0/1 flag in the flagged table; the summary
    has one row per pair, its pairs are the method "iqr_outlier" with the
    detected columns, and every row of the long table belongs to one. *)
Theorem outlier_outputs_consistent (e : env) (a : args)
  (pf ps pi : string) (flagged : DataFrame)
  (summary : list summary_row) (indices : list index_row) :
  In (pf, FlaggedCsv flagged) (written (trace (main parse_float e a))) ->
  In (ps, SummaryCsv summary) (written (trace (main parse_float e a))) ->
  In (pi, IndicesCsv indices) (written (trace (main parse_float e a))) ->
  (forall r, In r summary ->
     exists mask_map bounds mask col q,
       detect_outliers_iqr parse_float (read_csv e (input a))
         (continuous_cols (read_csv e (input a))) (iqr_k a) = Some (mask_map, bounds) /\
       Dict.get mask_map (sr_column r) = Some mask /\
       n_outliers r = mask_sum mask /\
       n_outliers r
         = Z.of_nat (List.length (rows_of (sr_method r) (sr_column r) indices)) /\
       get_column flagged (sr_column r ++ iqr_suffix) = Some col /\
       col_values col = map int_of_bool mask /\
       column_sum (col_values col) = Some q /\
       (q == inject_Z (n_outliers r))%Q) /\
  (forall r r', In r summary -> In r' summary ->
     sr_method r = sr_method r' -> sr_column r = sr_column r' -> r = r') /\
  (forall c, In c (continuous_cols (read_csv e (input a))) <->
     exists r, In r summary /\ sr_method r = "iqr_outlier"%string /\ sr_column r = c) /\
  (forall ir, In ir indices ->
     exists r, In r summary /\
       sr_method r = ir_method ir /\ sr_column r = ir_column ir).
Proof.
  intros Hf Hs Hi.
  destruct (outlier_main_written parse_float e a)
    as [E|(mm & bb & any & Ex & Hcc & Hd & Ha & E)];
    rewrite E in Hf, Hs, Hi; [contradiction|].
  simpl in Hf, Hs, Hi.
  destruct Hf as [Hf|[Hf|[Hf|[Hf|[]]]]]; try discriminate. injection Hf as _ <-.
  destruct Hs as [Hs|[Hs|[Hs|[Hs|[]]]]]; try discriminate. injection Hs as _ <-.
  destruct Hi as [Hi|[Hi|[Hi|[Hi|[]]]]]; try discriminate. injection Hi as _ <-.
  assert (Hn : NoDup (keys mm)).
  { apply (detect_loop_keys parse_float _ _ _ _ _ _ _ Hd). constructor. }
  assert (Hk : forall c, In c (keys mm) <-> In c (continuous_cols (read_csv e (input a)))).
  { intro c. rewrite (detect_loop_keys_in parse_float _ _ _ _ _ _ _ c Hd).
    simpl. tauto. }
  rewrite long_indices_single.
  repeat split.
  - intros r Hr. apply sort_rows_In, summary_rows_single in Hr.
    destruct Hr as (c & m & Hin & ->).
    cbn [sr_column sr_method n_outliers].
    destruct (flags_sum m) as (q & Hq & Eq).
    exists mm, bb, m, (flag_column c m), q.
    split; [exact Hd|]. split; [now apply dict_get_In|]. split; [reflexivity|].
    split; [unfold mask_sum; now rewrite (rows_of_masks _ _ _ m Hn Hin)|].
    split; [|now repeat split].
    rewrite get_set_column. cbn [col_name sr_column].
    destruct (String.eqb any_flag_name (c ++ iqr_suffix)) eqn:En.
    + apply String.eqb_eq in En. symmetry in En. now apply any_flag_name_fresh in En.
    + unfold set_flags, items. cbn [fold_left]. now apply fold_flags_get.
  - intros r r' Hr Hr' Em Ec.
    apply sort_rows_In, summary_rows_single in Hr, Hr'.
    destruct Hr as (c & m & Hin & ->), Hr' as (c' & m' & Hin' & ->).
    simpl in Ec. subst c'.
    pose proof (dict_get_In _ _ _ Hn Hin) as G.
    rewrite (dict_get_In _ _ _ Hn Hin') in G. now injection G as ->.
  - intro Hc. apply Hk, keys_In in Hc. destruct Hc as (m & Hin).
    eexists. split; [apply sort_rows_In, summary_rows_single; eauto|]. now split.
  - intros (r & Hr & _ & <-). apply sort_rows_In, summary_rows_single in Hr.
    destruct Hr as (c & m & Hin & ->). simpl. apply Hk, keys_In. eauto.
  - intros ir Hir. apply in_flat_map in Hir. destruct Hir as ([c m] & Hin & Hir).
    apply in_map_iff in Hir. destruct Hir as (i & <- & _).
    eexists. split; [apply sort_rows_In, summary_rows_single; eauto|]. now split.
Qed.

End OutlierTheorems.

Lemma outlier_outputs_consistent_witness :
  exists r,
    In r Samples.survey_summary /\
    Outlier.sr_column r = "BMI"%string /\
    Outlier.n_outliers r
      = Z.of_nat (List.length
          (Outlier.rows_of "iqr_outlier" "BMI" Samples.survey_indices)).
Proof.
  destruct (outlier_outputs_consistent Samples.no_parse Samples.survey_env
              Outlier.default_args
              "output/outliers_flagged.csv" "output/outliers_summary.csv"
              "output/outliers_indices.csv"
              Samples.survey_flagged Samples.survey_summary Samples.survey_indices)
    as (Hrows & _ & Hcols & _).
  - vm_compute. auto.
  - vm_compute. auto.
  - vm_compute. auto.
  - destruct (proj1 (Hcols "BMI"%string)) as (r & Hr & Em & Ec).
    + vm_compute. auto.
    + exists r. split; [exact Hr|]. split; [exact Ec|].
      destruct (Hrows r Hr) as (mm & bb & m & col & q & _ & _ & _ & Hn & _).
      rewrite Em, Ec in Hn. exact Hn.
Defined.

(** ** The flagged table *)

Section FlaggedTable.
Import Float Dict Frame Script Outlier.

Variable parse_float : string -> float.

Lemma dict_set_fresh {V} (d : dict V) k v :
  ~ In k (keys d) -> Dict.set d k v = d ++ [(k, v)].
Proof.
  induction d as [|[k' v'] rest IH]; simpl; intro H; [reflexivity|].
  destruct (String.eqb k' k) eqn:E.
  - apply String.eqb_eq in E. tauto.
  - rewrite IH; tauto.
Qed.

Lemma detect_loop_order df k cols :
  forall mm bb mm' bb',
  NoDup cols -> (forall c, In c cols -> ~ In c (keys mm)) ->
  detect_loop parse_float df k cols mm bb = Some (mm', bb') ->
  keys mm' = keys mm ++ cols.
Proof.
  induction cols as [|c rest IH]; simpl; intros mm bb mm' bb' Hn Hf H.
  - injection H as <- <-. now rewrite app_nil_r.
  - destruct (get_column df c) as [x|]; [|discriminate].
    destruct (iqr_mask _ _ _) as [m b].
    inversion Hn as [|? ? Hc Hr]; subst.
    apply IH in H; [|exact Hr|].
    + rewrite H, dict_set_fresh by (apply Hf; now left).
      unfold keys. rewrite map_app. simpl. now rewrite <- app_assoc.
    + intros c' Hc' Hin. apply dict_keys_set in Hin.
      destruct Hin as [->|Hin]; [contradiction|].
      apply (Hf c'); [now right|exact Hin].
Qed.

Lemma continuous_cols_nodup df : NoDup (continuous_cols df).
Proof.
  unfold continuous_cols. apply NoDup_filter.
  unfold DEFAULT_CONTINUOUS.
  repeat constructor; simpl; intuition discriminate.
Qed.

Lemma fold_flags_append (mm : masks) : forall n cs,
  NoDup (keys mm) ->
  (forall c, In c (keys mm) -> ~ In (c ++ iqr_suffix)%string (map col_name cs)) ->
  fold_left (fun fl '(c, m) => set_column fl (flag_column c m)) mm (mkFrame n cs)
  = mkFrame n (cs ++ map (fun '(c, m) => flag_column c m) mm).
Proof.
  induction mm as [|[c0 m0] rest IH]; simpl; intros n cs Hn Hf.
  - now rewrite app_nil_r.
  - inversion Hn as [|? ? Hk Hr]; subst.
    unfold set_column at 2. cbn [nrows frame_columns].
    rewrite set_in_fresh by (apply Hf; now left).
    rewrite IH; [now rewrite <- app_assoc|exact Hr|].
    intros c Hc. rewrite map_app, in_app_iff. simpl.
    intros [H|[H|[]]].
    + apply (Hf c); [now right|exact H].
    + apply append_inj_l in H. subst. contradiction.
Qed.

Lemma flag_cols_appended n cs (mm : masks) :
  (forall c, In c (map col_name cs) -> Script.ends_with iqr_suffix c = false) ->
  flag_cols (mkFrame n (cs ++ map (fun '(c, m) => flag_column c m) mm))
  = map (fun '(c, m) => flag_column c m) mm.
Proof.
  intro H. unfold flag_cols. cbn [frame_columns]. rewrite filter_app.
  assert (E1 : filter (fun x => Script.ends_with iqr_suffix (col_name x)) cs = []).
  { induction cs as [|x rest IH]; simpl; [reflexivity|].
    rewrite (H (col_name x)) by now left.
    apply IH. intros c Hc. apply H. now right. }
  rewrite E1. simpl.
  induction mm as [|[c m] rest IH]; simpl; [reflexivity|].
  now rewrite ends_with_append, IH.
Qed.

Lemma flag_cell m i :
  cell_number (nth i (map int_of_bool m) VNaN)
  = Some (if nth i m false then 1 else 0)%Q.
Proof.
  destruct (Nat.lt_ge_cases i (List.length m)) as [L|L].
  - rewrite (nth_indep _ VNaN (int_of_bool false)) by now rewrite length_map.
    rewrite map_nth. now destruct (nth i m false).
  - rewrite !nth_overflow; [reflexivity|exact L|now rewrite length_map].
Qed.

(** The row sum over the flag columns is positive exactly on the rows that
    some mask flags. *)
Lemma row_sum_flags (mm : masks) i :
  exists q,
    row_sum (map (fun '(c, m) => flag_column c m) mm) i = Some q /\
    Qltb 0 q = existsb (fun '(c, m) => nth i m false) mm /\ (0 <= q)%Q.
Proof.
  induction mm as [|[c m] rest (q & Hq & Hpos & Hle)]; simpl.
  - exists 0%Q. repeat split. apply Qle_refl.
  - rewrite flag_cell, Hq. eexists. split; [reflexivity|].
    destruct (nth i m false); simpl.
    + split.
      * apply Qltb_lt. apply Qlt_le_trans with (y := 1%Q); [reflexivity|].
        rewrite <- (Qplus_0_r 1) at 1. apply Qplus_le_r. exact Hle.
      * apply Qle_trans with (y := q); [exact Hle|].
        rewrite <- (Qplus_0_l q) at 1. apply Qplus_le_l. discriminate.
    + split.
      * rewrite <- Hpos. unfold Qltb. f_equal.
        apply eq_true_iff_eq. rewrite !Qle_bool_iff. now rewrite Qplus_0_l.
      * now rewrite Qplus_0_l.
Qed.

Lemma sequence_map {A B} (f : A -> option B) (g : A -> B) l :
  (forall x, In x l -> f x = Some (g x)) ->
  sequence (map f l) = Some (map g l).
Proof.
  induction l as [|x rest IH]; simpl; intro H; [reflexivity|].
  rewrite (H x) by now left. rewrite IH; [reflexivity|].
  intros y Hy. apply H. now right.
Qed.

End FlaggedTable.

Section FlaggedCopy.
Import Float Dict Frame Script Outlier.

Variable parse_float : string -> float.

Lemma any_flag_values_appended n cs (mm : masks) any :
  (forall c, In c (map col_name cs) -> Script.ends_with iqr_suffix c = false) ->
  mm <> [] ->
  any_flag_values (mkFrame n (cs ++ map (fun '(c, m) => flag_column c m) mm)) = Some any ->
  List.length any = n /\
  forall i, i < n ->
    nth i any VNaN = int_of_bool (existsb (fun '(c, m) => nth i m false) mm).
Proof.
  intros Hcs Hmm. unfold any_flag_values.
  rewrite flag_cols_appended by exact Hcs. cbn [nrows].
  set (flags := map (fun '(c, m) => flag_column c m) mm).
  assert (Hf : flags <> []) by (subst flags; destruct mm as [|[c m] rest]; [congruence|discriminate]).
  destruct flags as [|x0 xs] eqn:Ef; [congruence|]. rewrite <- Ef. clear Hf.
  set (g := fun i => match row_sum flags i with Some q => q | None => 0%Q end).
  rewrite (sequence_map (row_sum flags) g).
  - intro H. injection H as <-. split.
    + now rewrite !length_map, length_seq.
    + intros i Hi.
      rewrite (nth_indep _ VNaN (int_of_bool (Qltb 0 (g 0)))) by
        now rewrite !length_map, length_seq.
      rewrite map_map.
      rewrite (map_nth (fun j => int_of_bool (Qltb 0 (g j))) (seq 0 n) 0 i).
      rewrite seq_nth by exact Hi. simpl. f_equal.
      subst g. cbn beta. subst flags.
      destruct (row_sum_flags mm i) as (q & -> & Hq & _). exact Hq.
  - intros i _. subst g. cbn beta. subst flags.
    now destruct (row_sum_flags mm i) as (q & -> & _).
Qed.

(** C9, amended. When no column of the input table has a name ending in
    "__iqr_outlier" and none is named "__any_outlier_flag", the flagged
    table written by outlier.py has the rows of the input and, in order,
    every input column unchanged, then one integer 0/1 column
    "<col>__iqr_outlier" per detected continuous column holding that
    column's mask, then "__any_outlier_flag", which is 1 on a row exactly
    when some per-column flag of that row is 1 and 0 otherwise. *)
Theorem flagged_table_extends_input (e : env) (a : args)
  (pf : string) (flagged : DataFrame) :
  (forall c, In c (columns (read_csv e (input a))) ->
             Script.ends_with iqr_suffix c = false) ->
  ~ In any_flag_name (columns (read_csv e (input a))) ->
  In (pf, FlaggedCsv flagged) (written (trace (main parse_float e a))) ->
  exists mask_map bounds any,
    detect_outliers_iqr parse_float (read_csv e (input a))
      (continuous_cols (read_csv e (input a))) (iqr_k a) = Some (mask_map, bounds) /\
    keys mask_map = continuous_cols (read_csv e (input a)) /\
    nrows flagged = nrows (read_csv e (input a)) /\
    frame_columns flagged
      = frame_columns (read_csv e (input a))
        ++ map (fun '(c, m) => flag_column c m) mask_map
        ++ [mkColumn any_flag_name int64 any] /\
    List.length any = nrows (read_csv e (input a)) /\
    forall i, i < nrows (read_csv e (input a)) ->
      nth i any VNaN
      = int_of_bool (existsb (fun '(c, m) => nth i m false) mask_map).
Proof.
  intros Hsuf Hany Hf.
  destruct (outlier_main_written parse_float e a)
    as [E|(mm & bb & any & Ex & Hcc & Hd & Ha & E)];
    rewrite E in Hf; [contradiction|].
  simpl in Hf.
  destruct Hf as [Hf|[Hf|[Hf|[Hf|[]]]]]; try discriminate. injection Hf as _ <-.
  assert (Hn : NoDup (keys mm)).
  { apply (detect_loop_keys parse_float _ _ _ _ _ _ _ Hd). constructor. }
  assert (Hk : keys mm = continuous_cols (read_csv e (input a))).
  { apply (detect_loop_order parse_float _ _ _ _ _ _ _
             (continuous_cols_nodup _)) in Hd; [exact Hd|]. intros c _ []. }
  assert (Hmm : mm <> []).
  { intros ->. apply Hcc. now rewrite <- Hk. }
  destruct (read_csv e (input a)) as [n cs] eqn:Edf.
  unfold columns in Hsuf, Hany. cbn [frame_columns nrows] in *.
  assert (Hfl : set_flags (mkFrame n cs) [("iqr_outlier"%string, mm)]
                = mkFrame n (cs ++ map (fun '(c, m) => flag_column c m) mm)).
  { unfold set_flags, items. cbn [fold_left].
    apply fold_flags_append; [exact Hn|].
    intros c _ Hin. apply Hsuf in Hin. now rewrite ends_with_append in Hin. }
  rewrite Hfl in Ha |- *.
  destruct (any_flag_values_appended n cs mm any Hsuf Hmm Ha) as [Hlen Hrow].
  exists mm, bb, any. split; [exact Hd|]. split; [exact Hk|].
  split; [reflexivity|]. split; [|split; assumption].
  unfold set_column. cbn [frame_columns nrows].
  rewrite set_in_fresh; [now rewrite <- app_assoc|].
  cbn [col_name]. rewrite map_app, in_app_iff. intros [H|H]; [contradiction|].
  rewrite map_map in H. apply in_map_iff in H.
  destruct H as ([c m] & H & _). now apply any_flag_name_fresh in H.
Qed.

End FlaggedCopy.

(** C9 as stated fails on a table that already has a column named like a
    flag column: the run overwrites it, so that input column is not in the
    flagged table any more. *)
Lemma flagged_copy_counterexample :
  exists flagged,
    In ("output/outliers_flagged.csv"%string, Outlier.FlaggedCsv flagged)
       (Script.written (Script.trace
          (Outlier.main Samples.no_parse Samples.flagged_before_env Outlier.default_args))) /\
    Frame.get_column Samples.flagged_before "BMI__iqr_outlier"
      = Some (Frame.mkColumn "BMI__iqr_outlier" Frame.int64
                (Samples.ints [5; 5; 5; 5; 5; 5; 5; 5]%Z)) /\
    Frame.get_column flagged "BMI__iqr_outlier"
      = Some (Frame.mkColumn "BMI__iqr_outlier" Frame.int64
                (Samples.ints [0; 0; 0; 0; 0; 0; 0; 1]%Z)) /\
    Frame.columns flagged
      = ["BMI"; "BMI__iqr_outlier"; "__any_outlier_flag"]%string /\
    ~ In Samples.stale_flag (Frame.frame_columns flagged).
Proof.
  eexists. split; [vm_compute; left; reflexivity|].
  split; [reflexivity|]. split; [reflexivity|]. split; [reflexivity|].
  vm_compute. intros [H|[H|[H|[]]]]; discriminate.
Qed.

Lemma flagged_table_extends_input_witness :
  exists extra,
    Frame.frame_columns Samples.survey_flagged
    = Frame.frame_columns Samples.survey ++ extra.
Proof.
  destruct (flagged_table_extends_input Samples.no_parse Samples.survey_env
              Outlier.default_args "output/outliers_flagged.csv"
              Samples.survey_flagged)
    as (mm & bb & any & _ & _ & _ & Hcols & _).
  - intros c H. simpl in H. destruct H as [<-|[<-|[<-|[]]]]; reflexivity.
  - simpl. intros [H|[H|[H|[]]]]; discriminate.
  - vm_compute. auto.
  - eexists. exact Hcols.
Defined.

(** ** scripts/export_data.py *)

Section ExportFacts.
Import Dict Frame Script ExportData.

Variable can_write : string -> bool.

Lemma append_inj_r (p a b : string) : (p ++ a = p ++ b)%string -> a = b.
Proof. induction p as [|ch p IH]; simpl; intro H; [exact H|]. injection H as H. auto. Qed.

Lemma path_join_inj (dir a b : string) : path_join dir a = path_join dir b -> a = b.
Proof.
  unfold path_join. destruct (String.eqb dir ""); [auto|].
  destruct (ends_with "/" dir); intro H.
  - now apply append_inj_r in H.
  - apply append_inj_r in H. now injection H.
Qed.

Lemma assign_targets_no_exit target_df cs : forall combined code,
  result (assign_targets target_df cs combined) <> SysExit code.
Proof.
  induction cs as [|c rest IH]; intros combined code; simpl; [discriminate|].
  destruct (1 <? count_occ string_dec (columns target_df) c); [discriminate|].
  destruct (get_column target_df c); [apply IH|discriminate].
Qed.

Lemma bind_no_exit {E A B} (m : script E A) (k : A -> script E B) :
  (forall code, result m <> SysExit code) ->
  (forall a code, result (k a) <> SysExit code) ->
  forall code, result (bind m k) <> SysExit code.
Proof.
  intros Hm Hk code. destruct m as [t [a|c|e]]; simpl.
  - specialize (Hk a code). destruct (k a) as [t' o]. exact Hk.
  - exfalso. now apply (Hm c).
  - discriminate.
Qed.

Lemma try_except_returns {E} (m : script E unit) (h : exn -> script E unit) :
  (forall code, result m <> SysExit code) ->
  (forall e, result (h e) = Return tt) ->
  result (try_except m h) = Return tt.
Proof.
  intros Hm Hh. destruct m as [t [[]|c|e]]; simpl.
  - reflexivity.
  - exfalso. now apply (Hm c).
  - specialize (Hh e). destruct (h e) as [t' o]. exact Hh.
Qed.

Lemma to_csv_no_exit df path code : result (to_csv can_write df path) <> SysExit code.
Proof. unfold to_csv. destruct (can_write path); discriminate. Qed.

Lemma combine_no_exit f t outdir code :
  result (combine can_write f t outdir) <> SysExit code.
Proof.
  unfold combine. apply bind_no_exit.
  - destruct (build_rename_map f t); discriminate.
  - intros t' c. apply bind_no_exit; [apply assign_targets_no_exit|].
    intros combined c'. apply bind_no_exit; [apply to_csv_no_exit|discriminate].
Qed.

End ExportFacts.

Section ExportAbsent.
Import Dict Frame Script ExportData.

Variable can_write : string -> bool.

Lemma combine_guarded f t outdir :
  result (try_except (combine can_write f t outdir)
            (fun e => log (LogCombinedFailed e))) = Return tt.
Proof.
  apply try_except_returns; [apply combine_no_exit|reflexivity].
Qed.

Ltac other_file :=
  match goal with
  | H : (path_join ?d ?a, _) = (path_join ?d ?b, _) |- _ =>
      injection H as H _; apply path_join_inj in H; discriminate
  end.

Ltac no_file :=
  let H := fresh "H" in
  intros ? H; cbn -[path_join] in H;
  repeat (destruct H as [H|H]; [other_file|]); contradiction.

Ltac diagnosed :=
  eexists; split; [cbn; eauto|reflexivity].

(** C4. Whatever sources are missing (no data object, no features, no
    targets, or both), [export_features_targets] returns normally; the
    CSV of a missing source is not written (nor combined.csv when either
    is missing) and a diagnostic is logged; the CSV of a source that is there
    is written whenever the file can be written. *)
Theorem export_skips_absent_sources (ds : dataset) (outdir : string) :
  result (export_features_targets can_write ds outdir) = Return tt /\
  (ds_features ds = None ->
     forall df, ~ In (path_join outdir "features.csv", df)
                  (csv_written (trace (export_features_targets can_write ds outdir)))) /\
  (ds_targets ds = None ->
     forall df, ~ In (path_join outdir "targets.csv", df)
                  (csv_written (trace (export_features_targets can_write ds outdir)))) /\
  (ds_features ds = None \/ ds_targets ds = None ->
     (forall df, ~ In (path_join outdir "combined.csv", df)
                   (csv_written (trace (export_features_targets can_write ds outdir)))) /\
     exists m, In m (logged (trace (export_features_targets can_write ds outdir))) /\
               diagnostic m = true) /\
  (forall f, ds_features ds = Some f ->
     can_write (path_join outdir "features.csv") = true ->
     In (path_join outdir "features.csv", f)
        (csv_written (trace (export_features_targets can_write ds outdir)))) /\
  (forall t, ds_targets ds = Some t ->
     can_write (path_join outdir "targets.csv") = true ->
     In (path_join outdir "targets.csv", as_frame t)
        (csv_written (trace (export_features_targets can_write ds outdir)))).
Proof.
  destruct ds as [[[[f|] [t|]]|]];
    unfold ds_features, ds_targets, export_features_targets, to_csv;
    cbn [ds_data features targets option_map].
  - (* both sources *)
    pose proof (combine_guarded f (as_frame t) outdir) as Hc.
    destruct (try_except (combine can_write f (as_frame t) outdir) _) as [t3 o3].
    cbn in Hc. subst o3.
    destruct (can_write (path_join outdir "features.csv")) eqn:Wf;
      destruct (can_write (path_join outdir "targets.csv")) eqn:Wt;
      cbn -[path_join];
      (split; [reflexivity|]);
      (split; [discriminate|]); (split; [discriminate|]);
      (split; [intros [H|H]; discriminate|]);
      split; intros x H W; try discriminate; injection H as ->; auto.
  - (* features only *)
    destruct (can_write (path_join outdir "features.csv")) eqn:Wf;
      cbn -[path_join];
      (split; [reflexivity|]);
      (split; [discriminate|]);
      (split; [intros _; no_file|]);
      (split; [intros _; split; [no_file|diagnosed]|]);
      split; intros x H W; try discriminate; injection H as ->; auto.
  - (* targets only *)
    destruct (can_write (path_join outdir "targets.csv")) eqn:Wt;
      cbn -[path_join];
      (split; [reflexivity|]);
      (split; [intros _; no_file|]);
      (split; [discriminate|]);
      (split; [intros _; split; [no_file|diagnosed]|]);
      split; intros x H W; try discriminate; injection H as ->; auto.
  - (* neither *)
    cbn. split; [reflexivity|]. split; [auto|]. split; [auto|].
    split; [intros _; split; [auto|diagnosed]|]. split; discriminate.
  - (* no data object *)
    cbn. split; [reflexivity|]. split; [auto|]. split; [auto|].
    split; [intros _; split; [auto|diagnosed]|]. split; discriminate.
Qed.

End ExportAbsent.

(** C3 at a failing input. The features have the columns "y" and
    "y_target", the targets have "y": the target column is renamed to
    "y_target" and then assigned over the feature column of that name, so
    combined.csv has two columns, and the feature column "y_target" has lost
    its values 3, 4 to the target's 7, 8. *)
Lemma combined_overwrites_feature_on_suffix_collision :
  ExportData.csv_written (Script.trace
    (ExportData.export_features_targets (fun _ => true) Samples.collide_ds "dataset_891"))
  = [("dataset_891/features.csv"%string, Samples.collide_features);
     ("dataset_891/targets.csv"%string, Samples.collide_targets);
     ("dataset_891/combined.csv"%string,
      Frame.mkFrame 2
        [Frame.mkColumn "y" Frame.int64 (Samples.ints [1; 2]%Z);
         Frame.mkColumn "y_target" Frame.int64 (Samples.ints [7; 8]%Z)])].
Proof. reflexivity. Qed.

(** ** src/class_stats.py *)

Section ClassStatsFacts.
Import Float Dict Frame Script ClassStats.

Lemma cell_eqb_refl v : cell_isna v = false -> cell_eqb v v = true.
Proof.
  destruct v as [q|s|b|]; simpl; intro H; try discriminate.
  - apply Qeq_bool_iff. reflexivity.
  - apply String.eqb_refl.
  - apply Bool.eqb_reflx.
Qed.

Lemma cell_eqb_trans a b c :
  cell_eqb a b = true -> cell_eqb b c = true -> cell_eqb a c = true.
Proof.
  destruct a, b, c; simpl; try discriminate.
  - rewrite !Qeq_bool_iff. intros H1 H2. now rewrite H1.
  - rewrite !String.eqb_eq. congruence.
  - rewrite !Bool.eqb_true_iff. congruence.
Qed.

Lemma dropna_In v vs : In v (dropna vs) <-> In v vs /\ cell_isna v = false.
Proof. unfold dropna. rewrite filter_In, negb_true_iff. tauto. Qed.

Lemma unique_In u vs : In u (unique vs) -> In u vs.
Proof.
  induction vs as [|v rest IH]; simpl; [tauto|].
  intros [H|H]; [now left|]. apply filter_In in H. right. now apply IH.
Qed.


Lemma insert_count_In x y l : In x (insert_count y l) <-> x = y \/ In x l.
Proof.
  induction l as [|z rest IH]; simpl.
  - intuition congruence.
  - destruct (snd z <=? snd y); simpl; [intuition congruence|].
    rewrite IH. intuition congruence.
Qed.

Lemma value_counts_In v n vs :
  In (v, n) (value_counts vs) <->
  In v (unique (dropna vs)) /\ n = count_of v (dropna vs).
Proof.
  unfold value_counts.
  set (l := map (fun v => (v, count_of v (dropna vs))) (unique (dropna vs))).
  assert (H : forall x, In x (fold_right insert_count [] l) <-> In x l).
  { induction l as [|y rest IH]; intro x; simpl; [tauto|].
    rewrite insert_count_In, IH. intuition congruence. }
  rewrite H. subst l. rewrite in_map_iff. split.
  - intros (u & E & Hu). injection E as -> <-. auto.
  - intros [Hu ->]. exists v. auto.
Qed.


Lemma remove_first_In x c l :
  NoDup l -> (In c (remove_first x l) <-> In c l /\ c <> x).
Proof.
  induction l as [|y rest IH]; simpl; intro Hn; [tauto|].
  inversion Hn as [|? ? Hy Hr]; subst.
  destruct (String.eqb y x) eqn:E.
  - apply String.eqb_eq in E. subst y. split.
    + intro H. split; [now right|]. intros ->. contradiction.
    + intros [[H|H] N]; [congruence|exact H].
  - apply String.eqb_neq in E. simpl. rewrite (IH Hr).
    split; [intros [<-|[H N]]; auto|intros [[H|H] N]; auto].
Qed.

Lemma remove_first_NoDup x l : NoDup l -> NoDup (remove_first x l).
Proof.
  induction l as [|y rest IH]; simpl; intro Hn; [constructor|].
  inversion Hn as [|? ? Hy Hr]; subst.
  destruct (String.eqb y x); [exact Hr|].
  constructor; [|now apply IH]. intro H. apply (remove_first_In x y rest Hr) in H. tauto.
Qed.


Lemma categorical_cols_NoDup df : NoDup (columns df) -> NoDup (categorical_cols df).
Proof.
  intro Hn. unfold categorical_cols.
  assert (Hc : NoDup (classify df)) by (apply NoDup_filter; exact Hn).
  destruct (existsb _ _); [now apply remove_first_NoDup|exact Hc].
Qed.

Lemma frequency_rows_variable df c r : In r (frequency_rows df c) -> Variable_ r = c.
Proof.
  unfold frequency_rows. rewrite in_map_iff. intros ([v n] & <- & _). reflexivity.
Qed.

Lemma filter_frequency_rows df c col :
  filter (fun r => String.eqb (Variable_ r) col) (frequency_rows df c)
  = if String.eqb c col then frequency_rows df c else [].
Proof.
  pose proof (frequency_rows_variable df c) as H.
  induction (frequency_rows df c) as [|r rest IH]; simpl.
  - now destruct (String.eqb c col).
  - rewrite (H r) by now left. rewrite IH by (intros x Hx; apply H; now right).
    now destruct (String.eqb c col).
Qed.

Lemma csv_data_rows df cols col :
  NoDup cols -> In col cols ->
  filter (fun r => String.eqb (Variable_ r) col) (csv_data df cols)
  = frequency_rows df col.
Proof.
  unfold csv_data. induction cols as [|c rest IH]; simpl; intros Hn Hin; [contradiction|].
  inversion Hn as [|? ? Hc Hr]; subst.
  rewrite filter_app, filter_frequency_rows.
  assert (Z : forall l, ~ In col l ->
            filter (fun r => String.eqb (Variable_ r) col)
              (flat_map (frequency_rows df) l) = []).
  { induction l as [|c' l IHl]; simpl; intro H; [reflexivity|].
    rewrite filter_app, filter_frequency_rows.
    destruct (String.eqb c' col) eqn:E.
    - apply String.eqb_eq in E. tauto.
    - simpl. apply IHl. tauto. }
  destruct Hin as [->|Hin].
  - rewrite String.eqb_refl, Z by exact Hc. apply app_nil_r.
  - destruct (String.eqb c col) eqn:E.
    + apply String.eqb_eq in E. subst. contradiction.
    + simpl. now apply IH.
Qed.

End ClassStatsFacts.

Section ClassStatsTheorems.
Import Float Dict Frame Script ClassStats.

Lemma class_stats_writes (e : env) (a : args) :
  path_exists e (input a) = true ->
  categorical_cols (read_csv e (input a)) <> [] ->
  In (path_join (outdir a) "class_stats.csv",
      ClassCsv (csv_data (read_csv e (input a))
                  (categorical_cols (read_csv e (input a)))))
     (written (trace (main e a))).
Proof.
  intros Ex Hne. unfold main. rewrite Ex.
  cbn -[categorical_cols csv_data path_join shape print_latex].
  destruct (categorical_cols (read_csv e (input a))) as [|c cs] eqn:Ec;
    [contradiction|].
  cbn -[categorical_cols csv_data path_join shape print_latex].
  destruct (print_latex (read_csv e (input a)) (c :: cs)) as [t o].
  cbn -[csv_data path_join]. now left.
Qed.


End ClassStatsTheorems.


(** The dtype test of line 66 names int64 and float64 only: a column of
    dtype bool, with its two values, is not taken as categorical. *)
Lemma class_stats_leaves_bool_column_out :
  Frame.get_column Samples.answers "HighBP" = Some Samples.highbp /\
  Frame.col_dtype Samples.highbp = Frame.bool_ /\
  ClassStats.nunique (Frame.col_values Samples.highbp) = 2 /\
  ClassStats.categorical_cols Samples.answers = ["Smoker"%string].
Proof. repeat split; reflexivity. Qed.


(** ** src/normality_test.py and src/mann_whitney_test.py *)

Section TestsFacts.
Import Float Dict Frame Script Tests.

Lemma results_loop_run body vars :
  (forall v, In v vars -> exists r, result (body v) = Return r) ->
  forall acc,
    results_loop body vars acc
    = (flat_map (fun v => trace (body v)) vars,
       Return (acc ++ flat_map (fun v => produced (body v)) vars)).
Proof.
  induction vars as [|v rest IH]; simpl; intros H acc.
  - now rewrite app_nil_r.
  - destruct (H v (or_introl eq_refl)) as (r & Hr).
    unfold produced at 1. unfold trace at 1.
    destruct (body v) as [t o]. simpl in Hr. subst o. simpl.
    rewrite IH by (intros w Hw; apply H; now right). f_equal. f_equal.
    destruct r as [row|]; simpl; [now rewrite <- app_assoc|reflexivity].
Qed.

Lemma produced_of_vars (g : string -> list result_row) vars var :
  NoDup vars -> In var vars ->
  (forall v r, In r (g v) -> Variable_ r = v) ->
  filter (fun r => String.eqb (Variable_ r) var) (flat_map g vars) = g var.
Proof.
  intros Hn Hin Hg.
  assert (F : forall v, filter (fun r => String.eqb (Variable_ r) var) (g v)
                        = if String.eqb v var then g v else []).
  { intro v. specialize (Hg v). induction (g v) as [|r rest IH]; simpl.
    - now destruct (String.eqb v var).
    - rewrite (Hg r) by now left. rewrite IH by (intros x Hx; apply Hg; now right).
      now destruct (String.eqb v var). }
  induction vars as [|v rest IH]; simpl; [contradiction|].
  inversion Hn as [|? ? Hv Hr]; subst.
  rewrite filter_app, F.
  destruct (String.eqb v var) eqn:E.
  - apply String.eqb_eq in E. subst v.
    assert (Z : filter (fun r => String.eqb (Variable_ r) var) (flat_map g rest) = []).
    { clear IH Hn Hr Hin. induction rest as [|w rest IH]; simpl; [reflexivity|].
      rewrite filter_app, F.
      destruct (String.eqb w var) eqn:E'.
      - apply String.eqb_eq in E'. subst. exfalso. apply Hv. now left.
      - apply IH. intro H. apply Hv. now right. }
    rewrite Z. apply app_nil_r.
  - destruct Hin as [->|Hin]; [now rewrite String.eqb_refl in E|].
    simpl. now apply IH.
Qed.

Lemma continuous_vars_NoDup df : NoDup (continuous_vars df).
Proof.
  unfold continuous_vars. apply NoDup_filter.
  repeat constructor; simpl; intuition discriminate.
Qed.

Lemma continuous_vars_present df var :
  In var (continuous_vars df) -> exists x, get_column df var = Some x.
Proof.
  unfold continuous_vars. intro H. apply filter_In in H.
  now apply has_column_get.
Qed.

Lemma select_rows_get df mask var x :
  get_column df var = Some x ->
  get_column (select_rows df mask) var
  = Some (mkColumn (col_name x) (col_dtype x) (select mask (col_values x))).
Proof.
  unfold get_column, select_rows. cbn [frame_columns].
  induction (frame_columns df) as [|y rest IH]; simpl; [discriminate|].
  destruct (String.eqb (col_name y) var); [now intros [= ->]|exact IH].
Qed.

End TestsFacts.

Lemma written_app {F} (t1 t2 : list (Script.event F)) :
  Script.written (t1 ++ t2) = Script.written t1 ++ Script.written t2.
Proof.
  induction t1 as [|ev rest IH]; simpl; [reflexivity|].
  destruct ev; simpl; now rewrite IH.
Qed.

Lemma written_bodies {F A} (body : string -> Script.script (Script.event F) A) vars :
  (forall v, In v vars -> Script.written (Script.trace (body v)) = []) ->
  Script.written (flat_map (fun v => Script.trace (body v)) vars) = [].
Proof.
  induction vars as [|v rest IH]; simpl; intro H; [reflexivity|].
  rewrite written_app, (H v) by now left.
  apply IH. intros w Hw. apply H. now right.
Qed.

Section NormalityFacts.
Import Double Dict Frame Script Tests.

Variable shapiro : list cell -> float * float.

Lemma normality_body_run df var x :
  get_column df var = Some x ->
  normality_body shapiro df var =
    if List.length (dropna (col_values x)) <? 3
    then ([Stdout (MsgSkipped var)], Return None)
    else ([], Return (Some (mkResult var
                 (fst (shapiro (dropna (col_values x))))
                 (snd (shapiro (dropna (col_values x))))
                 (gt (snd (shapiro (dropna (col_values x)))) alpha)))).
Proof.
  intro Hx. unfold normality_body. rewrite Hx.
  destruct (List.length (dropna (col_values x)) <? 3); [reflexivity|].
  now destruct (shapiro (dropna (col_values x))).
Qed.

Lemma normality_body_returns df vars :
  (forall v, In v vars -> exists x, get_column df v = Some x) ->
  forall v, In v vars -> exists r, result (normality_body shapiro df v) = Return r.
Proof.
  intros H v Hv. destruct (H v Hv) as (x & Hx).
  rewrite (normality_body_run _ _ _ Hx).
  destruct (_ <? 3); simpl; eauto.
Qed.

(** A run on an existing file with a tested column present: the loop runs
    over the columns and its rows are written. *)
Lemma normality_main_run (e : env) (a : args) :
  path_exists e (input a) = true ->
  continuous_vars (read_csv e (input a)) <> [] ->
  normality_main shapiro e a =
    ([MakeDirs (outdir a); ReadCsv (input a);
      Stdout (MsgLoaded (input a) (shape (read_csv e (input a))));
      Stdout (MsgColumns (continuous_vars (read_csv e (input a))))]
     ++ flat_map (fun v => trace (normality_body shapiro (read_csv e (input a)) v))
          (continuous_vars (read_csv e (input a)))
     ++ [WriteFile (path_join (outdir a) "normality_test.csv")
           (ResultsCsv (flat_map
              (fun v => produced (normality_body shapiro (read_csv e (input a)) v))
              (continuous_vars (read_csv e (input a)))));
         Stdout (MsgSaved (path_join (outdir a) "normality_test.csv"));
         Stdout (MsgReport (LatexTable (flat_map
              (fun v => produced (normality_body shapiro (read_csv e (input a)) v))
              (continuous_vars (read_csv e (input a))))))],
     Return tt).
Proof.
  intros Ex Hne. unfold normality_main, normality_loop. rewrite Ex.
  rewrite results_loop_run
    by (apply normality_body_returns; intros v Hv; now apply continuous_vars_present).
  destruct (continuous_vars (read_csv e (input a))) as [|v vs] eqn:Ev; [contradiction|].
  cbn -[flat_map path_join shape]. reflexivity.
Qed.

Lemma normality_main_silent (e : env) (a : args) :
  path_exists e (input a) = false \/ continuous_vars (read_csv e (input a)) = [] ->
  written (trace (normality_main shapiro e a)) = [].
Proof.
  unfold normality_main. destruct (path_exists e (input a)); [|reflexivity].
  intros [H| ->]; [discriminate|reflexivity].
Qed.

End NormalityFacts.

Section MannWhitneyFacts.
Import Double Dict Frame Script Tests.

Variable mannwhitneyu : list cell -> list cell -> float * float.

Lemma mann_whitney_body_run df m0 m1 var x :
  get_column df var = Some x ->
  mann_whitney_body mannwhitneyu (select_rows df m0) (select_rows df m1) var =
    if (List.length (dropna (select m0 (col_values x))) <? 1)
       || (List.length (dropna (select m1 (col_values x))) <? 1)
    then ([Stdout (MsgSkipped var)], Return None)
    else ([], Return (Some (mkResult var
            (fst (mannwhitneyu (dropna (select m0 (col_values x)))
                               (dropna (select m1 (col_values x)))))
            (snd (mannwhitneyu (dropna (select m0 (col_values x)))
                               (dropna (select m1 (col_values x)))))
            (lt (snd (mannwhitneyu (dropna (select m0 (col_values x)))
                                   (dropna (select m1 (col_values x))))) alpha)))).
Proof.
  intro Hx. unfold mann_whitney_body.
  rewrite !(select_rows_get _ _ _ _ Hx). cbn [col_values].
  destruct (_ || _); [reflexivity|].
  now destruct (mannwhitneyu _ _).
Qed.

Lemma mann_whitney_body_returns df m0 m1 vars :
  (forall v, In v vars -> exists x, get_column df v = Some x) ->
  forall v, In v vars ->
    exists r, result (mann_whitney_body mannwhitneyu
                        (select_rows df m0) (select_rows df m1) v) = Return r.
Proof.
  intros H v Hv. destruct (H v Hv) as (x & Hx).
  rewrite (mann_whitney_body_run _ _ _ _ _ Hx).
  destruct (_ || _); simpl; eauto.
Qed.

Lemma mann_whitney_main_run (e : env) (a : args) (g : column) :
  path_exists e (input a) = true ->
  continuous_vars (read_csv e (input a)) <> [] ->
  get_column (read_csv e (input a)) group_col = Some g ->
  let df := read_csv e (input a) in
  let body := mann_whitney_body mannwhitneyu
                (select_rows df (group_mask g 0)) (select_rows df (group_mask g 1)) in
  mann_whitney_main mannwhitneyu e a =
    ([MakeDirs (outdir a); ReadCsv (input a);
      Stdout (MsgLoaded (input a) (shape df));
      Stdout (MsgColumns (continuous_vars df))]
     ++ flat_map (fun v => trace (body v)) (continuous_vars df)
     ++ [WriteFile (path_join (outdir a) "mann_whitney_test.csv")
           (ResultsCsv (flat_map (fun v => produced (body v)) (continuous_vars df)));
         Stdout (MsgSaved (path_join (outdir a) "mann_whitney_test.csv"));
         Stdout (MsgReport (LatexTable
           (flat_map (fun v => produced (body v)) (continuous_vars df))))],
     Return tt).
Proof.
  intros Ex Hne Hg df body. subst body df.
  unfold mann_whitney_main, mann_whitney_loop. rewrite Ex, Hg.
  rewrite results_loop_run
    by (apply mann_whitney_body_returns; intros v Hv; now apply continuous_vars_present).
  destruct (continuous_vars (read_csv e (input a))) as [|v vs] eqn:Ev; [contradiction|].
  cbn -[flat_map path_join shape select_rows]. reflexivity.
Qed.

Lemma mann_whitney_main_silent (e : env) (a : args) :
  path_exists e (input a) = false \/
  continuous_vars (read_csv e (input a)) = [] \/
  get_column (read_csv e (input a)) group_col = None ->
  written (trace (mann_whitney_main mannwhitneyu e a)) = [].
Proof.
  unfold mann_whitney_main. destruct (path_exists e (input a)); [|reflexivity].
  intros [H|[-> | H]]; [discriminate|reflexivity|].
  rewrite H. now destruct (continuous_vars _).
Qed.

End MannWhitneyFacts.

Section TestsTheorems.
Import Double Dict Frame Script Tests.

Variable shapiro : list cell -> float * float.
Variable mannwhitneyu : list cell -> list cell -> float * float.

Lemma normality_bodies_silent df vars :
  (forall v, In v vars -> exists x, get_column df v = Some x) ->
  forall v, In v vars -> written (trace (normality_body shapiro df v)) = [].
Proof.
  intros H v Hv. destruct (H v Hv) as (x & Hx).
  rewrite (normality_body_run _ _ _ _ Hx). now destruct (_ <? 3).
Qed.

Lemma mann_whitney_bodies_silent df m0 m1 vars :
  (forall v, In v vars -> exists x, get_column df v = Some x) ->
  forall v, In v vars ->
    written (trace (mann_whitney_body mannwhitneyu
                      (select_rows df m0) (select_rows df m1) v)) = [].
Proof.
  intros H v Hv. destruct (H v Hv) as (x & Hx).
  rewrite (mann_whitney_body_run _ _ _ _ _ _ Hx). now destruct (_ || _).
Qed.

(** The table normality_test.py writes, when it writes one. *)
Lemma normality_written (e : env) (a : args) path rows :
  In (path, ResultsCsv rows) (written (trace (normality_main shapiro e a))) ->
  path_exists e (input a) = true /\
  rows = flat_map (fun v => produced (normality_body shapiro (read_csv e (input a)) v))
           (continuous_vars (read_csv e (input a))).
Proof.
  intro H.
  destruct (path_exists e (input a)) eqn:Ex;
    [|rewrite normality_main_silent in H by (now left); contradiction].
  destruct (continuous_vars (read_csv e (input a))) as [|v0 vs] eqn:Ev;
    [rewrite normality_main_silent in H by (now right); contradiction|].
  rewrite normality_main_run in H by (try rewrite Ev; congruence).
  cbn [trace fst] in H. rewrite !written_app, written_bodies in H
    by (apply normality_bodies_silent; intros v Hv; now apply continuous_vars_present).
  rewrite Ev in H. simpl in H. destruct H as [H|[]].
  injection H as _ <-. now split.
Qed.

Lemma mann_whitney_written (e : env) (a : args) path rows :
  In (path, ResultsCsv rows) (written (trace (mann_whitney_main mannwhitneyu e a))) ->
  path_exists e (input a) = true /\
  exists g, get_column (read_csv e (input a)) group_col = Some g /\
    rows = flat_map
             (fun v => produced (mann_whitney_body mannwhitneyu
                (select_rows (read_csv e (input a)) (group_mask g 0))
                (select_rows (read_csv e (input a)) (group_mask g 1)) v))
             (continuous_vars (read_csv e (input a))).
Proof.
  intro H.
  destruct (path_exists e (input a)) eqn:Ex;
    [|rewrite mann_whitney_main_silent in H by (now left); contradiction].
  destruct (continuous_vars (read_csv e (input a))) as [|v0 vs] eqn:Ev;
    [rewrite mann_whitney_main_silent in H by (right; now left); contradiction|].
  destruct (get_column (read_csv e (input a)) group_col) as [g|] eqn:Eg;
    [|rewrite mann_whitney_main_silent in H by (right; now right); contradiction].
  rewrite (mann_whitney_main_run _ _ _ g) in H by (try rewrite Ev; congruence).
  cbn [trace fst] in H. rewrite !written_app, written_bodies in H
    by (apply mann_whitney_bodies_silent; intros v Hv; now apply continuous_vars_present).
  rewrite Ev in H. simpl in H. destruct H as [H|[]].
  injection H as _ <-. split; [reflexivity|]. exists g. now split.
Qed.

(** C6. The threshold of both scripts is the double 0.05, and in the
    table each script writes the yes/no column of every row is the
    comparison of the row's p-value with it: Normality is [p > 0.05],
    Significant is [p < 0.05], in double precision (so a p-value equal to
    the double 0.05, or NaN, gives false in both).  The rows are there: a
    tested column with enough values has a row carrying the p-value of its
    test. *)
Theorem verdict_is_threshold_on_p_value (e : env) (a : args)
  (var : string) (x : column) :
  path_exists e (input a) = true ->
  In var (continuous_vars (read_csv e (input a))) ->
  get_column (read_csv e (input a)) var = Some x ->
  alpha = S754_finite false 7205759403792794 (-57) /\
  (exists rows,
     written (trace (normality_main shapiro e a))
     = [(path_join (outdir a) "normality_test.csv", ResultsCsv rows)] /\
     (forall r, In r rows -> verdict r = gt (p_value r) alpha) /\
     (3 <= List.length (dropna (col_values x)) ->
      exists r, In r rows /\ Variable_ r = var /\
        p_value r = snd (shapiro (dropna (col_values x))))) /\
  (forall g, get_column (read_csv e (input a)) group_col = Some g ->
   exists rows,
     written (trace (mann_whitney_main mannwhitneyu e a))
     = [(path_join (outdir a) "mann_whitney_test.csv", ResultsCsv rows)] /\
     (forall r, In r rows -> verdict r = lt (p_value r) alpha) /\
     (1 <= List.length (dropna (select (group_mask g 0) (col_values x))) ->
      1 <= List.length (dropna (select (group_mask g 1) (col_values x))) ->
      exists r, In r rows /\ Variable_ r = var /\
        p_value r = snd (mannwhitneyu
                           (dropna (select (group_mask g 0) (col_values x)))
                           (dropna (select (group_mask g 1) (col_values x)))))).
Proof.
  intros Ex Hvar Hx.
  assert (Hne : continuous_vars (read_csv e (input a)) <> [])
    by (intro E; rewrite E in Hvar; contradiction).
  split; [reflexivity|]. split.
  - rewrite (normality_main_run _ _ _ Ex Hne). cbn [trace fst].
    eexists. split.
    { rewrite !written_app.
      rewrite (written_bodies (normality_body shapiro (read_csv e (input a))))
        by (apply normality_bodies_silent, continuous_vars_present).
      reflexivity. }
    split.
    + intros r Hr. apply in_flat_map in Hr. destruct Hr as (v & Hv & Hr).
      destruct (continuous_vars_present _ _ Hv) as (y & Hy).
      rewrite (normality_body_run _ _ _ _ Hy) in Hr.
      destruct (_ <? 3); [contradiction|].
      destruct Hr as [<-|[]]. reflexivity.
    + intro L. eexists. split.
      * apply in_flat_map. exists var. split; [exact Hvar|].
        rewrite (normality_body_run _ _ _ _ Hx).
        apply Nat.ltb_ge in L. rewrite L. now left.
      * split; reflexivity.
  - intros g Hg.
    pose proof (mann_whitney_main_run mannwhitneyu e a g Ex Hne Hg) as Hrun.
    cbv zeta in Hrun. rewrite Hrun. cbn [trace fst].
    eexists. split.
    { rewrite !written_app.
      rewrite (written_bodies (mann_whitney_body mannwhitneyu _ _))
        by (apply mann_whitney_bodies_silent, continuous_vars_present).
      reflexivity. }
    split.
    + intros r Hr. apply in_flat_map in Hr. destruct Hr as (v & Hv & Hr).
      destruct (continuous_vars_present _ _ Hv) as (y & Hy).
      rewrite (mann_whitney_body_run _ _ _ _ _ _ Hy) in Hr.
      destruct (_ || _); [contradiction|].
      destruct Hr as [<-|[]]. reflexivity.
    + intros L0 L1. eexists. split.
      * apply in_flat_map. exists var. split; [exact Hvar|].
        rewrite (mann_whitney_body_run _ _ _ _ _ _ Hx).
        apply Nat.ltb_ge in L0, L1. rewrite L0, L1. now left.
      * split; reflexivity.
Qed.

End TestsTheorems.

Lemma verdict_is_threshold_on_p_value_witness :
  (exists rows r,
     Script.written (Script.trace
       (Tests.normality_main Samples.shapiro_at_threshold Samples.survey_env
          Tests.default_args))
     = [("output/normality_test.csv"%string, Tests.ResultsCsv rows)] /\
     In r rows /\ Tests.Variable_ r = "BMI"%string /\
     Tests.p_value r = S754_finite false 7205759403792794 (-57) /\
     Tests.verdict r = false) /\
  (exists rows r,
     Script.written (Script.trace
       (Tests.mann_whitney_main Samples.mannwhitneyu Samples.survey_env
          Tests.default_args))
     = [("output/mann_whitney_test.csv"%string, Tests.ResultsCsv rows)] /\
     In r rows /\ Tests.Variable_ r = "BMI"%string /\
     Tests.p_value r = Double.of_Q (1 # 100) /\
     Tests.verdict r = true).
Proof.
  destruct (verdict_is_threshold_on_p_value Samples.shapiro_at_threshold
              Samples.mannwhitneyu Samples.survey_env Tests.default_args
              "BMI" Samples.bmi)
    as (A & (rows & Hw & Hv & Hrow) & Hmw).
  - reflexivity.
  - vm_compute. auto.
  - reflexivity.
  - split.
    + destruct Hrow as (r & Hr & Hn & Hp); [vm_compute; lia|].
      exists rows, r. split; [exact Hw|]. split; [exact Hr|]. split; [exact Hn|].
      split; [exact Hp|]. rewrite (Hv r Hr), Hp. reflexivity.
    + destruct (Hmw Samples.diabetes eq_refl) as (rows' & Hw' & Hv' & Hrow').
      destruct Hrow' as (r & Hr & Hn & Hp); [vm_compute; lia|vm_compute; lia|].
      exists rows', r. split; [exact Hw'|]. split; [exact Hr|]. split; [exact Hn|].
      split; [exact Hp|]. rewrite (Hv' r Hr), Hp. reflexivity.
Defined.

Section OneRowPerColumn.
Import Double Dict Frame Script Tests.

Variable shapiro : list cell -> float * float.
Variable mannwhitneyu : list cell -> list cell -> float * float.

Lemma normality_produced_variable df v r :
  In r (produced (normality_body shapiro df v)) -> Variable_ r = v.
Proof.
  destruct (get_column df v) as [x|] eqn:Hx.
  - rewrite (normality_body_run _ _ _ _ Hx).
    destruct (_ <? 3); [contradiction|]. now intros [<-|[]].
  - unfold normality_body. rewrite Hx. contradiction.
Qed.

Lemma mann_whitney_produced_variable df m0 m1 v r :
  In r (produced (mann_whitney_body mannwhitneyu
                    (select_rows df m0) (select_rows df m1) v)) ->
  Variable_ r = v.
Proof.
  unfold mann_whitney_body.
  destruct (get_column (select_rows df m0) v) as [x0|]; [|contradiction].
  destruct (get_column (select_rows df m1) v) as [x1|]; [|contradiction].
  destruct (_ || _); [contradiction|].
  destruct (mannwhitneyu _ _). now intros [<-|[]].
Qed.

(** C7, amended. With scipy's [shapiro] and [mannwhitneyu] taken to
    return their statistic and p-value on the data they are given: on an
    existing input, for each column of BMI, MentHlth, PhysHlth that the
    table has, normality_test.py writes exactly one row for it, the
    Shapiro-Wilk result on its non-missing values, when it has at least three
    of them, and otherwise no row and a warning; mann_whitney_test.py, when
    the table has the column Diabetes_binary, writes exactly one row for it,
    the Mann-Whitney U result on the non-missing values of the rows with
    Diabetes_binary = 0 against those with Diabetes_binary = 1, when both
    groups have at least one, and otherwise no row and a warning.  The
    yes/no column of a row compares its p-value with the double 0.05. *)
Theorem tests_one_row_per_tested_column (e : env) (a : args)
  (var : string) (x : column) :
  path_exists e (input a) = true ->
  In var (continuous_vars (read_csv e (input a))) ->
  get_column (read_csv e (input a)) var = Some x ->
  (exists rows,
     In (path_join (outdir a) "normality_test.csv", ResultsCsv rows)
        (written (trace (normality_main shapiro e a))) /\
     let data := dropna (col_values x) in
     (3 <= List.length data ->
        filter (fun r => String.eqb (Variable_ r) var) rows
        = [mkResult var (fst (shapiro data)) (snd (shapiro data))
             (gt (snd (shapiro data)) alpha)]) /\
     (List.length data < 3 ->
        filter (fun r => String.eqb (Variable_ r) var) rows = [] /\
        In (Stdout (MsgSkipped var)) (trace (normality_main shapiro e a)))) /\
  (forall g, get_column (read_csv e (input a)) group_col = Some g ->
   exists rows,
     In (path_join (outdir a) "mann_whitney_test.csv", ResultsCsv rows)
        (written (trace (mann_whitney_main mannwhitneyu e a))) /\
     let data0 := dropna (select (group_mask g 0) (col_values x)) in
     let data1 := dropna (select (group_mask g 1) (col_values x)) in
     (1 <= List.length data0 /\ 1 <= List.length data1 ->
        filter (fun r => String.eqb (Variable_ r) var) rows
        = [mkResult var (fst (mannwhitneyu data0 data1))
             (snd (mannwhitneyu data0 data1))
             (lt (snd (mannwhitneyu data0 data1)) alpha)]) /\
     (List.length data0 < 1 \/ List.length data1 < 1 ->
        filter (fun r => String.eqb (Variable_ r) var) rows = [] /\
        In (Stdout (MsgSkipped var))
           (trace (mann_whitney_main mannwhitneyu e a)))).
Proof.
  intros Ex Hvar Hx.
  assert (Hne : continuous_vars (read_csv e (input a)) <> [])
    by (intro E; rewrite E in Hvar; contradiction).
  split.
  - rewrite (normality_main_run _ _ _ Ex Hne). cbn [trace fst].
    eexists. split.
    { rewrite !written_app. apply in_or_app. right. apply in_or_app. right.
      simpl. left. reflexivity. }
    rewrite (produced_of_vars
               (fun v => produced (normality_body shapiro (read_csv e (input a)) v))
               _ var (continuous_vars_NoDup _) Hvar)
      by (intros v r; apply normality_produced_variable).
    assert (Hrun := normality_body_run shapiro _ _ _ Hx).
    cbv zeta. split.
    + intro L. rewrite Hrun. apply Nat.ltb_ge in L. now rewrite L.
    + intro L. apply Nat.ltb_lt in L. split; [now rewrite Hrun, L|].
      apply in_or_app. right. apply in_or_app. left.
      apply in_flat_map. exists var. split; [exact Hvar|].
      rewrite Hrun, L. now left.
  - intros g Hg.
    rewrite (mann_whitney_main_run _ _ _ g Ex Hne Hg). cbn [trace fst].
    eexists. split.
    { rewrite !written_app. apply in_or_app. right. apply in_or_app. right.
      simpl. left. reflexivity. }
    rewrite (produced_of_vars
               (fun v => produced (mann_whitney_body mannwhitneyu
                  (select_rows (read_csv e (input a)) (group_mask g 0))
                  (select_rows (read_csv e (input a)) (group_mask g 1)) v))
               _ var (continuous_vars_NoDup _) Hvar)
      by (intros v r; apply mann_whitney_produced_variable).
    assert (Hrun := mann_whitney_body_run mannwhitneyu _
                      (group_mask g 0) (group_mask g 1) _ _ Hx).
    cbv zeta. split.
    + intros [L0 L1]. rewrite Hrun.
      apply Nat.ltb_ge in L0, L1. now rewrite L0, L1.
    + intro L.
      assert (B : (List.length (dropna (select (group_mask g 0) (col_values x))) <? 1)
                  || (List.length (dropna (select (group_mask g 1) (col_values x))) <? 1)
                  = true).
      { apply orb_true_iff. destruct L as [L|L]; [left|right]; now apply Nat.ltb_lt. }
      split; [now rewrite Hrun, B|].
      apply in_or_app. right. apply in_or_app. left.
      apply in_flat_map. exists var. split; [exact Hvar|].
      rewrite Hrun, B. now left.
Qed.

End OneRowPerColumn.

(** C7 as stated fails on a column with fewer than three values: the
    sample table has BMI, with two values, and normality_test.py writes a
    table without any row. *)
Lemma one_row_per_column_counterexample :
  In "BMI"%string (Tests.continuous_vars Samples.short_table) /\
  Script.written (Script.trace
    (Tests.normality_main Samples.shapiro Samples.short_env Tests.default_args))
  = [("output/normality_test.csv"%string, Tests.ResultsCsv [])].
Proof. split; [vm_compute; auto|reflexivity]. Qed.

Lemma tests_one_row_per_tested_column_witness :
  (exists rows,
     In ("output/normality_test.csv"%string, Tests.ResultsCsv rows)
        (Script.written (Script.trace
           (Tests.normality_main Samples.shapiro Samples.survey_env Tests.default_args))) /\
     filter (fun r => String.eqb (Tests.Variable_ r) "BMI") rows
     = [Tests.mkResult "BMI" (Double.of_Q (9 # 10)) (Double.of_Q (1 # 100)) false]) /\
  (exists rows,
     In ("output/mann_whitney_test.csv"%string, Tests.ResultsCsv rows)
        (Script.written (Script.trace
           (Tests.mann_whitney_main Samples.mannwhitneyu Samples.survey_env
              Tests.default_args))) /\
     filter (fun r => String.eqb (Tests.Variable_ r) "BMI") rows
     = [Tests.mkResult "BMI" (Double.of_Q (16 # 1)) (Double.of_Q (1 # 100)) true]).
Proof.
  destruct (tests_one_row_per_tested_column Samples.shapiro Samples.mannwhitneyu
              Samples.survey_env Tests.default_args "BMI" Samples.bmi)
    as [(rows & Hw & Hrow & _) Hmw].
  - reflexivity.
  - vm_compute. auto.
  - reflexivity.
  - split.
    + exists rows. split; [exact Hw|]. apply Hrow. vm_compute. lia.
    + destruct (Hmw Samples.diabetes eq_refl) as (rows' & Hw' & Hrow' & _).
      exists rows'. split; [exact Hw'|]. apply Hrow'. vm_compute. lia.
Defined.

(** ** The input check of the analysis scripts *)

Section InputCheck.
Import Float Dict Frame Script.

Lemma bind_emit {E B} (ev : E) (k : unit -> script E B) :
  bind (emit ev) k = (ev :: trace (k tt), result (k tt)).
Proof. unfold bind, emit, trace, result. now destruct (k tt). Qed.

Ltac no_exit :=
  repeat match goal with
  | |- forall _, _ => intro
  | |- result (bind _ _) <> SysExit _ => apply bind_no_exit
  | |- result (emit _) <> SysExit _ => discriminate
  | |- result (ret _) <> SysExit _ => discriminate
  | |- result (raise _) <> SysExit _ => discriminate
  | |- result (Outlier.lift_key _ _) <> SysExit _ => unfold Outlier.lift_key
  | |- result (match ?x with _ => _ end) <> SysExit _ => destruct x
  end.

Lemma results_loop_no_exit body vars :
  (forall v code, result (body v) <> SysExit code) ->
  forall acc code, result (Tests.results_loop body vars acc) <> SysExit code.
Proof.
  intro H. induction vars as [|v rest IH]; intros acc code;
    cbn [Tests.results_loop]; [discriminate|].
  apply bind_no_exit; [apply H|]. intros r c. apply IH.
Qed.

Lemma print_latex_no_exit df cols : forall code,
  result (ClassStats.print_latex df cols) <> SysExit code.
Proof.
  induction cols as [|c rest IH]; intro code;
    cbn [ClassStats.print_latex]; [discriminate|].
  apply bind_no_exit; [discriminate|]. intros _ c'. apply IH.
Qed.

Lemma univariate_no_exit df figs_dir todo : forall code,
  result (Visualization.univariate df figs_dir todo) <> SysExit code.
Proof.
  induction todo as [|[var plot_type] rest IH]; intro code;
    cbn [Visualization.univariate]; [discriminate|].
  apply bind_no_exit; [|intros _ c'; apply IH].
  intro c'. unfold Visualization.plot. no_exit.
Qed.

Lemma multivariate_no_exit df figs_dir todo : forall code,
  result (Visualization.multivariate df figs_dir todo) <> SysExit code.
Proof.
  induction todo as [|[vars_list plot_type] rest IH]; intro code;
    cbn [Visualization.multivariate]; [discriminate|].
  apply bind_no_exit; [|intros _ c'; apply IH].
  intro c'. unfold Visualization.plot. no_exit.
Qed.

Lemma first_failure_made {F} can_make dirs (rest : list (event F)) :
  forallb can_make dirs = true ->
  first_failure can_make (map MakeDirs dirs ++ rest)
  = (map MakeDirs dirs ++ fst (first_failure can_make rest),
     snd (first_failure can_make rest)).
Proof.
  induction dirs as [|d ds IH]; cbn [map app forallb first_failure]; intro H.
  - now destruct (first_failure can_make rest).
  - apply andb_true_iff in H. destruct H as [-> H]. now rewrite (IH H).
Qed.

Lemma first_failure_unmade {F} can_make made d (rest : list (event F)) :
  forallb can_make made = true -> can_make d = false ->
  first_failure can_make (map MakeDirs made ++ MakeDirs d :: rest)
  = (map MakeDirs made, Some d).
Proof.
  intros Hm Hd. rewrite (first_failure_made _ _ _ Hm). cbn [first_failure].
  rewrite Hd. cbn [fst snd]. now rewrite app_nil_r.
Qed.

(** Where the directories can be made, the run in the world stops at the
    input check as the script does. *)
Lemma run_in_stops {F A} can_make dirs in_path (m : script (event F) A) :
  forallb can_make dirs = true ->
  stops_at_input_check dirs in_path m ->
  stops_at_input_check dirs in_path (run_in can_make m).
Proof.
  unfold stops_at_input_check, run_in. intros H ->. cbn [trace fst result snd].
  rewrite (first_failure_made _ _ _ H). reflexivity.
Qed.

Lemma run_in_passes {F A} can_make dirs in_path (m : script (event F) A) :
  forallb can_make dirs = true ->
  passes_input_check dirs in_path m ->
  passes_input_check dirs in_path (run_in can_make m).
Proof.
  unfold passes_input_check, run_in. intros H [(rest & Ht) Hr]. rewrite Ht.
  rewrite (first_failure_made _ _ _ H). cbn [first_failure].
  destruct (first_failure can_make rest) as [t' [d|]]; cbn [fst snd trace result];
    (split; [eexists; reflexivity|]); [discriminate|exact Hr].
Qed.

(** Where a directory cannot be made, the run ends there. *)
Lemma run_in_fails {F A} can_make made d rest (m : script (event F) A) :
  forallb can_make made = true -> can_make d = false ->
  trace m = map MakeDirs made ++ MakeDirs d :: rest ->
  run_in can_make m = (map MakeDirs made, Raise (OSError d)).
Proof.
  intros Hm Hd Ht. unfold run_in. rewrite Ht.
  now rewrite (first_failure_unmade _ _ _ _ Hm Hd).
Qed.

Lemma run_in_fails_first {F A} can_make d rest (m : script (event F) A) :
  can_make d = false ->
  trace m = MakeDirs d :: rest ->
  run_in can_make m = ([], Raise (OSError d)).
Proof. intros Hd Ht. now apply (run_in_fails can_make [] d rest m). Qed.

Section Scripts.

Variable parse_float : string -> Float.float.
Variable shapiro : list cell -> Double.float * Double.float.
Variable mannwhitneyu : list cell -> list cell -> Double.float * Double.float.
Variable S : Type.
Variable statistics : list cell -> S.

Ltac stops Ex :=
  unfold stops_at_input_check;
  cbn [Outlier.input Tests.input ClassStats.input NumericStats.input
       Visualization.input];
  rewrite Ex; reflexivity.

Ltac passes Ex :=
  rewrite Ex; cbn [negb]; split;
  [ rewrite !bind_emit; cbn [trace fst map app]; eexists; reflexivity
  | no_exit ].

(** The scripts as written, that is where every directory can be made:
    when the path given by [--input] does not exist at the check, the run is
    the directories made, the error on stderr and the exit with status 1;
    when it exists the script goes on to read it and never takes that
    exit. *)
Lemma input_check_as_written
  (e : env) (in_path outdir : string) (k : Float.float) :
  (path_exists e in_path = false ->
   stops_at_input_check [outdir] in_path
     (Outlier.main parse_float e (Outlier.mkArgs in_path outdir k)) /\
   stops_at_input_check [outdir] in_path
     (Tests.normality_main shapiro e (Tests.mkArgs in_path outdir)) /\
   stops_at_input_check [outdir] in_path
     (Tests.mann_whitney_main mannwhitneyu e (Tests.mkArgs in_path outdir)) /\
   stops_at_input_check [outdir] in_path
     (ClassStats.main e (ClassStats.mkArgs in_path outdir)) /\
   stops_at_input_check [outdir] in_path
     (NumericStats.main S statistics e (NumericStats.mkArgs in_path outdir)) /\
   stops_at_input_check [] in_path (DataExploration.main e in_path) /\
   stops_at_input_check
     [path_join outdir "univariate"; path_join outdir "multivariate"] in_path
     (Visualization.main e (Visualization.mkArgs in_path outdir))) /\
  (path_exists e in_path = true ->
   passes_input_check [outdir] in_path
     (Outlier.main parse_float e (Outlier.mkArgs in_path outdir k)) /\
   passes_input_check [outdir] in_path
     (Tests.normality_main shapiro e (Tests.mkArgs in_path outdir)) /\
   passes_input_check [outdir] in_path
     (Tests.mann_whitney_main mannwhitneyu e (Tests.mkArgs in_path outdir)) /\
   passes_input_check [outdir] in_path
     (ClassStats.main e (ClassStats.mkArgs in_path outdir)) /\
   passes_input_check [outdir] in_path
     (NumericStats.main S statistics e (NumericStats.mkArgs in_path outdir)) /\
   passes_input_check [] in_path (DataExploration.main e in_path) /\
   passes_input_check
     [path_join outdir "univariate"; path_join outdir "multivariate"] in_path
     (Visualization.main e (Visualization.mkArgs in_path outdir))).
Proof.
  split; intro Ex.
  - repeat split.
    + unfold Outlier.main. stops Ex.
    + unfold Tests.normality_main. stops Ex.
    + unfold Tests.mann_whitney_main. stops Ex.
    + unfold ClassStats.main. stops Ex.
    + unfold NumericStats.main. stops Ex.
    + unfold DataExploration.main. stops Ex.
    + unfold Visualization.main. stops Ex.
  - unfold passes_input_check. split; [|split; [|split; [|split; [|split; [|split]]]]].
    + unfold Outlier.main. cbn [Outlier.input Outlier.outdir]. passes Ex.
    + unfold Tests.normality_main, Tests.normality_loop.
      cbn [Tests.input Tests.outdir]. passes Ex.
      apply results_loop_no_exit. unfold Tests.normality_body. no_exit.
    + unfold Tests.mann_whitney_main, Tests.mann_whitney_loop.
      cbn [Tests.input Tests.outdir]. passes Ex.
      apply results_loop_no_exit. unfold Tests.mann_whitney_body. no_exit.
    + unfold ClassStats.main. cbn [ClassStats.input ClassStats.outdir]. passes Ex.
      apply print_latex_no_exit.
    + unfold NumericStats.main, NumericStats.compute_stats.
      cbn [NumericStats.input NumericStats.outdir]. passes Ex.
    + unfold DataExploration.main. passes Ex.
    + unfold Visualization.main.
      cbn [Visualization.input Visualization.figs_dir]. passes Ex.
      * apply univariate_no_exit.
      * apply multivariate_no_exit.
Qed.

(** C8, amended. Every analysis script but data_exploration.py makes its
    output directories before it looks at the input.  Where they can be
    made, a script whose [--input] path does not exist has by its check only
    made them, prints the error to stderr and exits with status 1 without
    reading the input or writing a file; and when the path exists the script
    goes on to read it and never takes that exit, whatever the file holds.
    Where the output directory cannot be made the run ends with that error
    before the check, whether the input exists or not. *)
Theorem missing_input_exits_before_work
  (can_make : string -> bool) (e : env) (in_path outdir : string)
  (k : Float.float) :
  (path_exists e in_path = false ->
   (can_make outdir = true ->
    stops_at_input_check [outdir] in_path
      (run_in can_make (Outlier.main parse_float e (Outlier.mkArgs in_path outdir k))) /\
    stops_at_input_check [outdir] in_path
      (run_in can_make (Tests.normality_main shapiro e (Tests.mkArgs in_path outdir))) /\
    stops_at_input_check [outdir] in_path
      (run_in can_make
         (Tests.mann_whitney_main mannwhitneyu e (Tests.mkArgs in_path outdir))) /\
    stops_at_input_check [outdir] in_path
      (run_in can_make (ClassStats.main e (ClassStats.mkArgs in_path outdir))) /\
    stops_at_input_check [outdir] in_path
      (run_in can_make
         (NumericStats.main S statistics e (NumericStats.mkArgs in_path outdir)))) /\
   stops_at_input_check [] in_path
     (run_in can_make (DataExploration.main e in_path)) /\
   (can_make (path_join outdir "univariate") = true ->
    can_make (path_join outdir "multivariate") = true ->
    stops_at_input_check
      [path_join outdir "univariate"; path_join outdir "multivariate"] in_path
      (run_in can_make (Visualization.main e (Visualization.mkArgs in_path outdir))))) /\
  (path_exists e in_path = true ->
   (can_make outdir = true ->
    passes_input_check [outdir] in_path
      (run_in can_make (Outlier.main parse_float e (Outlier.mkArgs in_path outdir k))) /\
    passes_input_check [outdir] in_path
      (run_in can_make (Tests.normality_main shapiro e (Tests.mkArgs in_path outdir))) /\
    passes_input_check [outdir] in_path
      (run_in can_make
         (Tests.mann_whitney_main mannwhitneyu e (Tests.mkArgs in_path outdir))) /\
    passes_input_check [outdir] in_path
      (run_in can_make (ClassStats.main e (ClassStats.mkArgs in_path outdir))) /\
    passes_input_check [outdir] in_path
      (run_in can_make
         (NumericStats.main S statistics e (NumericStats.mkArgs in_path outdir)))) /\
   passes_input_check [] in_path
     (run_in can_make (DataExploration.main e in_path)) /\
   (can_make (path_join outdir "univariate") = true ->
    can_make (path_join outdir "multivariate") = true ->
    passes_input_check
      [path_join outdir "univariate"; path_join outdir "multivariate"] in_path
      (run_in can_make (Visualization.main e (Visualization.mkArgs in_path outdir))))) /\
  (can_make outdir = false ->
   run_in can_make (Outlier.main parse_float e (Outlier.mkArgs in_path outdir k))
   = ([], Raise (OSError outdir)) /\
   run_in can_make (Tests.normality_main shapiro e (Tests.mkArgs in_path outdir))
   = ([], Raise (OSError outdir)) /\
   run_in can_make
     (Tests.mann_whitney_main mannwhitneyu e (Tests.mkArgs in_path outdir))
   = ([], Raise (OSError outdir)) /\
   run_in can_make (ClassStats.main e (ClassStats.mkArgs in_path outdir))
   = ([], Raise (OSError outdir)) /\
   run_in can_make
     (NumericStats.main S statistics e (NumericStats.mkArgs in_path outdir))
   = ([], Raise (OSError outdir))) /\
  (can_make (path_join outdir "univariate") = false ->
   run_in can_make (Visualization.main e (Visualization.mkArgs in_path outdir))
   = ([], Raise (OSError (path_join outdir "univariate")))).
Proof.
  destruct (input_check_as_written e in_path outdir k) as [Hstop Hpass].
  split; [|split; [|split]].
  - intro Ex. destruct (Hstop Ex) as (H1 & H2 & H3 & H4 & H5 & H6 & H7).
    split; [|split].
    + intro M. assert (F : forallb can_make [outdir] = true)
        by (cbn; now rewrite M).
      repeat split; now apply run_in_stops.
    + now apply run_in_stops.
    + intros M1 M2. apply run_in_stops; [cbn; now rewrite M1, M2|exact H7].
  - intro Ex. destruct (Hpass Ex) as (H1 & H2 & H3 & H4 & H5 & H6 & H7).
    split; [|split].
    + intro M. assert (F : forallb can_make [outdir] = true)
        by (cbn; now rewrite M).
      split; [|split; [|split; [|split]]]; now apply run_in_passes.
    + now apply run_in_passes.
    + intros M1 M2. apply run_in_passes; [cbn; now rewrite M1, M2|exact H7].
  - intro M.
    destruct (path_exists e in_path) eqn:Ex.
    + destruct (Hpass eq_refl)
        as ([(r1 & T1) _] & [(r2 & T2) _] & [(r3 & T3) _] & [(r4 & T4) _]
            & [(r5 & T5) _] & _).
      split; [|split; [|split; [|split]]].
      * exact (run_in_fails_first _ _ _ _ M T1).
      * exact (run_in_fails_first _ _ _ _ M T2).
      * exact (run_in_fails_first _ _ _ _ M T3).
      * exact (run_in_fails_first _ _ _ _ M T4).
      * exact (run_in_fails_first _ _ _ _ M T5).
    + destruct (Hstop eq_refl) as (H1 & H2 & H3 & H4 & H5 & _).
      unfold stops_at_input_check in *.
      split; [|split; [|split; [|split]]].
      * exact (run_in_fails_first _ _ _ _ M (f_equal fst H1)).
      * exact (run_in_fails_first _ _ _ _ M (f_equal fst H2)).
      * exact (run_in_fails_first _ _ _ _ M (f_equal fst H3)).
      * exact (run_in_fails_first _ _ _ _ M (f_equal fst H4)).
      * exact (run_in_fails_first _ _ _ _ M (f_equal fst H5)).
  - intro M.
    destruct (path_exists e in_path) eqn:Ex.
    + destruct (Hpass eq_refl) as (_ & _ & _ & _ & _ & _ & [(r & T) _]).
      exact (run_in_fails_first _ _ _ _ M T).
    + destruct (Hstop eq_refl) as (_ & _ & _ & _ & _ & _ & H).
      unfold stops_at_input_check in H.
      exact (run_in_fails_first _ _ _ _ M (f_equal fst H)).
Qed.

End Scripts.

End InputCheck.

(** C8 as stated fails where the output directory cannot be made: with
    [--outdir ""] and a missing input, normality_test.py ends in the error
    of [os.makedirs], before its check: no message on stderr, no
    [sys.exit(1)]. *)
Lemma missing_input_counterexample :
  Script.path_exists Samples.missing_env "dataset_891/combined.csv" = false /\
  Script.run_in Samples.no_empty_dir
    (Tests.normality_main Samples.shapiro Samples.missing_env
       (Tests.mkArgs "dataset_891/combined.csv" ""))
  = ([], Script.Raise (Script.OSError "")).
Proof. split; reflexivity. Qed.

Lemma missing_input_exits_before_work_witness :
  Script.run_in Samples.no_empty_dir
    (Tests.normality_main Samples.shapiro Samples.missing_env Tests.default_args)
  = ([Script.MakeDirs "output";
      Script.Stderr (Script.MsgInputMissing "dataset_891/combined.csv")],
     Script.SysExit 1).
Proof.
  destruct (missing_input_exits_before_work Samples.no_parse Samples.shapiro
              Samples.mannwhitneyu nat (fun l => List.length l)
              Samples.no_empty_dir Samples.missing_env
              "dataset_891/combined.csv" "output" (Some (3 # 2)%Q))
    as [H _].
  destruct (H eq_refl) as [H5 _]. destruct (H5 eq_refl) as (_ & H2 & _).
  exact H2.
Defined.

(** ** combined.csv away from the name collision *)

Section CombinedTable.
Import Dict Frame Script ExportData.

Variable can_write : string -> bool.

Lemma rename_nil t : rename t [] = t.
Proof.
  destruct t as [n cs]. unfold rename. cbn [nrows frame_columns Dict.get]. f_equal.
  induction cs as [|x rest IH]; simpl; [reflexivity|now rewrite IH].
Qed.

Lemma align_same n x : List.length (col_values x) = n -> align n x = x.
Proof.
  intro H. unfold align. rewrite H, Nat.ltb_irrefl, <- H, firstn_all.
  now destruct x.
Qed.

Lemma find_column_In cs x :
  NoDup (map col_name cs) -> In x cs -> find_column cs (col_name x) = Some x.
Proof.
  induction cs as [|y rest IH]; simpl; intros Hn Hin; [contradiction|].
  inversion Hn as [|? ? Hy Hr]; subst.
  destruct Hin as [->|Hin]; [now rewrite String.eqb_refl|].
  destruct (String.eqb (col_name y) (col_name x)) eqn:E; [|now apply IH].
  apply String.eqb_eq in E. exfalso. apply Hy. rewrite E. now apply in_map.
Qed.

Lemma assign_same combined x :
  List.length (col_values x) = nrows combined ->
  assign combined x = set_column combined x.
Proof.
  intro H. unfold assign. cbv zeta. rewrite H.
  destruct (nrows combined) as [|n]; cbn [Nat.eqb Nat.ltb Nat.leb andb];
    rewrite align_same by exact H; reflexivity.
Qed.

(** A table with rows: the series is aligned to it. *)
Lemma assign_rows combined x :
  nrows combined <> 0 ->
  assign combined x = set_column combined (align (nrows combined) x).
Proof.
  intro H. unfold assign. cbv zeta.
  destruct (nrows combined) as [|n]; [contradiction|reflexivity].
Qed.

(** Target columns with fresh, distinct names and as many cells as the
    table has rows are appended one after the other. *)
Lemma assign_targets_append target_df xs : forall combined,
  NoDup (columns target_df) ->
  (forall x, In x xs -> In x (frame_columns target_df)) ->
  NoDup (map col_name xs) ->
  (forall x, In x xs -> ~ In (col_name x) (columns combined)) ->
  (forall x, In x xs -> List.length (col_values x) = nrows combined) ->
  assign_targets target_df (map col_name xs) combined
  = ret (mkFrame (nrows combined) (frame_columns combined ++ xs)).
Proof.
  induction xs as [|x rest IH]; intros combined Hn Hin Hnd Hfresh Hlen; simpl.
  - rewrite app_nil_r. now destruct combined.
  - assert (Hc : count_occ string_dec (columns target_df) (col_name x) = 1).
    { apply NoDup_count_occ'; [exact Hn|].
      unfold columns. apply in_map, Hin. now left. }
    rewrite Hc. cbn [Nat.ltb Nat.leb].
    unfold get_column. rewrite (find_column_In _ x Hn) by (apply Hin; now left).
    rewrite assign_same by (apply Hlen; now left).
    inversion Hnd as [|? ? Hx Hr]; subst.
    rewrite IH; try assumption.
    + unfold set_column. cbn [nrows frame_columns].
      rewrite set_in_fresh by (apply Hfresh; now left).
      now rewrite <- app_assoc.
    + intros y Hy. apply Hin. now right.
    + intros y Hy. unfold set_column, columns. cbn [frame_columns].
      rewrite set_in_fresh by (apply Hfresh; now left).
      rewrite map_app, in_app_iff. simpl. intros [H|[H|[]]].
      * apply (Hfresh y); [now right|exact H].
      * apply Hx. rewrite H. now apply in_map.
    + intros y Hy. unfold set_column. cbn [nrows]. apply Hlen. now right.
Qed.

(** Away from the collision: when the target names, after the renaming,
    are distinct and none of them is a feature column name, and the target
    columns have one cell per feature row, combined.csv is the feature
    columns unchanged followed by the renamed target columns. *)
Lemma combined_is_features_then_targets (f t : DataFrame) (outdir : string) :
  NoDup (columns (rename t (build_rename_map f t))) ->
  (forall c, In c (columns (rename t (build_rename_map f t))) -> ~ In c (columns f)) ->
  (forall x, In x (frame_columns t) -> List.length (col_values x) = nrows f) ->
  can_write (path_join outdir "combined.csv") = true ->
  csv_written (trace (combine can_write f t outdir))
  = [(path_join outdir "combined.csv",
      mkFrame (nrows f)
        (frame_columns f ++ frame_columns (rename t (build_rename_map f t))))].
Proof.
  intros Hn Hfresh Hlen Hw. unfold combine.
  set (renamed := rename t (build_rename_map f t)) in *.
  assert (Ha : assign_targets renamed (columns renamed) f
               = ret (mkFrame (nrows f) (frame_columns f ++ frame_columns renamed))).
  { apply (assign_targets_append renamed (frame_columns renamed) f); auto.
    - intros x Hx. apply Hfresh. unfold columns. now apply in_map.
    - intros x Hx. subst renamed. unfold rename in Hx. cbn [frame_columns] in Hx.
      apply in_map_iff in Hx. destruct Hx as (y & <- & Hy).
      destruct (Dict.get _ _); cbn [col_values]; now apply Hlen. }
  destruct (build_rename_map f t) as [|r rs] eqn:Eb.
  - subst renamed. rewrite rename_nil in *.
    cbn -[assign_targets path_join]. rewrite Ha.
    unfold to_csv. rewrite Hw. reflexivity.
  - cbn -[assign_targets path_join rename]. fold renamed. rewrite Ha.
    unfold to_csv. rewrite Hw. reflexivity.
Qed.

End CombinedTable.

(** Without the grouping column mann_whitney_test.py stops at
    [df['Diabetes_binary']] with a KeyError and writes nothing. *)
Lemma mann_whitney_without_group_column
  (mannwhitneyu : list Frame.cell -> list Frame.cell -> Double.float * Double.float)
  (e : Script.env) (a : Tests.args) :
  Script.path_exists e (Tests.input a) = true ->
  Tests.continuous_vars (Script.read_csv e (Tests.input a)) <> [] ->
  Frame.get_column (Script.read_csv e (Tests.input a)) Tests.group_col = None ->
  Script.result (Tests.mann_whitney_main mannwhitneyu e a)
    = Script.Raise (Script.KeyError Tests.group_col) /\
  Script.written (Script.trace (Tests.mann_whitney_main mannwhitneyu e a)) = [].
Proof.
  intros Ex Hne Hg. unfold Tests.mann_whitney_main. rewrite Ex, Hg.
  destruct (Tests.continuous_vars _); [contradiction|]. split; reflexivity.
Qed.

(** * Further properties of the scripts *)

From Stdlib Require Import Lqa Sorted Permutation.

(** ** detect_outliers_iqr on any list of columns *)

Section DetectAnyColumns.
Import Float Dict Frame Outlier.

Variable parse_float : string -> float.

Lemma get_column_none df c :
  get_column df c = None <-> ~ In c (columns df).
Proof.
  unfold get_column, columns.
  induction (frame_columns df) as [|y rest IH]; simpl; [tauto|].
  destruct (String.eqb (col_name y) c) eqn:E.
  - apply String.eqb_eq in E. split; [discriminate|]. tauto.
  - apply String.eqb_neq in E. rewrite IH. tauto.
Qed.

Lemma detect_loop_none df k cols : forall mm bb,
  detect_loop parse_float df k cols mm bb = None <->
  exists c, In c cols /\ ~ In c (columns df).
Proof.
  induction cols as [|c0 rest IH]; intros mm bb; simpl.
  - split; [discriminate|]. now intros (c & [] & _).
  - destruct (get_column df c0) as [x|] eqn:Hx.
    + destruct (iqr_mask _ _ _) as [m b]. rewrite IH. split.
      * intros (c & Hc & Hn). eauto.
      * intros (c & [<-|Hc] & Hn); [|eauto].
        apply get_column_none in Hn. congruence.
    + split; [|reflexivity]. intros _. exists c0. split; [now left|].
      now apply get_column_none.
Qed.

Lemma detect_some_present df cols k mm bb :
  detect_outliers_iqr parse_float df cols k = Some (mm, bb) ->
  forall c, In c cols -> has_column df c = true.
Proof.
  intros H c Hc. apply has_column_In.
  destruct (in_dec string_dec c (columns df)) as [Hin|Hn]; [exact Hin|].
  assert (N : detect_outliers_iqr parse_float df cols k = None)
    by (apply detect_loop_none; eauto).
  congruence.
Qed.

End DetectAnyColumns.

Section DetectResults.
Import Float Dict Frame Outlier.

Variable parse_float : string -> float.

Lemma dict_get_keys {V} (d : dict V) c v : Dict.get d c = Some v -> In c (keys d).
Proof.
  unfold keys. induction d as [|[k' v'] rest IH]; simpl; [discriminate|].
  destruct (String.eqb k' c) eqn:E; [|now right; apply IH].
  apply String.eqb_eq in E. now left.
Qed.

Lemma detect_loop_order_bounds df k cols :
  forall mm bb mm' bb',
  NoDup cols -> (forall c, In c cols -> ~ In c (keys bb)) ->
  detect_loop parse_float df k cols mm bb = Some (mm', bb') ->
  keys bb' = keys bb ++ cols.
Proof.
  induction cols as [|c rest IH]; intros mm bb mm' bb' Hn Hf H.
  - injection H as <- <-. now rewrite app_nil_r.
  - cbn [detect_loop] in H.
    destruct (get_column df c) as [x|]; [|discriminate].
    destruct (iqr_mask _ _ _) as [m b].
    inversion Hn as [|? ? Hc Hr]; subst.
    apply IH in H; [|exact Hr|].
    + rewrite H, (dict_set_fresh parse_float bb c b (Hf c (or_introl eq_refl))).
      unfold keys. rewrite map_app. simpl. now rewrite <- app_assoc.
    + intros c' Hc' Hin. apply dict_keys_set in Hin.
      destruct Hin as [->|Hin]; [contradiction|].
      apply (Hf c' (or_intror Hc') Hin).
Qed.

Lemma iqr_mask_length n k (s : list float) :
  List.length s = n -> List.length (fst (iqr_mask n k s)) = n.
Proof.
  intro H. unfold iqr_mask. destruct (isna _ || eq _ _); simpl.
  - apply repeat_length.
  - now rewrite length_map.
Qed.

(** What a successful detection holds for a key of the mask dictionary. *)
Lemma detect_entry df cols k mm bb c m :
  detect_outliers_iqr parse_float df cols k = Some (mm, bb) ->
  Dict.get mm c = Some m ->
  exists x, get_column df c = Some x /\
    m = fst (column_result parse_float df k x) /\
    Dict.get bb c = Some (snd (column_result parse_float df k x)).
Proof.
  intros Hd Hm.
  pose proof (detect_some_present parse_float _ _ _ _ _ Hd) as Hall.
  destruct (detect_loop_result parse_float df k cols [] [] Hall)
    as (mm' & bb' & Hrun & Hget).
  unfold detect_outliers_iqr in Hd. rewrite Hd in Hrun. injection Hrun as <- <-.
  assert (Hc : In c cols).
  { apply dict_get_keys in Hm.
    apply (detect_loop_keys_in parse_float _ _ _ _ _ _ _ c Hd) in Hm.
    simpl in Hm. tauto. }
  destruct (has_column_get df c (Hall c Hc)) as (x & Hx).
  destruct (proj1 (Hget c) Hc x Hx) as [G1 G2].
  exists x. split; [exact Hx|]. split; [congruence|exact G2].
Qed.

(** X3. On a table whose columns all have one cell per row, every mask
    [detect_outliers_iqr] returns has exactly one entry per row. *)
Theorem detect_masks_cover_rows
  (df : DataFrame) (cols : list string) (k : float)
  (mask_map : masks) (bounds : bounds_map) (c : string) (m : list bool) :
  well_formed df ->
  detect_outliers_iqr parse_float df cols k = Some (mask_map, bounds) ->
  Dict.get mask_map c = Some m ->
  List.length m = nrows df.
Proof.
  intros [_ Hlen] Hd Hm.
  destruct (detect_entry _ _ _ _ _ _ _ Hd Hm) as (x & Hx & -> & _).
  apply iqr_mask_length. unfold to_numeric. rewrite length_map.
  destruct (find_column_name _ _ _ Hx) as [_ Hin].
  rewrite Forall_forall in Hlen. now apply Hlen.
Qed.




End DetectResults.

Section DetectMonotone.
Import Float Dict Frame Outlier.

Variable parse_float : string -> float.


End DetectMonotone.

(** ** summarize_masks and masks_to_long_indices on any mask groups *)

Section SummaryTables.
Import Float Dict Frame Outlier.

Lemma summary_le_total a b : summary_le a b = false -> summary_le b a = true.
Proof.
  unfold summary_le. rewrite (String.compare_antisym (sr_column b) (sr_column a)).
  destruct (String.compare (sr_column a) (sr_column b)); simpl; try discriminate.
  - intro H. destruct (String.leb_total (sr_method a) (sr_method b)); congruence.
  - reflexivity.
Qed.

Lemma insert_row_sorted r rows :
  Sorted summary_order rows -> Sorted summary_order (insert_row r rows).
Proof.
  induction rows as [|x rest IH]; simpl; intro Hs.
  - repeat constructor.
  - destruct (summary_le r x) eqn:E.
    + constructor; [exact Hs|]. constructor. exact E.
    + inversion Hs as [|? ? Hr Hh]; subst.
      constructor; [now apply IH|].
      apply summary_le_total in E.
      destruct rest as [|y rest']; simpl.
      * constructor. exact E.
      * destruct (summary_le r y); constructor; [exact E|].
        now inversion Hh.
Qed.

Lemma insert_row_perm r rows : Permutation (r :: rows) (insert_row r rows).
Proof.
  induction rows as [|x rest IH]; simpl; [reflexivity|].
  destruct (summary_le r x); [reflexivity|].
  rewrite perm_swap. now constructor.
Qed.

Lemma sort_rows_sorted l : Sorted summary_order (sort_rows l).
Proof.
  unfold sort_rows.
  induction l as [|x l IH]; simpl; [constructor|now apply insert_row_sorted].
Qed.

Lemma sort_rows_perm l : Permutation l (sort_rows l).
Proof.
  unfold sort_rows. induction l as [|x l IH]; simpl; [constructor|].
  rewrite <- insert_row_perm. now constructor.
Qed.

(** X6. The table [summarize_masks] returns holds one row per mask of the
    groups, reordered so that each row is followed by a row with a larger
    column name, or the same column name and a method name not smaller. *)
Theorem summary_sorted_by_column_then_method
  (mask_groups : mask_groups_t) (rows : list summary_row) :
  summarize_masks mask_groups = Some rows ->
  Sorted summary_order rows /\ Permutation (summary_rows mask_groups) rows.
Proof.
  unfold summarize_masks.
  destruct (summary_rows mask_groups) as [|r0 rest] eqn:E; [discriminate|].
  intros [= <-]. split;
    [apply (sort_rows_sorted (r0 :: rest))|apply (sort_rows_perm (r0 :: rest))].
Qed.

End SummaryTables.

Section SummaryCounts.
Import Float Dict Frame Outlier.





Lemma true_indices_In m : forall j i,
  In i (true_indices j m) <-> j <= i /\ nth_error m (i - j) = Some true.
Proof.
  induction m as [|b rest IH]; intros j i; simpl.
  - split; [contradiction|]. intros [_ H]. now destruct (i - j).
  - destruct (Nat.eq_dec i j) as [->|N].
    + rewrite Nat.sub_diag. simpl. destruct b; simpl.
      * split; [intros _; split; [lia|reflexivity]|now left].
      * rewrite IH. split; [lia|intros [_ H]; discriminate].
    + destruct (Nat.lt_ge_cases i j) as [L|L].
      * destruct b; simpl; rewrite IH; split; lia.
      * replace (i - j) with (S (i - S j)) by lia. simpl.
        destruct b; simpl; rewrite IH; split.
        -- intros [H|[H1 H2]]; [congruence|]. split; [lia|exact H2].
        -- intros [H1 H2]. right. split; [lia|exact H2].
        -- intros [H1 H2]. split; [lia|exact H2].
        -- intros [H1 H2]. split; [lia|exact H2].
Qed.

(** X8. The long table of [masks_to_long_indices] lists, for a method and a
    column, exactly the row positions where that column's mask is true: a
    row index is in the table if and only if the mask has a true entry
    there (so no index is beyond the mask). *)
Theorem long_indices_are_true_positions
  (mask_groups : mask_groups_t) (method c : string) (i : nat) :
  In (mkIndex method c i) (masks_to_long_indices mask_groups) <->
  exists masks m,
    In (method, masks) mask_groups /\ In (c, m) masks /\
    nth_error m i = Some true.
Proof.
  unfold masks_to_long_indices, items. rewrite in_flat_map. split.
  - intros ([method' masks] & Hg & Hr). apply in_flat_map in Hr.
    destruct Hr as ([c' m] & Hm & Hr). apply in_map_iff in Hr.
    destruct Hr as (j & [= -> -> ->] & Hj).
    apply true_indices_In in Hj. rewrite Nat.sub_0_r in Hj.
    exists masks, m. tauto.
  - intros (masks & m & Hg & Hm & Hi).
    exists (method, masks). split; [exact Hg|].
    apply in_flat_map. exists (c, m). split; [exact Hm|].
    apply in_map. apply true_indices_In. rewrite Nat.sub_0_r. split; [lia|exact Hi].
Qed.

End SummaryCounts.

(** ** Runs of outlier.py that complete *)

Section OutlierCompletes.
Import Float Dict Frame Script Outlier.

Variable parse_float : string -> float.




End OutlierCompletes.

(** ** scripts/export_data.py: the whole script *)

Section ExportScript.
Import Dict Frame Script ExportData ExportMain.

Lemma export_returns can_write ds outdir :
  result (export_features_targets can_write ds outdir) = Return tt.
Proof.
  destruct ds as [[[[f|] [t|]]|]];
    unfold export_features_targets, to_csv;
    cbn [ds_data features targets option_map]; try reflexivity.
  - pose proof (combine_guarded can_write f (as_frame t) outdir) as Hc.
    destruct (try_except (combine can_write f (as_frame t) outdir) _) as [t3 o3].
    cbn in Hc. subst o3.
    destruct (can_write (path_join outdir "features.csv"));
      destruct (can_write (path_join outdir "targets.csv")); reflexivity.
  - destruct (can_write (path_join outdir "features.csv")); reflexivity.
  - destruct (can_write (path_join outdir "targets.csv")); reflexivity.
Qed.

Variable w : world.

Ltac run_export a :=
  unfold main, ensure_outdir, save_metadata, outdir_ready;
  destruct (dir_exists w (outdir_of a)), (overwrite a), (can_make w (outdir_of a)),
    (fetch_ucirepo w (id a)) as [ds|];
  cbn -[export_features_targets path_join outdir_of];
  try destruct (can_write w (path_join (outdir_of a) "metadata.json"));
  cbn -[export_features_targets path_join outdir_of];
  try (pose proof (export_returns (can_write w) (dataset_of ds) (outdir_of a)) as Hr;
       destruct (export_features_targets (can_write w) (dataset_of ds) (outdir_of a))
         as [tr o]; cbn in Hr; subst o;
       cbn -[path_join outdir_of]).

(** X10. How export_data.py ends. It returns normally exactly when the
    output directory is new and could be made, or exists and --overwrite
    was given, the dataset was fetched and metadata.json could be written;
    it exits, always with status 1, exactly when the directory exists
    without --overwrite or, the directory being ready, fetching failed. *)
Theorem export_main_outcome (a : args) :
  (result (main w a) = Return tt <->
   outdir_ready w a = true /\
   fetch_ucirepo w (id a) <> None /\
   can_write w (path_join (outdir_of a) "metadata.json") = true) /\
  (forall code, result (main w a) = SysExit code <->
   code = 1%Z /\
   ((dir_exists w (outdir_of a) = true /\ overwrite a = false) \/
    (outdir_ready w a = true /\ fetch_ucirepo w (id a) = None))).
Proof.
  split; [|intro code]; run_export a;
    intuition (try discriminate; try congruence).
Qed.

(** X11. export_data.py writes a file only after its checks: if a run wrote
    any file, then the output directory was ready (new, or existing with
    --overwrite), the dataset was fetched, and metadata.json was the first
    file written. *)
Theorem export_main_writes_after_checks (a : args) :
  files (trace (main w a)) <> [] ->
  outdir_ready w a = true /\
  fetch_ucirepo w (id a) <> None /\
  exists rest,
    files (trace (main w a)) = path_join (outdir_of a) "metadata.json" :: rest.
Proof.
  run_export a; intro H; try (exfalso; now apply H);
    (split; [reflexivity|]); (split; [discriminate|]); eexists; reflexivity.
Qed.

End ExportScript.

Section ExportDefaults.
Import Dict Frame Script ExportData ExportMain.

Lemma str_injective z z' : str z = str z' -> z = z'.
Proof.
  unfold str. intro H.
  assert (N : forall z, Z.to_int z <> Decimal.Pos Decimal.Nil /\
                        Z.to_int z <> Decimal.Neg Decimal.Nil).
  { intros [|p|p]; simpl; split; try discriminate;
      intros [= E]; now apply DecimalPos.Unsigned.to_uint_nonnil in E. }
  apply (f_equal DecimalString.NilZero.int_of_string) in H.
  rewrite !DecimalString.NilZero.isi in H by apply N.
  injection H as H. apply (f_equal Z.of_int) in H.
  now rewrite !DecimalZ.of_to in H.
Qed.

(** X12. Without --outdir the output directory is "dataset_" followed by
    the dataset id in decimal, so runs for different ids never share their
    default directory. *)
Theorem default_outdir_injective (a a' : args) :
  outdir a = None -> outdir a' = None ->
  outdir_of a = outdir_of a' -> id a = id a'.
Proof.
  unfold outdir_of. intros -> -> H.
  apply append_inj_r in H. now apply str_injective.
Qed.

End ExportDefaults.

(** ** The combined table in every case *)

Section CombinedInvariants.
Import Dict Frame Script ExportData.

Variable can_write : string -> bool.

Lemma build_rename_map_get f cs c : forall rm,
  Dict.get (fold_left (fun rename_map c =>
      if has_column f c then Dict.set rename_map c (c ++ "_target")%string
      else rename_map) cs rm) c
  = if has_column f c && existsb (String.eqb c) cs
    then Some (c ++ "_target")%string else Dict.get rm c.
Proof.
  induction cs as [|c0 rest IH]; intro rm; simpl.
  - now rewrite andb_false_r.
  - rewrite IH. destruct (String.eqb c c0) eqn:E.
    + apply String.eqb_eq in E. subst c0. simpl.
      destruct (has_column f c) eqn:Hf; simpl; [|reflexivity].
      destruct (existsb (String.eqb c) rest); [reflexivity|].
      apply dict_get_set_same.
    + simpl. destruct (has_column f c && existsb (String.eqb c) rest); [reflexivity|].
      destruct (has_column f c0); [|reflexivity].
      apply dict_get_set_other. intros ->. now rewrite String.eqb_refl in E.
Qed.

(** X13. The rename map built for combined.csv has an entry exactly for the
    target column names that are also feature column names, and maps such a
    name to the name followed by "_target". *)
Theorem rename_map_entries (f t : DataFrame) (c : string) :
  Dict.get (build_rename_map f t) c
  = if has_column f c && has_column t c then Some (c ++ "_target")%string else None.
Proof. unfold build_rename_map. now rewrite build_rename_map_get. Qed.

Lemma set_in_names cs x :
  map col_name (set_in cs x) = map col_name cs \/
  (~ In (col_name x) (map col_name cs) /\
   map col_name (set_in cs x) = map col_name cs ++ [col_name x]).
Proof.
  induction cs as [|y rest IH]; simpl.
  - right. tauto.
  - destruct (String.eqb (col_name y) (col_name x)) eqn:E; simpl.
    + apply String.eqb_eq in E. left. now rewrite E.
    + apply String.eqb_neq in E. destruct IH as [->|[Hn ->]]; [now left|].
      right. split; [|reflexivity]. tauto.
Qed.

Lemma set_in_Forall (P : column -> Prop) cs x :
  Forall P cs -> P x -> Forall P (set_in cs x).
Proof.
  induction cs as [|y rest IH]; simpl; intros Hc Hx.
  - now constructor.
  - inversion Hc; subst.
    destruct (String.eqb (col_name y) (col_name x)); constructor; auto.
Qed.

Lemma align_length n x : List.length (col_values (align n x)) = n.
Proof.
  unfold align. destruct (List.length (col_values x) <? n) eqn:E; cbn [col_values].
  - apply Nat.ltb_lt in E. rewrite length_app, repeat_length. lia.
  - apply Nat.ltb_ge in E. apply firstn_length_le. exact E.
Qed.

Lemma align_name n x : col_name (align n x) = col_name x.
Proof. unfold align. now destruct (_ <? _). Qed.

Lemma set_column_keeps combined x :
  (NoDup (columns combined) -> NoDup (columns (set_column combined x))) /\
  (Forall (fun y => List.length (col_values y) = nrows combined)
     (frame_columns combined) ->
   List.length (col_values x) = nrows combined ->
   Forall (fun y => List.length (col_values y) = nrows combined)
     (frame_columns (set_column combined x))) /\
  (exists extra, columns (set_column combined x) = columns combined ++ extra) /\
  (forall c, c <> col_name x ->
     get_column (set_column combined x) c = get_column combined c).
Proof.
  unfold columns, set_column, get_column. cbn [frame_columns nrows].
  pose proof (set_in_names (frame_columns combined) x) as Hnames.
  split; [|split; [|split]].
  - intro Hn. destruct Hnames as [->|[Hfresh ->]]; [exact Hn|].
    apply NoDup_app; [exact Hn|repeat constructor; simpl; tauto|].
    intros c Hc [<-|[]]. contradiction.
  - intros Hl Hx. now apply set_in_Forall.
  - destruct Hnames as [->|[_ ->]]; [exists []; now rewrite app_nil_r|eauto].
  - intros c Hc. rewrite find_set_in.
    destruct (String.eqb (col_name x) c) eqn:E; [|reflexivity].
    apply String.eqb_eq in E. congruence.
Qed.

Lemma assign_targets_silent target_df cs : forall combined,
  trace (assign_targets target_df cs combined) = [].
Proof.
  induction cs as [|c0 rest IH]; intro combined; simpl; [reflexivity|].
  destruct (1 <? count_occ string_dec (columns target_df) c0); [reflexivity|].
  destruct (get_column target_df c0); [apply IH|reflexivity].
Qed.

(** What the assignment loop keeps of a table with rows, whenever it ends
    without an exception. *)
Lemma assign_targets_keeps target_df cs : forall combined combined',
  nrows combined <> 0 ->
  result (assign_targets target_df cs combined) = Return combined' ->
  nrows combined' = nrows combined /\
  (NoDup (columns combined) -> NoDup (columns combined')) /\
  (Forall (fun x => List.length (col_values x) = nrows combined)
     (frame_columns combined) ->
   Forall (fun x => List.length (col_values x) = nrows combined')
     (frame_columns combined')) /\
  (exists extra, columns combined' = columns combined ++ extra) /\
  (forall c, ~ In c cs -> get_column combined' c = get_column combined c).
Proof.
  induction cs as [|c0 rest IH]; intros combined combined' Hrows H; simpl in H.
  - injection H as <-. repeat split; auto. exists []. now rewrite app_nil_r.
  - destruct (1 <? count_occ string_dec (columns target_df) c0); [discriminate|].
    destruct (get_column target_df c0) as [x|] eqn:Hx; [|discriminate].
    rewrite (assign_rows _ _ Hrows) in H.
    apply IH in H; [|exact Hrows].
    destruct H as (Hr & Hnd & Hlen & (extra & Hex) & Hget).
    destruct (set_column_keeps combined (align (nrows combined) x))
      as (Knd & Klen & (extra' & Kex) & Kget).
    assert (Hname : col_name (align (nrows combined) x) = c0).
    { rewrite align_name. now destruct (find_column_name _ _ _ Hx). }
    change (nrows (set_column combined (align (nrows combined) x)))
      with (nrows combined) in Hr, Hlen.
    split; [exact Hr|]. split; [auto|]. split; [|split].
    + intro Hl. apply Hlen, Klen; [exact Hl|apply align_length].
    + exists (extra' ++ extra). now rewrite Hex, Kex, app_assoc.
    + intros c Hc. simpl in Hc. rewrite Hget by tauto.
      apply Kget. rewrite Hname. intros ->. tauto.
Qed.

(** When combined.csv is written, it holds the table the assignment loop
    built from the features and the renamed targets. *)
Lemma combine_written f t outdir p combined :
  In (p, combined) (csv_written (trace (combine can_write f t outdir))) ->
  p = path_join outdir "combined.csv" /\
  result (assign_targets (rename t (build_rename_map f t))
            (columns (rename t (build_rename_map f t))) f) = Return combined.
Proof.
  unfold combine.
  set (renamed := rename t (build_rename_map f t)).
  pose proof (assign_targets_silent renamed (columns renamed) f) as Hs.
  assert (G : In (p, combined) (csv_written (trace
      (bind (assign_targets renamed (columns renamed) f) (fun combined =>
         bind (to_csv can_write combined (path_join outdir "combined.csv"))
           (fun _ => log (LogSavedCombined (shape combined))))))) ->
    p = path_join outdir "combined.csv" /\
    result (assign_targets renamed (columns renamed) f) = Return combined).
  { destruct (assign_targets renamed (columns renamed) f) as [tr [c'|code|ex]].
    - cbn in Hs. subst tr. unfold to_csv.
      destruct (can_write _); cbn; [|contradiction].
      intros [[= -> ->]|[]]. auto.
    - cbn in Hs. subst tr. contradiction.
    - cbn in Hs. subst tr. contradiction. }
  subst renamed. destruct (build_rename_map f t) as [|r rs] eqn:Eb.
  - rewrite rename_nil in *. intro H. apply G. revert H.
    cbn -[assign_targets path_join].
    destruct (bind (assign_targets _ _ f) _) as [tr o]. cbn. tauto.
  - intro H. apply G. revert H.
    cbn -[assign_targets path_join rename].
    destruct (bind (assign_targets _ _ f) _) as [tr o]. cbn. tauto.
Qed.

(** X14. Whenever combined.csv is written for features that have at least
    one row and whose columns have distinct names and one cell per row, the
    combined table is of the same kind and has the features' row count; its
    column names start with the feature column names in their order; and
    every feature column whose name is not the name of a (renamed) target
    column is in it unchanged.  (Features without rows take the rows of the
    targets instead.) *)
Theorem combined_keeps_features
  (f t : DataFrame) (outdir p : string) (combined : DataFrame) :
  well_formed f ->
  nrows f <> 0 ->
  In (p, combined) (csv_written (trace (combine can_write f t outdir))) ->
  p = path_join outdir "combined.csv" /\
  well_formed combined /\
  nrows combined = nrows f /\
  (exists extra, columns combined = columns f ++ extra) /\
  (forall c, ~ In c (columns (rename t (build_rename_map f t))) ->
     get_column combined c = get_column f c).
Proof.
  intros [Hn Hl] Hrows H. apply combine_written in H. destruct H as [-> H].
  apply assign_targets_keeps in H; [|exact Hrows].
  destruct H as (Hr & Hnd & Hlen & Hex & Hget).
  split; [reflexivity|]. split; [split; auto|]. auto.
Qed.

End CombinedInvariants.

(** ** Frequency tables of class_stats.py *)

Section FrequencyTables.
Import Float Dict Frame Script ClassStats.

Lemma cell_eqb_sym a b : cell_eqb a b = cell_eqb b a.
Proof.
  destruct a, b; simpl; try reflexivity.
  - apply eq_true_iff_eq. rewrite !Qeq_bool_iff. split; intro H; now symmetry.
  - apply String.eqb_sym.
  - now destruct b0, b.
Qed.

Lemma cell_eqb_compat v a b : cell_eqb a b = true -> cell_eqb v a = cell_eqb v b.
Proof.
  intro H. apply eq_true_iff_eq. split; intro E.
  - now apply cell_eqb_trans with a.
  - apply cell_eqb_trans with b; [exact E|]. now rewrite cell_eqb_sym.
Qed.

Lemma filter_filter_comm {A} (p q : A -> bool) l :
  filter p (filter q l) = filter q (filter p l).
Proof.
  induction l as [|x l IH]; simpl; [reflexivity|].
  destruct (p x) eqn:P, (q x) eqn:Q; simpl; rewrite ?P, ?Q, IH; reflexivity.
Qed.

(** Keeping the values unlike [v] commutes with taking distinct values. *)
Lemma unique_filter v l :
  filter (fun w => negb (cell_eqb v w)) (unique l)
  = unique (filter (fun w => negb (cell_eqb v w)) l).
Proof.
  induction l as [|a l IH]; simpl; [reflexivity|].
  destruct (cell_eqb v a) eqn:E; simpl.
  - rewrite <- IH, filter_filter_comm.
    rewrite <- (filter_true (filter _ (unique l))) at 2.
    apply filter_ext_in. intros w Hw. apply filter_In in Hw.
    destruct Hw as [_ Hw]. apply negb_true_iff in Hw.
    rewrite cell_eqb_sym, <- (cell_eqb_compat w v a E), cell_eqb_sym, Hw.
    reflexivity.
  - now rewrite filter_filter_comm, IH.
Qed.

Lemma count_of_cons u v l :
  count_of u (v :: l) = (if cell_eqb u v then 1 else 0) + count_of u l.
Proof. unfold count_of. simpl. now destruct (cell_eqb u v). Qed.

Lemma count_of_split v u l :
  cell_eqb v u = false ->
  count_of u l = count_of u (filter (fun w => negb (cell_eqb v w)) l).
Proof.
  intro H. unfold count_of. induction l as [|w l IH]; simpl; [reflexivity|].
  destruct (cell_eqb v w) eqn:E; simpl.
  - assert (X : cell_eqb u w = false).
    { destruct (cell_eqb u w) eqn:X; [|reflexivity].
      rewrite <- H. symmetry. rewrite cell_eqb_sym in X.
      rewrite (cell_eqb_compat v w u X) in E. exact E. }
    now rewrite X.
  - destruct (cell_eqb u w); simpl; now rewrite IH.
Qed.

Lemma counted_cons u us l : counted (u :: us) l = count_of u l + counted us l.
Proof. reflexivity. Qed.

Lemma counted_ext us l l' :
  (forall u, In u us -> count_of u l = count_of u l') ->
  counted us l = counted us l'.
Proof.
  unfold counted. induction us as [|u us IH]; simpl; intro H; [reflexivity|].
  rewrite (H u) by now left. rewrite IH; [reflexivity|].
  intros w Hw. apply H. now right.
Qed.

Lemma filter_partition_length {A} (p : A -> bool) l :
  List.length (filter p l) + List.length (filter (fun x => negb (p x)) l)
  = List.length l.
Proof.
  induction l as [|x l IH]; simpl; [reflexivity|].
  destruct (p x); simpl; lia.
Qed.

Lemma counted_unique n : forall l,
  List.length l <= n ->
  (forall v, In v l -> cell_isna v = false) ->
  counted (unique l) l = List.length l.
Proof.
  induction n as [|n IH]; intros [|v rest] Hlen Hna; simpl in Hlen;
    try reflexivity; [lia|].
  cbn [unique]. rewrite counted_cons, unique_filter.
  set (others := filter (fun w => negb (cell_eqb v w)) rest).
  assert (E1 : counted (unique others) (v :: rest) = counted (unique others) others).
  { apply counted_ext. intros u Hu. apply unique_In in Hu.
    apply filter_In in Hu. destruct Hu as [_ Hu]. apply negb_true_iff in Hu.
    rewrite count_of_cons.
    rewrite cell_eqb_sym, Hu. simpl. now apply count_of_split. }
  rewrite E1, IH.
  - rewrite count_of_cons, cell_eqb_refl by (apply Hna; now left).
    unfold count_of, others.
    pose proof (filter_partition_length (cell_eqb v) rest). simpl. lia.
  - unfold others. pose proof (filter_length_le (fun w => negb (cell_eqb v w)) rest). lia.
  - intros w Hw. apply filter_In in Hw. apply Hna. right. tauto.
Qed.

Lemma total_insert_count x xs : total (insert_count x xs) = snd x + total xs.
Proof.
  induction xs as [|y rest IH]; simpl; [reflexivity|].
  destruct (snd y <=? snd x); simpl; [reflexivity|]. rewrite IH. lia.
Qed.

Lemma total_value_counts vs : total (value_counts vs) = List.length (dropna vs).
Proof.
  unfold value_counts.
  rewrite <- (counted_unique (List.length (dropna vs)) (dropna vs) (le_n _)
                (fun v Hv => proj2 (proj1 (dropna_In v vs) Hv))).
  unfold counted.
  induction (map (fun v => (v, count_of v (dropna vs))) (unique (dropna vs)))
    as [|x xs IH]; simpl; [reflexivity|].
  now rewrite total_insert_count, IH.
Qed.

Lemma unique_equiv_eq l a b :
  In a (unique l) -> In b (unique l) -> cell_eqb a b = true -> a = b.
Proof.
  induction l as [|v rest IH]; simpl; [contradiction|].
  intros [<-|Ha] [<-|Hb] E; [reflexivity| | |].
  - apply filter_In in Hb. destruct Hb as [_ Hb]. rewrite E in Hb. discriminate.
  - apply filter_In in Ha. destruct Ha as [_ Ha].
    rewrite cell_eqb_sym, E in Ha. discriminate.
  - apply filter_In in Ha, Hb. apply IH; tauto.
Qed.

End FrequencyTables.

Section ClassStatsTables.
Import Float Dict Frame Script ClassStats.

Lemma count_of_present v l :
  In v l -> cell_isna v = false -> 1 <= count_of v l.
Proof.
  intros Hin Hna. unfold count_of.
  assert (H : In v (filter (cell_eqb v) l))
    by (apply filter_In; split; [exact Hin|now apply cell_eqb_refl]).
  destruct (filter (cell_eqb v) l); [contradiction|simpl; lia].
Qed.

Lemma count_sum_frequency_rows df col :
  count_sum (frequency_rows df col) = total (value_counts (column_values df col)).
Proof.
  unfold frequency_rows.
  generalize (total (value_counts (column_values df col))) at 1. intro n.
  induction (value_counts (column_values df col)) as [|[v c] rest IH];
    [reflexivity|].
  unfold count_sum, total in *. cbn [map fold_right Count snd]. now rewrite IH.
Qed.

(** X15. In class_stats.csv the rows of a categorical variable partition
    its non-missing values: their counts add up to the number of non-missing
    values of the column, each count is at least 1, and no two rows have the
    same category. *)
Theorem class_stats_counts_partition (e : env) (a : args) (col : string) :
  NoDup (columns (read_csv e (input a))) ->
  path_exists e (input a) = true ->
  In col (categorical_cols (read_csv e (input a))) ->
  exists rows,
    In (path_join (outdir a) "class_stats.csv", ClassCsv rows)
       (written (trace (main e a))) /\
    let values := dropna (column_values (read_csv e (input a)) col) in
    let table := filter (fun r => String.eqb (Variable_ r) col) rows in
    count_sum table = List.length values /\
    (forall r, In r table -> 1 <= Count r <= List.length values) /\
    (forall r r', In r table -> In r' table ->
       cell_eqb (Category r) (Category r') = true -> r = r').
Proof.
  intros Hn Ex Hcol.
  assert (Hne : categorical_cols (read_csv e (input a)) <> [])
    by (intro E; rewrite E in Hcol; contradiction).
  eexists. split; [now apply class_stats_writes|].
  cbv zeta. rewrite csv_data_rows; [|now apply categorical_cols_NoDup|exact Hcol].
  set (values := dropna (column_values (read_csv e (input a)) col)).
  assert (Hrow : forall r, In r (frequency_rows (read_csv e (input a)) col) ->
            In (Category r) (unique values) /\ Count r = count_of (Category r) values).
  { intros r Hr. unfold frequency_rows in Hr. apply in_map_iff in Hr.
    destruct Hr as ([v n] & <- & Hv). now apply value_counts_In in Hv. }
  split; [|split].
  - rewrite count_sum_frequency_rows. apply total_value_counts.
  - intros r Hr. destruct (Hrow r Hr) as [Hu ->].
    assert (Hin := unique_In _ _ Hu). split.
    + apply count_of_present; [exact Hin|]. now apply dropna_In in Hin.
    + apply filter_length_le.
  - intros r r' Hr Hr' E.
    destruct (Hrow r Hr) as [Hu Hc], (Hrow r' Hr') as [Hu' Hc'].
    assert (Ecat := unique_equiv_eq _ _ _ Hu Hu' E).
    unfold frequency_rows in Hr, Hr'. apply in_map_iff in Hr, Hr'.
    destruct Hr as ([v n] & <- & Hv), Hr' as ([v' n'] & <- & Hv').
    simpl in *. subst v'. apply value_counts_In in Hv, Hv'.
    destruct Hv as [_ ->], Hv' as [_ ->]. reflexivity.
Qed.

(** X16. Every percentage in class_stats.csv is
    [round(count / n * 100, 2)] for the row's count and the number [n] of
    non-missing values of its column, the quotient and the product computed
    in double precision. *)
Theorem class_stats_percentages (e : env) (a : args) (col : string) :
  NoDup (columns (read_csv e (input a))) ->
  path_exists e (input a) = true ->
  In col (categorical_cols (read_csv e (input a))) ->
  exists rows,
    In (path_join (outdir a) "class_stats.csv", ClassCsv rows)
       (written (trace (main e a))) /\
    let values := dropna (column_values (read_csv e (input a)) col) in
    forall r, In r (filter (fun r => String.eqb (Variable_ r) col) rows) ->
      Percentage r
      = Double.Round
          (Double.mul
             (Double.div (Double.of_nat (Count r))
                (Double.of_nat (List.length values)))
             (Double.of_Z 100)) 2.
Proof.
  intros Hn Ex Hcol.
  assert (Hne : categorical_cols (read_csv e (input a)) <> [])
    by (intro E; rewrite E in Hcol; contradiction).
  eexists. split; [now apply class_stats_writes|].
  cbv zeta. rewrite csv_data_rows; [|now apply categorical_cols_NoDup|exact Hcol].
  intros r Hr. unfold frequency_rows in Hr. apply in_map_iff in Hr.
  destruct Hr as ([v n] & <- & Hv). cbn [Percentage Count].
  now rewrite total_value_counts.
Qed.

End ClassStatsTables.

Section ClassStatsRun.
Import Float Dict Frame Script ClassStats.

Lemma print_latex_run df cols :
  print_latex df cols
  = (map (fun col => Stdout (MsgReport (Latex col (value_counts (column_values df col)))))
       cols,
     Return tt).
Proof.
  induction cols as [|c rest IH]; [reflexivity|].
  cbn [print_latex]. rewrite IH. reflexivity.
Qed.

Lemma reports_latex df cols :
  reports (map (fun col => Stdout (MsgReport (Latex col (value_counts (column_values df col)))))
             cols)
  = map (fun col => Latex col (value_counts (column_values df col))) cols.
Proof. induction cols as [|c rest IH]; simpl; [reflexivity|now rewrite IH]. Qed.

Lemma written_latex df cols :
  written (map (fun col => Stdout (MsgReport (Latex col (value_counts (column_values df col)))))
             cols) = [].
Proof. induction cols as [|c rest IH]; simpl; [reflexivity|exact IH]. Qed.

Lemma insert_count_length x xs :
  List.length (insert_count x xs) = Datatypes.S (List.length xs).
Proof.
  induction xs as [|y rest IH]; simpl; [reflexivity|].
  destruct (snd y <=? snd x); simpl; [reflexivity|now rewrite IH].
Qed.

Lemma value_counts_length vs : List.length (value_counts vs) = nunique vs.
Proof.
  unfold value_counts, nunique.
  cbv zeta. induction (unique (dropna vs)) as [|u us IH]; [reflexivity|].
  cbn [map fold_right List.length]. rewrite insert_count_length. f_equal. exact IH.
Qed.

Lemma frequency_rows_variables df col :
  map Variable_ (frequency_rows df col)
  = repeat col (nunique (column_values df col)).
Proof.
  unfold frequency_rows. rewrite <- value_counts_length. cbv zeta.
  generalize (total (value_counts (column_values df col))). intro t.
  induction (value_counts (column_values df col)) as [|[v n] rest IH];
    [reflexivity|].
  cbn [map List.length repeat Variable_]. f_equal. exact IH.
Qed.

Lemma csv_data_variables df cols :
  map Variable_ (csv_data df cols)
  = flat_map (fun col => repeat col (nunique (column_values df col))) cols.
Proof.
  unfold csv_data. induction cols as [|c rest IH]; [reflexivity|].
  cbn [flat_map]. now rewrite map_app, frequency_rows_variables, IH.
Qed.

Lemma report_variables_latex df cols :
  map report_variable
    (map (fun col => Latex col (value_counts (column_values df col))) cols)
  = map Some cols.
Proof. induction cols as [|c rest IH]; simpl; [reflexivity|now rewrite IH]. Qed.

(** X17. class_stats.py on an existing input always returns normally.
    Without a categorical column it prints the warning and writes nothing;
    otherwise it writes class_stats.csv, its only file, whose Variable
    column runs through the categorical columns in their order, each as
    often as it has distinct non-missing values, and it prints one LaTeX
    table per categorical column, in the same order. *)
Theorem class_stats_run_completes (e : env) (a : args) :
  path_exists e (input a) = true ->
  result (main e a) = Return tt /\
  (categorical_cols (read_csv e (input a)) = [] ->
     written (trace (main e a)) = [] /\
     reports (trace (main e a)) = [] /\
     In (Stdout MsgNoColumns) (trace (main e a))) /\
  (categorical_cols (read_csv e (input a)) <> [] ->
     (exists rows,
        written (trace (main e a))
        = [(path_join (outdir a) "class_stats.csv", ClassCsv rows)] /\
        map Variable_ rows
        = flat_map (fun col =>
                      repeat col (nunique (column_values (read_csv e (input a)) col)))
            (categorical_cols (read_csv e (input a)))) /\
     map report_variable (reports (trace (main e a)))
     = map Some (categorical_cols (read_csv e (input a)))).
Proof.
  intro Ex. unfold main. rewrite Ex.
  destruct (categorical_cols (read_csv e (input a))) as [|c cs] eqn:Ec.
  - cbn -[path_join shape]. split; [reflexivity|]. split; [|congruence].
    intros _. repeat split. auto 6.
  - rewrite print_latex_run.
    cbn -[path_join shape csv_data value_counts column_values map flat_map nunique].
    split; [reflexivity|]. split; [discriminate|]. intros _. split.
    + eexists. split; [now rewrite written_latex|]. apply csv_data_variables.
    + rewrite reports_latex. apply report_variables_latex.
Qed.

End ClassStatsRun.

(** ** numeric_stats.py *)

Section NumericStatsFacts.
Import Float Dict Frame Script NumericStats.

Variable S : Type.
Variable statistics : list cell -> S.

Lemma stats_rows_In df cols col s :
  In (col, s) (stats_rows S statistics df cols) <->
  In col cols /\
  exists x, get_column df col = Some x /\
    dropna (col_values x) <> [] /\ s = statistics (dropna (col_values x)).
Proof.
  induction cols as [|c rest IH]; simpl.
  - split; [contradiction|tauto].
  - destruct (get_column df c) as [x|] eqn:Hx.
    + destruct (dropna (col_values x)) as [|v vs] eqn:Hd.
      * rewrite IH. split.
        -- intros [H1 H2]. tauto.
        -- intros [[<-|H1] (y & Hy & Hne & Hs)]; [|eauto].
           rewrite Hx in Hy. injection Hy as <-. congruence.
      * simpl. rewrite IH. split.
        -- intros [[= <- <-]|[H1 H2]]; [|tauto].
           split; [now left|]. exists x. split; [exact Hx|].
           rewrite Hd. split; [discriminate|reflexivity].
        -- intros [[<-|H1] (y & Hy & Hne & ->)]; [|right; eauto].
           rewrite Hx in Hy. injection Hy as <-. left. now rewrite Hd.
    + rewrite IH. split; [tauto|].
      intros [[<-|H1] (y & Hy & H)]; [congruence|eauto].
Qed.

Lemma stats_rows_names df cols :
  NoDup cols -> NoDup (map fst (stats_rows S statistics df cols)) /\
  forall c, In c (map fst (stats_rows S statistics df cols)) -> In c cols.
Proof.
  induction cols as [|c rest IH]; simpl; intro Hn; [split; [constructor|tauto]|].
  inversion Hn as [|? ? Hc Hr]; subst. destruct (IH Hr) as [IH1 IH2].
  destruct (get_column df c) as [x|]; [|split; auto].
  destruct (dropna (col_values x)); [split; auto|].
  simpl. split; [constructor; auto|]. intros c' [<-|H]; auto.
Qed.

Lemma numeric_cols_In df c :
  NoDup (columns df) ->
  (In c (numeric_cols df) <->
   exists x, get_column df c = Some x /\ is_number (col_dtype x) = true).
Proof.
  intro Hn. unfold numeric_cols. rewrite in_map_iff. split.
  - intros (x & <- & Hx). apply filter_In in Hx. destruct Hx as [Hin Hd].
    exists x. split; [now apply find_column_In|exact Hd].
  - intros (x & Hx & Hd). destruct (find_column_name _ _ _ Hx) as [Hname Hin].
    exists x. split; [exact Hname|]. apply filter_In. auto.
Qed.

Lemma numeric_cols_NoDup df : NoDup (columns df) -> NoDup (numeric_cols df).
Proof.
  unfold columns, numeric_cols.
  induction (frame_columns df) as [|x rest IH]; simpl; intro Hn; [constructor|].
  inversion Hn as [|? ? Hx Hr]; subst.
  destruct (col_dtype x); simpl; auto;
    (constructor; [|auto]); intro H; apply Hx;
    apply in_map_iff in H; destruct H as (y & <- & Hy);
    apply filter_In in Hy; now apply in_map.
Qed.

Lemma variables_In df c :
  NoDup (columns df) ->
  (In c (variables df) <-> In c (numeric_cols df) /\ c <> target_col).
Proof.
  intro Hn. unfold variables. pose proof (numeric_cols_NoDup df Hn) as Hnd.
  destruct (existsb (String.eqb target_col) (numeric_cols df)) eqn:E.
  - now apply remove_first_In.
  - split; [|tauto]. intro H. split; [exact H|]. intros ->.
    assert (X : existsb (String.eqb target_col) (numeric_cols df) = true)
      by (apply existsb_exists; exists target_col; split;
          [exact H|apply String.eqb_refl]).
    congruence.
Qed.

Lemma variables_NoDup df : NoDup (columns df) -> NoDup (variables df).
Proof.
  intro Hn. unfold variables. pose proof (numeric_cols_NoDup df Hn) as Hnd.
  destruct (existsb _ _); [now apply remove_first_NoDup|exact Hnd].
Qed.

Lemma numeric_main_run (e : env) (a : args) :
  path_exists e (input a) = true ->
  main S statistics e a =
    match variables (read_csv e (input a)) with
    | [] =>
        ([MakeDirs (outdir a); ReadCsv (input a);
          Stdout (MsgLoaded (input a) (shape (read_csv e (input a))));
          Stdout MsgNoColumns], Return tt)
    | cols =>
        match stats_rows S statistics (read_csv e (input a)) cols with
        | [] =>
            ([MakeDirs (outdir a); ReadCsv (input a);
              Stdout (MsgLoaded (input a) (shape (read_csv e (input a))));
              Stdout (MsgColumns cols)], Raise (KeyError "Variable"))
        | rows =>
            ([MakeDirs (outdir a); ReadCsv (input a);
              Stdout (MsgLoaded (input a) (shape (read_csv e (input a))));
              Stdout (MsgColumns cols);
              WriteFile (path_join (outdir a) "numeric_stats.csv") (StatsCsv S rows);
              Stdout (MsgSaved (path_join (outdir a) "numeric_stats.csv"));
              Stdout (MsgReport (LatexTable S rows))], Return tt)
        end
    end.
Proof.
  intro Ex. unfold main, variables, compute_stats. rewrite Ex.
  destruct (if existsb _ _ then _ else _) as [|c cs]; [reflexivity|].
  destruct (stats_rows S statistics (read_csv e (input a)) (c :: cs)); reflexivity.
Qed.

End NumericStatsFacts.

Section NumericStatsTheorems.
Import Float Dict Frame Script NumericStats.

Variable S : Type.
Variable statistics : list cell -> S.

Lemma is_number_spec (d : dtype) :
  is_number d = true <-> d = int64 \/ d = uint64 \/ d = float64.
Proof.
  destruct d; cbn; split; intro H; try discriminate; auto;
    destruct H as [H|[H|H]]; discriminate.
Qed.

(** X18. The table numeric_stats.py writes has one row for each column
    that is numeric (of dtype int64, uint64 or float64, the dtypes of
    [read_csv] that [include=['number']] selects), is not the target column
    Diabetes_binary and has at least one non-missing value, holding the
    statistics of the column's non-missing values; it has no other row and
    no variable twice. *)
Theorem numeric_stats_rows (e : env) (a : args)
  (path : string) (rows : list (string * S)) :
  NoDup (columns (read_csv e (input a))) ->
  In (path, StatsCsv S rows) (written (trace (main S statistics e a))) ->
  NoDup (map fst rows) /\
  forall col s,
    In (col, s) rows <->
    col <> target_col /\
    exists x,
      get_column (read_csv e (input a)) col = Some x /\
      (col_dtype x = int64 \/ col_dtype x = uint64 \/ col_dtype x = float64) /\
      dropna (col_values x) <> [] /\
      s = statistics (dropna (col_values x)).
Proof.
  intros Hn Hw.
  destruct (path_exists e (input a)) eqn:Ex.
  2:{ unfold main in Hw. rewrite Ex in Hw. contradiction. }
  rewrite (numeric_main_run S statistics e a Ex) in Hw.
  pose proof (variables_In (read_csv e (input a))) as Hv.
  pose proof (variables_NoDup _ Hn) as Hvn.
  destruct (variables (read_csv e (input a))) as [|c cs] eqn:Ev;
    [cbn in Hw; contradiction|].
  cbn zeta match in Hw.
  destruct (stats_rows S statistics (read_csv e (input a)) (c :: cs))
    as [|r0 rs] eqn:Er; [cbn in Hw; contradiction|].
  cbn -[path_join] in Hw. destruct Hw as [[= _ <-]|[]].
  rewrite <- Er. split; [now apply stats_rows_names|].
  intros col s. rewrite stats_rows_In, (Hv col Hn), (numeric_cols_In _ _ Hn). split.
  - intros [[(y & Hy & Hd) N] (x & Hx & Hne & Hs)].
    rewrite Hx in Hy. injection Hy as <-. apply is_number_spec in Hd. eauto 8.
  - intros (N & x & Hx & Hd & Hne & Hs). apply is_number_spec in Hd. eauto 8.
Qed.

(** X19. numeric_stats.py on an existing input with distinct column names
    ends in one of two ways: it returns normally, or, when there are
    numeric columns besides the target but every one of them is entirely
    missing, it stops with the KeyError of indexing an empty table by
    "Variable" and writes nothing. *)
Theorem numeric_stats_outcome (e : env) (a : args) :
  NoDup (columns (read_csv e (input a))) ->
  path_exists e (input a) = true ->
  (result (main S statistics e a) = Raise (KeyError "Variable") <->
   variables (read_csv e (input a)) <> [] /\
   forall col x, In col (variables (read_csv e (input a))) ->
     get_column (read_csv e (input a)) col = Some x ->
     dropna (col_values x) = []) /\
  (result (main S statistics e a) = Return tt \/
   (result (main S statistics e a) = Raise (KeyError "Variable") /\
    written (trace (main S statistics e a)) = [])).
Proof.
  intros Hn Ex. rewrite (numeric_main_run S statistics e a Ex).
  destruct (variables (read_csv e (input a))) as [|c cs] eqn:Ev.
  - split; [|now left]. split; [discriminate|]. intros [H _]. congruence.
  - cbn zeta match.
    destruct (stats_rows S statistics (read_csv e (input a)) (c :: cs))
      as [|[c1 s1] rs] eqn:Er.
    + split; [|right; split; reflexivity].
      split; [|reflexivity]. intros _. split; [discriminate|].
      intros col x Hc Hx.
      destruct (dropna (col_values x)) as [|v vs] eqn:Hd; [reflexivity|].
      assert (Hin : In (col, statistics (dropna (col_values x)))
                      (stats_rows S statistics (read_csv e (input a)) (c :: cs))).
      { apply stats_rows_In. split; [exact Hc|]. exists x.
        rewrite Hd. repeat split; [exact Hx|discriminate]. }
      rewrite Er in Hin. contradiction.
    + split; [|now left]. split; [discriminate|]. intros [_ H]. exfalso.
      assert (Hin : In (c1, s1)
                      (stats_rows S statistics (read_csv e (input a)) (c :: cs)))
        by (rewrite Er; now left).
      apply stats_rows_In in Hin. destruct Hin as (Hc & x & Hx & Hne & _).
      apply Hne. now apply (H c1 x).
Qed.

End NumericStatsTheorems.

Section TestsRuns.
Import Double Frame Script Tests.

Variable shapiro : list cell -> float * float.
Variable mannwhitneyu : list cell -> list cell -> float * float.

Lemma variables_of_rows (g : string -> list result_row) (p : string -> bool) vars :
  (forall v, In v vars -> map Variable_ (g v) = if p v then [v] else []) ->
  map Variable_ (flat_map g vars) = filter p vars.
Proof.
  induction vars as [|v rest IH]; simpl; intro H; [reflexivity|].
  rewrite map_app, (H v (or_introl eq_refl)), IH by (intros; apply H; now right).
  now destruct (p v).
Qed.

Lemma cell_equals_disjoint (v : cell) :
  cell_equals v 0 && cell_equals v 1 = false.
Proof.
  destruct v as [q|s|b|]; try reflexivity; simpl.
  - destruct (Qeq_bool q 0) eqn:E0; [|reflexivity].
    destruct (Qeq_bool q 1) eqn:E1; [|reflexivity].
    apply Qeq_bool_eq in E0, E1. rewrite E0 in E1. discriminate.
  - now destruct b.
Qed.

Lemma dropna_length_cons (v : cell) (vs : list cell) :
  (List.length (dropna (v :: vs)) <= Datatypes.S (List.length (dropna vs)))%nat /\
  (List.length (dropna vs) <= List.length (dropna (v :: vs)))%nat.
Proof. unfold dropna. simpl. destruct (negb (cell_isna v)); simpl; lia. Qed.

Lemma dropna_cons_length (v : cell) (vs ws : list cell) :
  List.length (dropna (v :: vs)) + List.length (dropna ws)
  = List.length (dropna vs) + List.length (dropna (v :: ws)).
Proof. unfold dropna. simpl. destruct (negb (cell_isna v)); simpl; lia. Qed.

(** X20. normality_test.py on an existing input always returns normally.
    It writes the one file normality_test.csv unless the table has none of
    BMI, MentHlth, PhysHlth, and the rows of that file are, in the order
    BMI, MentHlth, PhysHlth, the columns with at least three non-missing
    values. *)
Theorem normality_run_completes (e : env) (a : args) :
  path_exists e (input a) = true ->
  result (normality_main shapiro e a) = Return tt /\
  (continuous_vars (read_csv e (input a)) = [] ->
   written (trace (normality_main shapiro e a)) = []) /\
  (continuous_vars (read_csv e (input a)) <> [] ->
   exists rows,
     written (trace (normality_main shapiro e a))
     = [(path_join (outdir a) "normality_test.csv", ResultsCsv rows)] /\
     map Variable_ rows
     = filter (fun v =>
                 match get_column (read_csv e (input a)) v with
                 | Some x => (3 <=? List.length (dropna (col_values x)))%nat
                 | None => false
                 end)
         (continuous_vars (read_csv e (input a)))).
Proof.
  intro Ex.
  destruct (continuous_vars (read_csv e (input a))) as [|v0 vs] eqn:Ev.
  - split; [|split; [|congruence]].
    + unfold normality_main. rewrite Ex, Ev. reflexivity.
    + intros _. apply normality_main_silent. right. exact Ev.
  - assert (Hne : continuous_vars (read_csv e (input a)) <> []) by congruence.
    rewrite (normality_main_run shapiro e a Ex Hne).
    split; [reflexivity|]. split; [congruence|]. intros _.
    eexists. split.
    + cbn [trace fst]. rewrite !written_app.
      rewrite (written_bodies (normality_body shapiro (read_csv e (input a))))
        by (apply normality_bodies_silent, continuous_vars_present).
      rewrite Ev. reflexivity.
    + rewrite <- Ev. apply variables_of_rows. intros v Hv.
      destruct (continuous_vars_present _ _ Hv) as [x Hx].
      rewrite Hx, (normality_body_run shapiro _ _ _ Hx).
      rewrite Nat.leb_antisym.
      destruct (List.length (dropna (col_values x)) <? 3)%nat; reflexivity.
Qed.

(** X21. mann_whitney_test.py on an existing input returns normally
    exactly when the table has none of BMI, MentHlth, PhysHlth or has the
    column Diabetes_binary; otherwise it stops with the KeyError of that
    column and has written nothing.  When it writes, it writes the one file
    mann_whitney_test.csv, whose rows are, in the order BMI, MentHlth,
    PhysHlth, the columns with a non-missing value in both groups. *)
Theorem mann_whitney_run_outcome (e : env) (a : args) :
  path_exists e (input a) = true ->
  (result (mann_whitney_main mannwhitneyu e a) = Return tt <->
   continuous_vars (read_csv e (input a)) = [] \/
   has_column (read_csv e (input a)) group_col = true) /\
  (result (mann_whitney_main mannwhitneyu e a) <> Return tt ->
   result (mann_whitney_main mannwhitneyu e a) = Raise (KeyError group_col) /\
   written (trace (mann_whitney_main mannwhitneyu e a)) = []) /\
  (forall g,
   continuous_vars (read_csv e (input a)) <> [] ->
   get_column (read_csv e (input a)) group_col = Some g ->
   exists rows,
     written (trace (mann_whitney_main mannwhitneyu e a))
     = [(path_join (outdir a) "mann_whitney_test.csv", ResultsCsv rows)] /\
     map Variable_ rows
     = filter (fun v =>
                 match get_column (read_csv e (input a)) v with
                 | Some x =>
                     (1 <=? List.length
                              (dropna (select (group_mask g 0) (col_values x))))%nat
                     && (1 <=? List.length
                                 (dropna (select (group_mask g 1) (col_values x))))%nat
                 | None => false
                 end)
         (continuous_vars (read_csv e (input a)))).
Proof.
  intro Ex.
  destruct (continuous_vars (read_csv e (input a))) as [|v0 vs] eqn:Ev.
  - assert (R : result (mann_whitney_main mannwhitneyu e a) = Return tt)
      by (unfold mann_whitney_main; rewrite Ex, Ev; reflexivity).
    split; [split; [now left|intro; exact R]|].
    split; [intro H; now elim H|]. intros g H. now elim H.
  - assert (Hne : continuous_vars (read_csv e (input a)) <> []) by congruence.
    destruct (get_column (read_csv e (input a)) group_col) as [g|] eqn:Hg.
    + assert (Hc : has_column (read_csv e (input a)) group_col = true).
      { destruct (find_column_name _ _ _ Hg) as [Hname Hin].
        apply has_column_In. rewrite <- Hname. unfold columns. now apply in_map. }
      pose proof (mann_whitney_main_run mannwhitneyu e a g Ex Hne Hg) as Hrun.
      cbv zeta in Hrun. rewrite Hrun.
      split; [split; [now right|reflexivity]|].
      split; [intro H; now elim H|]. intros g' _ [= <-].
      eexists. split.
      * cbn [trace fst]. rewrite !written_app.
        rewrite (written_bodies (mann_whitney_body mannwhitneyu _ _))
          by (apply mann_whitney_bodies_silent, continuous_vars_present).
        rewrite Ev. reflexivity.
      * rewrite <- Ev. apply variables_of_rows. intros v Hv.
        destruct (continuous_vars_present _ _ Hv) as [x Hx].
        rewrite Hx, (mann_whitney_body_run mannwhitneyu _ _ _ _ _ Hx).
        rewrite !Nat.leb_antisym, <- negb_orb.
        destruct (_ || _); reflexivity.
    + destruct (mann_whitney_without_group_column mannwhitneyu e a Ex Hne Hg)
        as [R W].
      split; [|split; [intros _; now split|intros g _ [=]]].
      rewrite R. split; [discriminate|]. intros [H|H]; [congruence|].
      destruct (has_column_get _ _ H) as [x Hx]. congruence.
Qed.

(** X22. The two groups mann_whitney_test.py compares never share a row:
    no row has Diabetes_binary equal to 0 and to 1, so for every column the
    non-missing values of the two groups together are at most the
    non-missing values of the column (rows with another or a missing
    Diabetes_binary are in neither group). *)
Theorem mann_whitney_groups_disjoint (g : column) (vs : list cell) :
  (forall i, nth i (group_mask g 0) false && nth i (group_mask g 1) false = false) /\
  (List.length (dropna (select (group_mask g 0) vs))
   + List.length (dropna (select (group_mask g 1) vs))
   <= List.length (dropna vs))%nat.
Proof.
  unfold group_mask. split.
  - intro i. destruct (Nat.lt_ge_cases i (List.length (col_values g))) as [L|L].
    + rewrite !(nth_indep _ false (cell_equals VNaN 0)) by (now rewrite length_map).
      rewrite (map_nth (fun v => cell_equals v 0)).
      rewrite (nth_indep _ (cell_equals VNaN 0) (cell_equals VNaN 1))
        by (now rewrite length_map).
      rewrite (map_nth (fun v => cell_equals v 1)).
      apply cell_equals_disjoint.
    + rewrite nth_overflow by (now rewrite length_map). reflexivity.
  - revert vs. induction (col_values g) as [|c cs IH]; intros [|v vs];
      cbn [map select]; try (cbn; lia).
    pose proof (cell_equals_disjoint c) as D. specialize (IH vs).
    pose proof (dropna_length_cons v vs) as [_ L].
    pose proof (dropna_cons_length v (select (map (fun v => cell_equals v 0) cs) vs)
                  vs) as E0.
    pose proof (dropna_cons_length v (select (map (fun v => cell_equals v 1) cs) vs)
                  vs) as E1.
    destruct (cell_equals c 0), (cell_equals c 1); try discriminate; lia.
Qed.

End TestsRuns.

Section VisualizationFacts.
Import Frame Script Visualization.

Lemma univariate_run df figs_dir todo :
  univariate df figs_dir todo =
    (flat_map (fun vt =>
       if has_column df (fst vt)
       then trace (plot [fst vt] (snd vt)
                     (path_join (path_join figs_dir "univariate")
                        (fst vt ++ "_" ++ snd vt ++ ".png")%string))
       else []) todo, Return tt).
Proof.
  induction todo as [|[var plot_type] rest IH]; [reflexivity|].
  cbn [univariate flat_map fst snd]. rewrite IH.
  destruct (has_column df var); reflexivity.
Qed.

Lemma multivariate_run df figs_dir todo :
  multivariate df figs_dir todo =
    (flat_map (fun vt =>
       if forallb (has_column df) (fst vt)
       then trace (plot (fst vt) (snd vt)
                     (path_join (path_join figs_dir "multivariate")
                        (join_underscore (fst vt) ++ "_" ++ snd vt ++ ".png")%string))
       else []) todo, Return tt).
Proof.
  induction todo as [|[vars_list plot_type] rest IH]; [reflexivity|].
  cbn [multivariate flat_map fst snd]. rewrite IH.
  destruct (forallb (has_column df) vars_list); reflexivity.
Qed.

Lemma written_flat_map {A F} (f : A -> list (event F)) (l : list A) :
  written (flat_map f l) = flat_map (fun x => written (f x)) l.
Proof.
  induction l as [|x rest IH]; [reflexivity|].
  cbn [flat_map]. now rewrite written_app, IH.
Qed.

(** X23. visualization.py saves a figure only for variables the table
    has: every file it writes is either the chart of one of its five
    single variables, present in the table, under univariate/, or the chart
    of one of its four groups of variables, all present in the table, under
    multivariate/, named after the variables and the kind of chart; and it
    writes none before the input file was found. *)
Theorem figures_only_for_present_columns (e : env) (a : args)
  (path : string) (vars : list string) (plot_type : string) :
  In (path, Figure vars plot_type) (written (trace (main e a))) ->
  path_exists e (input a) = true /\
  (forall v, In v vars -> In v (columns (read_csv e (input a)))) /\
  ((exists v, vars = [v] /\ In (v, plot_type) univariate_vars /\
      path = path_join (path_join (figs_dir a) "univariate")
               (v ++ "_" ++ plot_type ++ ".png")%string) \/
   (In (vars, plot_type) multivariate_plots /\
      path = path_join (path_join (figs_dir a) "multivariate")
               (join_underscore vars ++ "_" ++ plot_type ++ ".png")%string)).
Proof.
  unfold main. destruct (path_exists e (input a)) eqn:Ex; [|cbn; tauto].
  cbn [negb]. rewrite univariate_run, multivariate_run.
  cbn -[path_join univariate_vars multivariate_plots flat_map].
  rewrite !written_app, !written_flat_map. intro H. split; [reflexivity|].
  apply in_app_or in H. destruct H as [H|H].
  - apply in_flat_map in H. destruct H as ([v t] & Hin & H). cbn [fst snd] in H.
    destruct (has_column (read_csv e (input a)) v) eqn:Hc; [|contradiction].
    cbn -[path_join] in H. destruct H as [[= <- <- <-]|[]].
    split.
    + intros v' [<-|[]]. now apply has_column_In.
    + left. exists v. auto.
  - apply in_app_or in H. destruct H as [H|H]; [|cbn in H; contradiction].
    apply in_flat_map in H. destruct H as ([vs t] & Hin & H). cbn [fst snd] in H.
    destruct (forallb (has_column (read_csv e (input a))) vs) eqn:Hc; [|contradiction].
    cbn -[path_join] in H. destruct H as [[= <- <- <-]|[]].
    split.
    + intros v' Hv. apply has_column_In.
      rewrite forallb_forall in Hc. now apply Hc.
    + right. auto.
Qed.

End VisualizationFacts.

Section MissingValues.
Import Float Frame DataExploration.

Lemma positive_counts_sum (l : list (string * nat)) :
  fold_right Nat.add 0%nat (map snd (filter (fun cn => (0 <? snd cn)%nat) l))
  = fold_right Nat.add 0%nat (map snd l).
Proof.
  induction l as [|[c n] rest IH]; [reflexivity|]. cbn [filter snd].
  destruct n as [|n].
  - change (0 <? 0)%nat with false. cbn [map snd fold_right]. now rewrite IH.
  - change (0 <? Datatypes.S n)%nat with true. cbn [map snd fold_right].
    now rewrite IH.
Qed.

Lemma positive_count_total (l : list (string * nat)) c n :
  In (c, n) l -> (0 < n)%nat -> (0 < fold_right Nat.add 0%nat (map snd l))%nat.
Proof.
  induction l as [|[c' n'] rest IH]; [contradiction|].
  cbn [map fold_right snd]. intros [[= -> ->]|H] L; [lia|].
  specialize (IH H L). lia.
Qed.

Lemma isna_count_le (vs : list cell) :
  (List.length (filter cell_isna vs) <= List.length vs)%nat.
Proof. induction vs as [|v vs IH]; simpl; [lia|]. destruct (cell_isna v); simpl; lia. Qed.

Lemma isna_count_positive (vs : list cell) :
  (0 <? List.length (filter cell_isna vs))%nat = existsb cell_isna vs.
Proof.
  induction vs as [|v vs IH]; [reflexivity|]. cbn [filter existsb].
  destruct (cell_isna v); [reflexivity|exact IH].
Qed.

(** The guard [total_missing > 0] changes nothing: without a missing value
    no column passes the filter. *)
Lemma missing_items_filter df :
  missing_items df = filter (fun cn => (0 <? snd cn)%nat) (missing df).
Proof.
  unfold missing_items. destruct (0 <? total_missing df)%nat eqn:T; [reflexivity|].
  apply Nat.ltb_ge in T.
  destruct (filter (fun cn => (0 <? snd cn)%nat) (missing df)) as [|[c n] rest] eqn:E;
    [reflexivity|].
  assert (H : In (c, n) (filter (fun cn => (0 <? snd cn)%nat) (missing df)))
    by (rewrite E; now left).
  apply filter_In in H. destruct H as [H L]. apply Nat.ltb_lt in L. cbn [snd] in L.
  pose proof (positive_count_total _ _ _ H L) as P. unfold total_missing in T. lia.
Qed.

Lemma missing_names (cs0 cs : list column) :
  (forall x, In x cs -> find_column cs0 (col_name x) = Some x) ->
  map fst (filter (fun cn : string * nat => (0 <? snd cn)%nat)
             (map (fun x => (col_name x, List.length (filter cell_isna (col_values x))))
                cs))
  = filter (fun c =>
              match find_column cs0 c with
              | Some x => existsb cell_isna (col_values x)
              | None => false
              end) (map col_name cs).
Proof.
  induction cs as [|x rest IH]; intro H; [reflexivity|].
  cbn [map filter snd]. rewrite (H x (or_introl eq_refl)), isna_count_positive.
  destruct (existsb cell_isna (col_values x)); cbn [map fst];
    rewrite IH by (intros y Hy; apply H; now right); reflexivity.
Qed.

(** X24. On a table with distinct column names and one cell per row in
    every column, the missing-value list of data_exploration.py names
    exactly the columns with at least one missing cell, in the order of the
    table, each with the number of its missing cells; that number is at most
    the number of rows; and the numbers listed add up to the total the
    report prints. *)
Theorem missing_items_are_columns_with_gaps (df : DataFrame) :
  well_formed df ->
  (forall c n,
     In (c, n) (missing_items df) <->
     exists x, get_column df c = Some x /\
       n = List.length (filter cell_isna (col_values x)) /\ (0 < n)%nat) /\
  (forall c n, In (c, n) (missing_items df) -> (n <= nrows df)%nat) /\
  map fst (missing_items df)
  = filter (fun c =>
              match get_column df c with
              | Some x => existsb cell_isna (col_values x)
              | None => false
              end) (columns df) /\
  fold_right Nat.add 0%nat (map snd (missing_items df)) = total_missing df.
Proof.
  intros [Hn Hl].
  assert (Hin : forall c n,
     In (c, n) (missing_items df) <->
     exists x, get_column df c = Some x /\
       n = List.length (filter cell_isna (col_values x)) /\ (0 < n)%nat).
  { intros c n. unfold missing_items. split.
    - destruct (0 <? total_missing df)%nat; [|contradiction].
      intro H. apply filter_In in H. destruct H as [H L]. cbn [snd] in L.
      apply Nat.ltb_lt in L. unfold missing in H. apply in_map_iff in H.
      destruct H as (x & [= <- <-] & Hx).
      exists x. split; [now apply find_column_In|]. auto.
    - intros (x & Hx & -> & L).
      destruct (find_column_name _ _ _ Hx) as [Hname Hxin].
      assert (Hm : In (c, List.length (filter cell_isna (col_values x))) (missing df)).
      { unfold missing. apply in_map_iff. exists x. now rewrite Hname. }
      assert (T : (0 <? total_missing df)%nat = true).
      { apply Nat.ltb_lt. unfold total_missing.
        exact (positive_count_total _ _ _ Hm L). }
      rewrite T. apply filter_In. split; [exact Hm|]. now apply Nat.ltb_lt. }
  split; [exact Hin|]. split; [|split].
  - intros c n H. apply Hin in H. destruct H as (x & Hx & -> & L).
    destruct (find_column_name _ _ _ Hx) as [_ Hxin].
    rewrite Forall_forall in Hl. specialize (Hl x Hxin).
    pose proof (isna_count_le (col_values x)) as Hle. now rewrite Hl in Hle.
  - rewrite missing_items_filter. unfold missing, columns, get_column.
    apply missing_names. intros x Hx. now apply find_column_In.
  - unfold missing_items.
    destruct (0 <? total_missing df)%nat eqn:T.
    + unfold total_missing.
      rewrite <- (positive_counts_sum (missing df)). reflexivity.
    + apply Nat.ltb_ge in T. cbn. lia.
Qed.

End MissingValues.

(** ** The further properties on the sample data *)

Lemma detect_masks_cover_rows_witness :
  List.length [false; false; false; false; false; false; false; true]
  = Frame.nrows Samples.survey.
Proof.
  apply (detect_masks_cover_rows Samples.no_parse Samples.survey
           ["BMI"; "MentHlth"]%string (Some (3 # 2)%Q)
           [("BMI"%string, [false; false; false; false; false; false; false; true]);
            ("MentHlth"%string,
             [false; false; false; false; false; false; false; false])]
           [("BMI"%string, (Some (2112 # 128)%Q, Some (3904 # 128)%Q));
            ("MentHlth"%string, (None, None))]
           "BMI"%string).
  - split; [repeat constructor; simpl; intuition discriminate|].
    repeat constructor.
  - reflexivity.
  - reflexivity.
Defined.



Lemma summary_sorted_by_column_then_method_witness :
  Sorted Outlier.summary_order Samples.survey_summary /\
  Permutation
    (Outlier.summary_rows
       [("iqr_outlier"%string,
         [("BMI"%string, [false; false; false; false; false; false; false; true]);
          ("MentHlth"%string,
           [false; false; false; false; false; false; false; false])])])
    Samples.survey_summary.
Proof.
  apply (summary_sorted_by_column_then_method
           [("iqr_outlier"%string,
             [("BMI"%string, [false; false; false; false; false; false; false; true]);
              ("MentHlth"%string,
               [false; false; false; false; false; false; false; false])])]).
  reflexivity.
Defined.



Lemma export_main_writes_after_checks_witness :
  ExportMain.outdir_ready Samples.open_world ExportMain.default_args = true /\
  ExportMain.fetch_ucirepo Samples.open_world 891 <> None /\
  exists rest,
    ExportMain.files (Script.trace
      (ExportMain.main Samples.open_world ExportMain.default_args))
    = "dataset_891/metadata.json"%string :: rest.
Proof.
  apply (export_main_writes_after_checks Samples.open_world ExportMain.default_args).
  vm_compute. discriminate.
Defined.

Lemma default_outdir_injective_witness :
  ExportMain.id (ExportMain.mkArgs 891 None false)
  = ExportMain.id (ExportMain.mkArgs 891 None true).
Proof.
  apply default_outdir_injective; reflexivity.
Defined.

Lemma combined_keeps_features_witness :
  Frame.get_column
    (Frame.mkFrame 2
       [Frame.mkColumn "y" Frame.int64 (Samples.ints [1; 2]%Z);
        Frame.mkColumn "y_target" Frame.int64 (Samples.ints [7; 8]%Z)]) "y"
  = Frame.get_column Samples.collide_features "y".
Proof.
  destruct (combined_keeps_features (fun _ => true)
              Samples.collide_features Samples.collide_targets "out"
              "out/combined.csv"
              (Frame.mkFrame 2
                 [Frame.mkColumn "y" Frame.int64 (Samples.ints [1; 2]%Z);
                  Frame.mkColumn "y_target" Frame.int64 (Samples.ints [7; 8]%Z)]))
    as (_ & _ & _ & _ & H).
  - split; [repeat constructor; simpl; intuition discriminate|repeat constructor].
  - discriminate.
  - vm_compute. auto.
  - apply H. vm_compute. intuition discriminate.
Defined.

(** Features without rows: the combined table takes the rows of the
    targets, and the feature column is filled with NaN. *)
Lemma combined_for_empty_features :
  ExportData.csv_written (Script.trace
    (ExportData.combine (fun _ => true)
       (Frame.mkFrame 0 [Frame.mkColumn "a" Frame.int64 []])
       Samples.collide_targets "out"))
  = [("out/combined.csv"%string,
      Frame.mkFrame 2
        [Frame.mkColumn "a" Frame.float64 [Frame.VNaN; Frame.VNaN];
         Frame.mkColumn "y" Frame.int64 (Samples.ints [7; 8]%Z)])].
Proof. reflexivity. Qed.

Lemma class_stats_counts_partition_witness :
  exists rows,
    In ("output/class_stats.csv"%string, ClassStats.ClassCsv rows)
       (Script.written (Script.trace
          (ClassStats.main Samples.survey_env
             (ClassStats.mkArgs "dataset_891/combined.csv" "output")))) /\
    ClassStats.count_sum
      (filter (fun r => String.eqb (ClassStats.Variable_ r) "MentHlth") rows) = 7%nat.
Proof.
  destruct (class_stats_counts_partition Samples.survey_env
              (ClassStats.mkArgs "dataset_891/combined.csv" "output") "MentHlth")
    as (rows & Hin & Hsum & _).
  - repeat constructor; simpl; intuition discriminate.
  - reflexivity.
  - vm_compute. auto.
  - exists rows. split; [exact Hin|exact Hsum].
Defined.

Lemma class_stats_percentages_witness :
  exists rows,
    In ("output/class_stats.csv"%string, ClassStats.ClassCsv rows)
       (Script.written (Script.trace
          (ClassStats.main Samples.answers_env ClassStats.default_args))) /\
    forall r,
      In r (filter (fun r => String.eqb (ClassStats.Variable_ r) "Smoker") rows) ->
      ClassStats.Percentage r
      = Double.Round
          (Double.mul
             (Double.div (Double.of_nat (ClassStats.Count r)) (Double.of_nat 160))
             (Double.of_Z 100)) 2.
Proof.
  destruct (class_stats_percentages Samples.answers_env ClassStats.default_args
              "Smoker") as (rows & Hin & H).
  - repeat constructor; simpl; intuition discriminate.
  - reflexivity.
  - vm_compute. auto.
  - exists rows. split; [exact Hin|]. exact H.
Defined.

Lemma class_stats_run_completes_witness :
  Script.result (ClassStats.main Samples.survey_env
                   (ClassStats.mkArgs "dataset_891/combined.csv" "output"))
  = Script.Return tt /\
  map fst (Script.written (Script.trace
    (ClassStats.main Samples.survey_env
       (ClassStats.mkArgs "dataset_891/combined.csv" "output"))))
  = ["output/class_stats.csv"%string].
Proof.
  destruct (class_stats_run_completes Samples.survey_env
              (ClassStats.mkArgs "dataset_891/combined.csv" "output"))
    as (R & _ & W).
  - reflexivity.
  - split; [exact R|].
    destruct W as [(rows & W & _) _]; [vm_compute; discriminate|].
    rewrite W. reflexivity.
Defined.

Lemma numeric_stats_rows_witness :
  "MentHlth"%string <> NumericStats.target_col /\
  exists x,
    Frame.get_column Samples.survey "MentHlth" = Some x /\
    (Frame.col_dtype x = Frame.int64 \/ Frame.col_dtype x = Frame.uint64 \/
     Frame.col_dtype x = Frame.float64) /\
    Frame.dropna (Frame.col_values x) <> [] /\
    7%nat = List.length (Frame.dropna (Frame.col_values x)).
Proof.
  destruct (numeric_stats_rows nat (fun l => List.length l) Samples.survey_env
              (NumericStats.mkArgs "dataset_891/combined.csv" "output")
              "output/numeric_stats.csv"
              [("BMI"%string, 8%nat); ("MentHlth"%string, 7%nat)]) as [_ R].
  - repeat constructor; simpl; intuition discriminate.
  - vm_compute. auto.
  - apply (proj1 (R "MentHlth"%string 7%nat)). right. now left.
Defined.

Lemma numeric_stats_outcome_witness :
  Script.result (NumericStats.main nat (fun l => List.length l) Samples.survey_env
                   (NumericStats.mkArgs "dataset_891/combined.csv" "output"))
  <> Script.Raise (Script.KeyError "Variable").
Proof.
  destruct (numeric_stats_outcome nat (fun l => List.length l) Samples.survey_env
              (NumericStats.mkArgs "dataset_891/combined.csv" "output"))
    as [[K _] _].
  - repeat constructor; simpl; intuition discriminate.
  - reflexivity.
  - intro H. destruct (K H) as [_ E].
    specialize (E "BMI"%string Samples.bmi). discriminate E; vm_compute; auto.
Defined.

Lemma normality_run_completes_witness :
  Script.result (Tests.normality_main Samples.shapiro Samples.survey_env
                   Tests.default_args) = Script.Return tt /\
  exists rows,
    Script.written (Script.trace
      (Tests.normality_main Samples.shapiro Samples.survey_env Tests.default_args))
    = [("output/normality_test.csv"%string, Tests.ResultsCsv rows)] /\
    map Tests.Variable_ rows = ["BMI"; "MentHlth"]%string.
Proof.
  destruct (normality_run_completes Samples.shapiro Samples.survey_env
              Tests.default_args) as (R & _ & W).
  - reflexivity.
  - split; [exact R|]. apply W. vm_compute. discriminate.
Defined.

Lemma mann_whitney_run_outcome_witness :
  Script.result (Tests.mann_whitney_main Samples.mannwhitneyu Samples.survey_env
                   Tests.default_args) = Script.Return tt /\
  exists rows,
    Script.written (Script.trace
      (Tests.mann_whitney_main Samples.mannwhitneyu Samples.survey_env
         Tests.default_args))
    = [("output/mann_whitney_test.csv"%string, Tests.ResultsCsv rows)] /\
    map Tests.Variable_ rows = ["BMI"; "MentHlth"]%string.
Proof.
  destruct (mann_whitney_run_outcome Samples.mannwhitneyu Samples.survey_env
              Tests.default_args) as (R & _ & W).
  - reflexivity.
  - split; [apply R; right; reflexivity|].
    apply (W Samples.diabetes); [vm_compute; discriminate|reflexivity].
Defined.

Lemma figures_only_for_present_columns_witness :
  In "Diabetes_binary"%string (Frame.columns Samples.survey).
Proof.
  destruct (figures_only_for_present_columns Samples.survey_env
              (Visualization.mkArgs "dataset_891/combined.csv" "figs")
              "figs/multivariate/BMI_Diabetes_binary_box_hue.png"
              ["BMI"; "Diabetes_binary"]%string "box_hue") as (_ & H & _).
  - vm_compute. auto.
  - apply H. right. now left.
Defined.

Lemma missing_items_are_columns_with_gaps_witness :
  In ("MentHlth"%string, 1) (DataExploration.missing_items Samples.survey) /\
  (1 <= Frame.nrows Samples.survey)%nat /\
  map fst (DataExploration.missing_items Samples.survey) = ["MentHlth"%string].
Proof.
  destruct (missing_items_are_columns_with_gaps Samples.survey)
    as (Hin & Hrows & Hnames & _).
  - split; [repeat constructor; simpl; intuition discriminate|repeat constructor].
  - assert (I : In ("MentHlth"%string, 1)
                  (DataExploration.missing_items Samples.survey)).
    { apply Hin. exists Samples.ment. repeat split. lia. }
    split; [exact I|]. split; [exact (Hrows _ _ I)|].
    rewrite Hnames. reflexivity.
Defined.
